(** * mcp-microsoft: the site page renderer, the record normalizers and the
      paginated collectors, embedded from the Go sources.

    - [GoStrings]: the functions of Go's [strings] package the code calls.
    - [Regexp]: the fragment of Go's [regexp] the rules of [htmlToMarkdown]
      are written in, with leftmost-first matching.
    - [Sites], [Users], [Applications]: the three [api] packages. *)

From Stdlib Require Import Ascii String List ZArith.
From stdpp Require Import base list strings gmap pretty.

Local Open Scope string_scope.
Set Warnings "-register-all".

(** ** Go strings: sequences of bytes *)

Module GoStrings.

(** Bytes that cannot be typed inside a string literal. *)
Definition LF : string := String "010"%char "".
Definition DQ : string := String "034"%char "".

(** [strings.HasPrefix] together with the rest after the prefix. *)
Fixpoint CutPrefix (prefix s : string) : option string :=
  match prefix, s with
  | EmptyString, _ => Some s
  | String a p, String b t => if Ascii.eqb a b then CutPrefix p t else None
  | String _ _, EmptyString => None
  end.

Definition HasPrefix (s prefix : string) : bool :=
  match CutPrefix prefix s with Some _ => true | None => false end.

(** [s[:n]]. *)
Fixpoint take (n : nat) (s : string) : string :=
  match n, s with
  | S m, String a t => String a (take m t)
  | _, _ => ""
  end.

Fixpoint rev_onto (s acc : string) : string :=
  match s with
  | EmptyString => acc
  | String a t => rev_onto t (String a acc)
  end.

Definition rev (s : string) : string := rev_onto s "".

Fixpoint concat (l : list string) : string :=
  match l with
  | [] => ""
  | x :: r => x +:+ concat r
  end.

(** [strings.IndexByte(s, c) >= 0]. *)
Fixpoint ContainsByte (c : ascii) (s : string) : bool :=
  match s with
  | EmptyString => false
  | String a t => Ascii.eqb a c || ContainsByte c t
  end.

(** [strings.Replace(s, old, new, n)] for a non-empty [old]: the first [n]
    non-overlapping occurrences, all of them when [n < 0]. [skip] counts
    the bytes of an occurrence still to be dropped. With an empty [old]
    Go inserts [new] around every rune; no call of the code passes one,
    and the model leaves [s] as it is. *)
Fixpoint replace_from (old new : string) (limit : option nat) (skip : nat)
    (s : string) : string :=
  match skip with
  | S k =>
      match s with
      | String _ t => replace_from old new limit k t
      | EmptyString => ""
      end
  | O =>
      match s with
      | EmptyString => ""
      | String a t =>
          if HasPrefix s old && negb (bool_decide (limit = Some O)) then
            new +:+ replace_from old new (Nat.pred <$> limit)
                      (Nat.pred (String.length old)) t
          else String a (replace_from old new limit O t)
      end
  end.

Definition Replace (s old new : string) (n : Z) : string :=
  match old with
  | EmptyString => s
  | _ => replace_from old new
           (if (n <? 0)%Z then None else Some (Z.to_nat n)) O s
  end.

Definition byte_is (x n : nat) : bool := Nat.eqb x n.
Definition within (lo hi x : nat) : bool := Nat.leb lo x && Nat.leb x hi.

Definition ascii_space (x : nat) : bool := within 9 13 x || byte_is x 32.

(** [unicode.IsSpace] on the UTF-8 encoding: the width in bytes of the
    white-space rune [s] starts with, [0] when it starts with none.
    U+0009..U+000D, U+0020, U+0085, U+00A0, U+1680, U+2000..U+200A,
    U+2028, U+2029, U+202F, U+205F, U+3000. *)
Definition space_width (s : string) : nat :=
  match s with
  | String a t =>
      let x := nat_of_ascii a in
      if ascii_space x then 1
      else match t with
      | String b u =>
          let y := nat_of_ascii b in
          if byte_is x 194 && (byte_is y 133 || byte_is y 160) then 2
          else match u with
          | String c _ =>
              let z := nat_of_ascii c in
              if byte_is x 225 && byte_is y 154 && byte_is z 128 then 3
              else if byte_is x 226 && byte_is y 128
                      && (within 128 138 z || byte_is z 168 || byte_is z 169
                          || byte_is z 175) then 3
              else if byte_is x 226 && byte_is y 129 && byte_is z 159 then 3
              else if byte_is x 227 && byte_is y 128 && byte_is z 128 then 3
              else 0
          | EmptyString => 0
          end
      | EmptyString => 0
      end
  | EmptyString => 0
  end.

(** The same on the reversed string, for the white space at the end. *)
Definition space_width_back (r : string) : nat :=
  match r with
  | String a t =>
      if ascii_space (nat_of_ascii a) then 1
      else match t with
      | String b u =>
          if byte_is (space_width (String b (String a ""))) 2 then 2
          else match u with
          | String c _ =>
              if byte_is (space_width (String c (String b (String a "")))) 3
              then 3 else 0
          | EmptyString => 0
          end
      | EmptyString => 0
      end
  | EmptyString => 0
  end.

Fixpoint drop (n : nat) (s : string) : string :=
  match n, s with
  | S m, String _ t => drop m t
  | _, _ => s
  end.

(** [strings.TrimLeftFunc(s, unicode.IsSpace)]; [fuel] bounds the number
    of runes, [String.length s] is enough. *)
Fixpoint trim_left (width : string -> nat) (fuel : nat) (s : string) : string :=
  match fuel with
  | O => s
  | S f =>
      match width s with
      | O => s
      | w => trim_left width f (drop w s)
      end
  end.

Definition TrimLeftSpace (s : string) : string :=
  trim_left space_width (String.length s) s.

Definition TrimRightSpace (s : string) : string :=
  rev (trim_left space_width_back (String.length s) (rev s)).

(** [strings.TrimSpace]. *)
Definition TrimSpace (s : string) : string :=
  TrimRightSpace (TrimLeftSpace s).

End GoStrings.

(** ** The regular expressions of the Markdown rules *)

Module Regexp.
Import GoStrings.

(** One-character classes: [.] (anything but a line feed), [[^c]], [c]. *)
Inductive cclass : Type :=
| Dot
| Not (c : ascii)
| Only (c : ascii).

Definition cmatch (c : cclass) (a : ascii) : bool :=
  match c with
  | Dot => negb (Ascii.eqb a "010")
  | Not x => negb (Ascii.eqb a x)
  | Only x => Ascii.eqb a x
  end.

(** The syntax the patterns of the code need. A star ranges over a
    one-character class, greedy ([x*]) or lazy ([x*?]). The classes match
    one rune in Go and one byte here: every literal of the patterns is
    ASCII, so a match ends on the same byte in both readings. *)
Inductive re : Type :=
| Lit (s : string)
| Star (greedy : bool) (c : cclass)
| Seq (r1 r2 : re)
| Alt (r1 r2 : re)
| Cap (i : nat) (r : re).

Declare Scope re_scope.
Delimit Scope re_scope with re.
Bind Scope re_scope with re.
Infix "·" := Seq (at level 41, right associativity) : re_scope.
Infix "||" := Alt : re_scope.

(** Submatches: group number to matched text; group 0 is the whole match. *)
Definition Captures : Type := gmap nat string.

Section Backtracking.
Context {A : Type}.

(** [x*] takes as many bytes as it can and gives back one at a time;
    [x*?] takes none and takes one more each time the rest fails. *)
Fixpoint star (greedy : bool) (c : cclass) (s : string)
    (k : string -> option A) : option A :=
  match s with
  | String a t =>
      if cmatch c a then
        if greedy then
          match star greedy c t k with
          | Some x => Some x
          | None => k s
          end
        else
          match k s with
          | Some x => Some x
          | None => star greedy c t k
          end
      else k s
  | EmptyString => k s
  end.

(** Leftmost-first matching at the head of [s], by backtracking with
    the continuation [k] for what follows. *)
Fixpoint exec (r : re) (s : string) (caps : Captures)
    (k : string -> Captures -> option A) : option A :=
  match r with
  | Lit l =>
      match CutPrefix l s with
      | Some t => k t caps
      | None => None
      end
  | Star g c => star g c s (fun t => k t caps)
  | Seq r1 r2 => exec r1 s caps (fun t caps1 => exec r2 t caps1 k)
  | Alt r1 r2 =>
      match exec r1 s caps k with
      | Some x => Some x
      | None => exec r2 s caps k
      end
  | Cap i r1 =>
      exec r1 s caps (fun t caps1 =>
        k t (<[i := take (String.length s - String.length t) s]> caps1))
  end.
End Backtracking.

(** A match that starts at the head of [s]: its length and submatches. *)
Definition matchAt (r : re) (s : string) : option (nat * Captures) :=
  exec r s ∅ (fun t caps =>
    let n := String.length s - String.length t in
    Some (n, <[0 := take n s]> caps)).

(** The scan shared by [ReplaceAllString], [FindAllStringSubmatch] and
    [MatchString]: successive leftmost matches that do not overlap. What
    lies between matches is kept byte by byte. [skip] counts the bytes of
    the last match still to be passed; [after] says that a match has just
    ended here, where Go ignores an empty match. *)
Inductive piece : Type :=
| Text (a : ascii)
| Hit (m : Captures).

Fixpoint scan (r : re) (skip : nat) (after : bool) (s : string) : list piece :=
  match skip with
  | S k =>
      match s with
      | String _ t => scan r k true t
      | EmptyString => []
      end
  | O =>
      match matchAt r s with
      | Some (S k, m) =>
          Hit m :: match s with
                   | String _ t => scan r k true t
                   | EmptyString => []
                   end
      | Some (O, m) =>
          (if after then [] else [Hit m])
          ++ match s with
             | String a t => Text a :: scan r O false t
             | EmptyString => []
             end
      | None =>
          match s with
          | String a t => Text a :: scan r O false t
          | EmptyString => []
          end
      end
  end.

(** A replacement template: literal text and [$n] references. *)
Inductive tpart : Type :=
| T (s : string)
| G (n : nat).

Definition expand (template : list tpart) (m : Captures) : string :=
  concat ((fun p => match p with
                    | T s => s
                    | G n => default "" (m !! n)
                    end) <$> template).

Definition ReplaceAllString (r : re) (src : string) (repl : list tpart) : string :=
  concat ((fun p => match p with
                    | Text a => String a ""
                    | Hit m => expand repl m
                    end) <$> scan r O false src).

(** [FindAllStringSubmatch(s, -1)]; [sub m i] is the Go [match[i]]. *)
Definition FindAllStringSubmatch (r : re) (s : string) : list Captures :=
  omap (fun p => match p with Hit m => Some m | Text _ => None end)
       (scan r O false s).

Definition sub (m : Captures) (i : nat) : string := default "" (m !! i).

Definition MatchString (r : re) (s : string) : bool :=
  match FindAllStringSubmatch r s with
  | [] => false
  | _ => true
  end.

End Regexp.

(** ** Go values and the Graph SDK, as far as the code touches them *)

Module Go.

(** A Go [error], by its message. *)
Definition error : Type := string.

(** What an [interface{}] of the attribute maps can hold. [VStrPtr] is a
    [*string] (the backing store keeps pointers), [VEnum] a value of an SDK
    enumeration by its name, [VObj] an SDK model object seen only through
    its handle. *)
Inductive Value : Type :=
| VNil
| VStr (s : string)
| VStrPtr (p : option string)
| VBool (b : bool)
| VNum (n : Z)
| VList (l : list Value)
| VMap (m : gmap string Value)
| VEnum (name : string)
| VObj (handle : string).

(** [map[string]interface{}] *)
Abbreviation Attrs := (gmap string Value).

(** [if field != nil { m[key] = ... }] *)
Definition setIf {A} (key : string) (toValue : A -> Value) (field : option A)
    (m : Attrs) : Attrs :=
  match field with
  | Some x => <[key := toValue x]> m
  | None => m
  end.

(** [for k, v := range additional { m[k] = v }]: every key of
    [additional] is written over what [m] holds. *)
Definition copyInto (additional m : Attrs) : Attrs := additional ∪ m.

(** A call either returns or panics (a nil pointer is dereferenced). *)
Inductive outcome (A : Type) : Type :=
| Done (a : A)
| Panicked.
Arguments Done {A} a.
Arguments Panicked {A}.

Definition bind {A B} (x : outcome A) (f : A -> outcome B) : outcome B :=
  match x with
  | Done a => f a
  | Panicked => Panicked
  end.

(** [*p] *)
Definition deref {A} (p : option A) : outcome A :=
  match p with
  | Some a => Done a
  | None => Panicked
  end.

(** A loop whose body may panic, threading the loop's state. *)
Fixpoint forEach {A S} (body : A -> S -> outcome S) (l : list A) (st : S)
    : outcome S :=
  match l with
  | [] => Done st
  | x :: r => bind (body x st) (forEach body r)
  end.

(** The texts successive steps write to a [strings.Builder]. *)
Fixpoint writeAll (steps : list (outcome string)) : outcome string :=
  match steps with
  | [] => Done ""
  | x :: r => bind x (fun a => bind (writeAll r) (fun b => Done (a +:+ b)))
  end.

End Go.

Module Graph.
Import Go.

(** The query parameters of a collection request ([Filter], [Select]). *)
Record QueryParameters : Type := {
  Filter : option string;
  Select : list string;
}.

(** The parameters [Get] makes up when it is given none: an empty struct. *)
Definition emptyParams : QueryParameters := {| Filter := None; Select := [] |}.

(** The answer of the service to a request. *)
Inductive Fetched (A : Type) : Type :=
| Ok (a : A)
| Failed (err : error).
Arguments Ok {A} a.
Arguments Failed {A} err.

(** A collection response: the records of this page ([GetValue], which may
    be nil) and its [@odata.nextLink]. A link that is present and not
    empty comes with what the request adapter answers when the link is
    followed, so that a response unfolds to the finite run of pages the
    service serves. *)
Inductive Response (T : Type) : Type :=
| Resp (value : option (list T)) (next : Next T)
with Next (T : Type) : Type :=
| NoLink
| EmptyLink
| LinkTo (page : Response T)
| LinkFails (err : error).
Arguments Resp {T} value next.
Arguments NoLink {T}.
Arguments EmptyLink {T}.
Arguments LinkTo {T} page.
Arguments LinkFails {T} err.

Definition GetValue {T} (r : Response T) : option (list T) :=
  match r with Resp value _ => value end.

Definition nextOf {T} (r : Response T) : Next T :=
  match r with Resp _ next => next end.

(** [r.GetOdataNextLink() != nil] *)
Definition hasNextLink {T} (r : Response T) : bool :=
  match nextOf r with NoLink => false | _ => true end.

(** [r.GetOdataNextLink() != nil && *r.GetOdataNextLink() != ""] *)
Definition hasNonEmptyNextLink {T} (r : Response T) : bool :=
  match nextOf r with NoLink | EmptyLink => false | _ => true end.

(** [msgraphcore.PageIterator] (library code): [Iterate] hands every item
    of the current page to the callback, stops when the callback answers
    false or the page has no link (nil or empty), and otherwise follows
    the link, returning the error of a fetch that fails. The iterator
    starts on the response it was created from. *)
Fixpoint enumerate {T S} (callback : T -> S -> S * bool) (items : list T)
    (st : S) : S * bool :=
  match items with
  | [] => (st, true)
  | item :: rest =>
      let '(st1, keepIterating) := callback item st in
      if keepIterating then enumerate callback rest st1 else (st1, false)
  end.

Fixpoint Iterate {T S} (callback : T -> S -> S * bool) (page : Response T)
    (st : S) : S * option error :=
  match page with
  | Resp value next =>
      let '(st1, keepIterating) := enumerate callback (default [] value) st in
      if keepIterating then
        match next with
        | NoLink | EmptyLink => (st1, None)
        | LinkFails err => (st1, Some err)
        | LinkTo nextPage => Iterate callback nextPage st1
        end
      else (st1, None)
  end.

End Graph.

(** ** Package [sites] *)

Module Sites.
Import GoStrings Regexp Go Graph.
Local Open Scope re_scope.

(** *** The SDK models read by the package

    A getter that returns a pointer, a slice or an interface is an
    [option]: [None] is Go's nil. *)

Module WebPart.
Record t : Type := {
  GoType : string;                       (* what [%T] prints *)
  GetBackingStore : option Attrs;        (* [Get(key)] is a lookup *)
  GetAdditionalData : option Attrs;
}.
End WebPart.

Module CanvasColumn.
Record t : Type := { GetWebparts : option (list WebPart.t) }.
End CanvasColumn.

Module HorizontalSection.
Record t : Type := {
  GetLayout : option string;             (* the enum, by its [String()] *)
  GetColumns : option (list CanvasColumn.t);
}.
End HorizontalSection.

Module VerticalSection.
Record t : Type := { GetWebparts : option (list WebPart.t) }.
End VerticalSection.

Module CanvasLayout.
Record t : Type := {
  GetHorizontalSections : option (list HorizontalSection.t);
  GetVerticalSection : option VerticalSection.t;
}.
End CanvasLayout.

Module SitePage.
Record t : Type := {
  GetId : option string;
  GetPageLayout : option string;         (* the enum, by its name *)
  GetPublishingState : option string;    (* handle of the facet *)
  GetTitle : option string;
  GetDescription : option string;
  GetCanvasLayout : option CanvasLayout.t;
  GetAdditionalData : Attrs;
}.
End SitePage.

Module Site.
Record t : Type := {
  GetId : option string;
  GetDisplayName : option string;
  GetIsPersonalSite : option bool;
  GetAnalytics : option string;          (* handles of model objects *)
  GetError : option string;
  GetSharepointIds : option string;
  GetSiteCollection : option string;
  GetAdditionalData : Attrs;
}.
End Site.

(** [*msgraphsdk.GraphServiceClient]: the four requests the package sends. *)
Record GraphServiceClient : Type := {
  (* client.Sites().Get(ctx, requestConfig) *)
  SitesGet : QueryParameters -> Fetched (Response Site.t);
  (* client.Sites().BySiteId(siteId).Sites().Get(ctx, nil) *)
  SubsitesGet : string -> Fetched (Response Site.t);
  (* client.Sites().BySiteId(siteId).Pages().GraphSitePage().Get(ctx, nil) *)
  PagesGet : string -> Fetched (Response SitePage.t);
  (* ...Pages().ByBaseSitePageId(pageId).GraphSitePage().Get(ctx, cfg),
     with canvasLayout expanded *)
  PageGet : string -> string -> Fetched SitePage.t;
}.

(** *** [htmlToMarkdown] *)

(** The patterns, in the order of the function body. *)
Definition h1Regex : re :=
  Lit "<h1" · Star true (Not ">") · Lit ">" · Cap 1 (Star false Dot) · Lit "</h1>".
Definition h2Regex : re :=
  Lit "<h2" · Star true (Not ">") · Lit ">" · Cap 1 (Star false Dot) · Lit "</h2>".
Definition h3Regex : re :=
  Lit "<h3" · Star true (Not ">") · Lit ">" · Cap 1 (Star false Dot) · Lit "</h3>".
Definition h4Regex : re :=
  Lit "<h4" · Star true (Not ">") · Lit ">" · Cap 1 (Star false Dot) · Lit "</h4>".
Definition pRegex : re :=
  Lit "<p" · Star true (Not ">") · Lit ">" · Cap 1 (Star false Dot) · Lit "</p>".

(** The source writes these three inside a raw string as [</\\1>]: an
    escaped backslash and the digit 1. Go's regexp has no back-references,
    so the closing part is the literal text [</\1>]. *)
Definition boldRegex : re :=
  Lit "<" · Cap 1 (Lit "b" || Lit "strong") · Star true (Not ">") · Lit ">"
  · Cap 2 (Star false Dot) · Lit "</\1>".
Definition italicRegex : re :=
  Lit "<" · Cap 1 (Lit "i" || Lit "em") · Star true (Not ">") · Lit ">"
  · Cap 2 (Star false Dot) · Lit "</\1>".
Definition divRegex : re :=
  Lit "<" · Cap 1 (Lit "div" || Lit "span") · Star true (Not ">") · Lit ">"
  · Cap 2 (Star false Dot) · Lit "</\1>".

Definition linkRegex : re :=
  Lit "<a" · Star true (Not ">") · Lit ("href=" +:+ DQ)
  · Cap 1 (Star true (Not "034")) · Lit DQ · Star true (Not ">") · Lit ">"
  · Cap 2 (Star false Dot) · Lit "</a>".
Definition liRegex : re :=
  Lit "<li" · Star true (Not ">") · Lit ">" · Cap 1 (Star false Dot) · Lit "</li>".
Definition olLiRegex : re :=
  Lit "<li" · Star true (Not ">") · Lit ">" · Cap 1 (Star false Dot) · Lit "</li>".
Definition imgRegex : re :=
  Lit "<img" · Star true (Not ">") · Lit ("src=" +:+ DQ)
  · Cap 1 (Star true (Not "034")) · Lit DQ · Star true (Not ">")
  · Lit ("alt=" +:+ DQ) · Cap 2 (Star true (Not "034")) · Lit DQ
  · Star true (Not ">") · Lit ">".
Definition tableRegex : re :=
  Lit "<table" · Star true (Not ">") · Lit ">" · Cap 1 (Star false Dot) · Lit "</table>".
Definition trRegex : re :=
  Lit "<tr" · Star true (Not ">") · Lit ">" · Cap 1 (Star false Dot) · Lit "</tr>".
Definition thRegex : re :=
  Lit "<th" · Star true (Not ">") · Lit ">" · Cap 1 (Star false Dot) · Lit "</th>".
Definition tdRegex : re :=
  Lit "<td" · Star true (Not ">") · Lit ">" · Cap 1 (Star false Dot) · Lit "</td>".
Definition preRegex : re :=
  Lit "<pre" · Star true (Not ">") · Lit ">" · Cap 1 (Star false Dot) · Lit "</pre>".
Definition codeRegex : re :=
  Lit "<code" · Star true (Not ">") · Lit ">" · Cap 1 (Star false Dot) · Lit "</code>".
Definition blockquoteRegex : re :=
  Lit "<blockquote" · Star true (Not ">") · Lit ">" · Cap 1 (Star false Dot)
  · Lit "</blockquote>".
Definition hrRegex : re := Lit "<hr" · Star true (Not ">") · Lit ">".
Definition brRegex : re := Lit "<br" · Star true (Not ">") · Lit ">".
Definition tagRegex : re := Lit "<" · Star true (Not ">") · Lit ">".
(** [\n{3,}] *)
Definition spaceRegex : re := Lit (LF +:+ LF +:+ LF) · Star true (Only "010").

(** The Markdown text built for one [<table>]: [mdTable.String()]. *)
Definition cellsRow (cells : list Captures) : string :=
  concat ((fun cell => "| " +:+ TrimSpace (sub cell 1) +:+ " ") <$> cells)
  +:+ "|" +:+ LF.

Definition separatorRow (n : nat) : string :=
  concat (replicate n "| --- ") +:+ "|" +:+ LF.

Definition columnRow (n : nat) : string :=
  concat ((fun i => "| Column " +:+ pretty (i + 1)%nat +:+ " ") <$> seq 0 n)
  +:+ "|" +:+ LF.

Definition mdTable (tableContent : string) : string :=
  let rows := FindAllStringSubmatch trRegex tableContent in
  (match rows with
   | row0 :: _ =>
       let headerCells := FindAllStringSubmatch thRegex (sub row0 1) in
       match headerCells with
       | _ :: _ => cellsRow headerCells +:+ separatorRow (length headerCells)
       | [] =>
           let firstRowCells := FindAllStringSubmatch tdRegex (sub row0 1) in
           columnRow (length firstRowCells)
           +:+ separatorRow (length firstRowCells)
       end
   | [] => ""
   end)
  +:+ concat ((fun row => cellsRow (FindAllStringSubmatch tdRegex (sub row 1)))
              <$> rows).

(** [for divRegex.MatchString(unescaped) { ... }]. Every pass removes the
    markers of at least one match, so [String.length] passes are enough. *)
Fixpoint unwrapDivs (fuel : nat) (unescaped : string) : string :=
  match fuel with
  | O => unescaped
  | S f =>
      if MatchString divRegex unescaped
      then unwrapDivs f (ReplaceAllString divRegex unescaped [G 2])
      else unescaped
  end.

Section WithLibraries.
(** [html.UnescapeString] of Go's standard library returns its argument
    when it holds no ampersand and decodes the entities otherwise. The
    decoder and its table of entities are the library's:
    [unescapeEntities] stands for them. *)
Variable unescapeEntities : string -> string.

(** [json.MarshalIndent(v, "", "  ")] of the standard library, on the
    map of records the package builds. *)
Variable MarshalIndent : gmap string Attrs -> option string * option error.

Definition UnescapeString (s : string) : string :=
  if ContainsByte "&" s then unescapeEntities s else s.

Definition htmlToMarkdown (htmlContent : string) : string :=
  let unescaped := UnescapeString htmlContent in
  let unescaped := ReplaceAllString h1Regex unescaped [T "# "; G 1; T LF; T LF] in
  let unescaped := ReplaceAllString h2Regex unescaped [T "## "; G 1; T LF; T LF] in
  let unescaped := ReplaceAllString h3Regex unescaped [T "### "; G 1; T LF; T LF] in
  let unescaped := ReplaceAllString h4Regex unescaped [T "#### "; G 1; T LF; T LF] in
  let unescaped := ReplaceAllString pRegex unescaped [G 1; T LF; T LF] in
  let unescaped := ReplaceAllString boldRegex unescaped [T "**"; G 2; T "**"] in
  let unescaped := ReplaceAllString italicRegex unescaped [T "*"; G 2; T "*"] in
  let unescaped := ReplaceAllString linkRegex unescaped [T "["; G 2; T "]("; G 1; T ")"] in
  let unescaped := Replace unescaped "<ul>" LF (-1) in
  let unescaped := Replace unescaped "</ul>" LF (-1) in
  let unescaped := ReplaceAllString liRegex unescaped [T "- "; G 1; T LF] in
  let unescaped := Replace unescaped "<ol>" LF (-1) in
  let unescaped := Replace unescaped "</ol>" LF (-1) in
  let unescaped := ReplaceAllString olLiRegex unescaped [T "1. "; G 1; T LF] in
  let unescaped := ReplaceAllString imgRegex unescaped [T "!["; G 2; T "]("; G 1; T ")"] in
  let tableMatches := FindAllStringSubmatch tableRegex unescaped in
  let unescaped :=
    foldl (fun unescaped m =>
             Replace unescaped (sub m 0) (mdTable (sub m 1)) 1)
          unescaped tableMatches in
  let unescaped :=
    ReplaceAllString preRegex unescaped [T "```"; T LF; G 1; T LF; T "```"; T LF; T LF] in
  let unescaped := ReplaceAllString codeRegex unescaped [T "`"; G 1; T "`"] in
  let unescaped := ReplaceAllString blockquoteRegex unescaped [T "> "; G 1; T LF; T LF] in
  let unescaped := ReplaceAllString hrRegex unescaped [T "---"; T LF; T LF] in
  let unescaped := unwrapDivs (String.length unescaped) unescaped in
  let unescaped := ReplaceAllString brRegex unescaped [T LF] in
  let unescaped := ReplaceAllString tagRegex unescaped [] in
  let unescaped := TrimSpace unescaped in
  let unescaped := ReplaceAllString spaceRegex unescaped [T LF; T LF] in
  unescaped.

(** *** [getPageContent]

    [contentBuilder] is only written to until its text is taken at the
    end, so every part of the walk is given by the text it writes.
    [debugging] is the constant [false]: its branches are left out. *)

Definition isMarkdown (format : string) : bool := String.eqb format "markdown".

(** The web parts of a column first ask the backing store for
    [innerHtml]; the result is the text written and [contentFound]. *)
Definition fromBackingStore (format : string) (webPart : WebPart.t)
    : outcome (string * bool) :=
  match WebPart.GetBackingStore webPart with
  | Some backingStore =>
      match backingStore !! "innerHtml" with
      | Some (VStrPtr htmlStr) =>
          bind (deref htmlStr) (fun htmlStr =>
            if isMarkdown format
            then Done (htmlToMarkdown htmlStr +:+ LF +:+ LF, true)
            else Done ("      Content: " +:+ htmlStr +:+ LF, true))
      | _ => Done ("", false)
      end
  | None => Done ("", false)
  end.

(** The three sources inside the additional data. Each gives the text
    it writes when it sets [contentFound]. The code for a column and
    the code for the vertical section differ in the indentation of the
    plain format only. *)
Definition fromInnerHtml (format indent : string) (data : Attrs) : option string :=
  match data !! "innerHtml" with
  | Some (VStr htmlStr) =>
      Some (if isMarkdown format
            then htmlToMarkdown htmlStr +:+ LF +:+ LF
            else indent +:+ "Content: " +:+ htmlStr +:+ LF)
  | _ => None
  end.

Definition fromText (format indent : string) (data : Attrs) : option string :=
  match data !! "text" with
  | Some (VStr textStr) =>
      Some (if isMarkdown format
            then textStr +:+ LF +:+ LF
            else indent +:+ "Text: " +:+ textStr +:+ LF)
  | _ => None
  end.

Fixpoint fromDataFields (format indent : string) (dataMap : Attrs)
    (fields : list string) : option string :=
  match fields with
  | [] => None
  | field :: rest =>
      match dataMap !! field with
      | Some (VStr strVal) =>
          if String.eqb strVal "" then fromDataFields format indent dataMap rest
          else Some (if isMarkdown format
                     then (if String.eqb field "html"
                           then htmlToMarkdown strVal else strVal)
                          +:+ LF +:+ LF
                     else indent +:+ field +:+ ": " +:+ strVal +:+ LF)
      | _ => fromDataFields format indent dataMap rest
      end
  end.

Definition fromData (format indent : string) (data : Attrs) : option string :=
  match data !! "data" with
  | Some (VMap dataMap) =>
      fromDataFields format indent dataMap
        ["text"; "content"; "value"; "description"; "html"]
  | Some (VStr dataStr) =>
      if String.eqb dataStr "" then None
      else Some (if isMarkdown format
                 then dataStr +:+ LF +:+ LF
                 else indent +:+ "Data: " +:+ dataStr +:+ LF)
  | _ => None
  end.

Definition fromAdditionalData (format indent : string) (data : Attrs)
    (contentFound : bool) : string :=
  if contentFound then ""
  else match fromInnerHtml format indent data with
  | Some written => written
  | None =>
      match fromText format indent data with
      | Some written => written
      | None => default "" (fromData format indent data)
      end
  end.

(** One web part of a column of a horizontal section. *)
Definition horizontalWebPart (format : string) (wpIdx : nat)
    (webPart : WebPart.t) : outcome string :=
  bind (fromBackingStore format webPart) (fun '(written, contentFound) =>
    Done ((if isMarkdown format then ""
           else "    Web Part " +:+ pretty (wpIdx + 1)%nat +:+ " (Type: "
                +:+ WebPart.GoType webPart +:+ "):" +:+ LF)
          +:+ written
          +:+ match WebPart.GetAdditionalData webPart with
              | Some data => fromAdditionalData format "      " data contentFound
              | None => ""
              end)).

(** One web part of the vertical section: the additional data only. *)
Definition verticalWebPart (format : string) (wpIdx : nat)
    (webPart : WebPart.t) : string :=
  (if isMarkdown format then ""
   else "  Web Part " +:+ pretty (wpIdx + 1)%nat +:+ ":" +:+ LF)
  +:+ match WebPart.GetAdditionalData webPart with
      | Some data => fromAdditionalData format "    " data false
      | None => ""
      end.

Definition columnText (format : string) (colIdx : nat)
    (column : CanvasColumn.t) : outcome string :=
  writeAll
    [ Done (if isMarkdown format then ""
            else "  Column " +:+ pretty (colIdx + 1)%nat +:+ ":" +:+ LF);
      match CanvasColumn.GetWebparts column with
      | Some webParts =>
          writeAll
            (Done (if isMarkdown format then ""
                   else "    Number of web parts: "
                        +:+ pretty (length webParts) +:+ LF)
             :: imap (horizontalWebPart format) webParts)
      | None => Done ""
      end ].

Definition sectionText (format : string) (secIdx : nat)
    (section : HorizontalSection.t) : outcome string :=
  writeAll
    [ if isMarkdown format then Done ""
      else bind (deref (HorizontalSection.GetLayout section)) (fun layout =>
             Done (LF +:+ "Section " +:+ pretty (secIdx + 1)%nat
                   +:+ " (Layout: " +:+ layout +:+ "):" +:+ LF));
      match HorizontalSection.GetColumns section with
      | Some columns =>
          writeAll
            (Done (if isMarkdown format then ""
                   else "  Number of columns: "
                        +:+ pretty (length columns) +:+ LF)
             :: imap (columnText format) columns)
      | None => Done ""
      end ].

Definition verticalText (format : string) (vertSection : VerticalSection.t)
    : string :=
  (if isMarkdown format then "" else LF +:+ "Vertical Section:" +:+ LF)
  +:+ match VerticalSection.GetWebparts vertSection with
      | Some webParts =>
          (if isMarkdown format then ""
           else "  Number of web parts: " +:+ pretty (length webParts) +:+ LF)
          +:+ concat (imap (verticalWebPart format) webParts)
      | None => ""
      end.

Definition canvasText (format : string) (layout : CanvasLayout.t)
    : outcome string :=
  writeAll
    [ Done (if isMarkdown format then ""
            else "--- Canvas Layout Content ---" +:+ LF);
      match CanvasLayout.GetHorizontalSections layout with
      | Some sections =>
          writeAll
            (Done (if isMarkdown format then ""
                   else "Number of horizontal sections: "
                        +:+ pretty (length sections) +:+ LF)
             :: imap (sectionText format) sections)
      | None => Done ""
      end;
      Done (match CanvasLayout.GetVerticalSection layout with
            | Some vertSection => verticalText format vertSection
            | None => ""
            end) ].

Definition titleText (format : string) (page : SitePage.t) : string :=
  match SitePage.GetTitle page with
  | Some title =>
      if isMarkdown format then "## " +:+ title +:+ LF +:+ LF
      else "Title: " +:+ title +:+ LF
  | None => ""
  end.

Definition descriptionText (format : string) (page : SitePage.t) : string :=
  match SitePage.GetDescription page with
  | Some description =>
      if isMarkdown format then "*" +:+ description +:+ "*" +:+ LF +:+ LF
      else "Description: " +:+ description +:+ LF
  | None => ""
  end.

Definition getPageContent (client : GraphServiceClient)
    (siteId pageId format : string) : outcome (string * option error) :=
  match PageGet client siteId pageId with
  | Failed err => Done ("", Some ("error getting page content: " +:+ err))
  | Ok page =>
      bind (writeAll
              [ Done (titleText format page);
                Done (descriptionText format page);
                match SitePage.GetCanvasLayout page with
                | Some layout => canvasText format layout
                | None => Done ""
                end ])
        (fun content =>
           if String.eqb content "" then
             if isMarkdown format
             then Done ("*No detailed content available. Use the page URL to view in browser.*", None)
             else Done ("No detailed content available. Use the page URL to view in browser.", None)
           else Done (content, None))
  end.

(** *** The normalizers *)

Definition convertSiteToMap (site : Site.t) : string * Attrs :=
  let siteID := default "" (Site.GetId site) in
  let siteMap : Attrs := ∅ in
  let siteMap := setIf "id" VStr (Site.GetId site) siteMap in
  let siteMap := setIf "displayName" VStr (Site.GetDisplayName site) siteMap in
  let siteMap := setIf "isPersonalSite" VBool (Site.GetIsPersonalSite site) siteMap in
  let siteMap := setIf "analytics" VObj (Site.GetAnalytics site) siteMap in
  let siteMap := setIf "error" VObj (Site.GetError site) siteMap in
  let siteMap := setIf "sharepointIds" VObj (Site.GetSharepointIds site) siteMap in
  let siteMap := setIf "siteCollection" VObj (Site.GetSiteCollection site) siteMap in
  let siteMap := copyInto (Site.GetAdditionalData site) siteMap in
  (siteID, siteMap).

Definition convertSitePageToMap (page : SitePage.t) : string * Attrs :=
  let siteID := default "" (SitePage.GetId page) in
  let siteMap : Attrs := ∅ in
  let siteMap := setIf "id" VStr (SitePage.GetId page) siteMap in
  let siteMap := setIf "pageLayout" VEnum (SitePage.GetPageLayout page) siteMap in
  let siteMap := setIf "publishingState" VObj (SitePage.GetPublishingState page) siteMap in
  let siteMap := setIf "title" VStr (SitePage.GetTitle page) siteMap in
  let siteMap := copyInto (SitePage.GetAdditionalData page) siteMap in
  (siteID, siteMap).

(** *** [GetSubsites], [GetPages]

    [msgraphcore.NewPageIterator] fails on a response that is nil or has
    no [GetValue]; it is given the response just received and succeeds. *)

Definition GetSubsites (client : GraphServiceClient) (siteId : string)
    : list Site.t * option error :=
  match SubsitesGet client siteId with
  | Failed err => ([], Some ("error fetching subsites: " +:+ err))
  | Ok subsitesResponse =>
      let subsites := default [] (GetValue subsitesResponse) in
      if hasNextLink subsitesResponse then
        let '(subsites, err) :=
          Iterate (fun subsite subsites => ((subsites ++ [subsite])%list, true))
                  subsitesResponse subsites in
        match err with
        | Some err => (subsites, Some ("error iterating through subsites: " +:+ err))
        | None => (subsites, None)
        end
      else (subsites, None)
  end.

Definition GetPages (client : GraphServiceClient) (siteId : string)
    : list SitePage.t * option error :=
  match PagesGet client siteId with
  | Failed err => ([], Some ("error fetching pages: " +:+ err))
  | Ok pagesResponse =>
      let pages := default [] (GetValue pagesResponse) in
      if hasNextLink pagesResponse then
        let '(pages, err) :=
          Iterate (fun page pages => ((pages ++ [page])%list, true))
                  pagesResponse pages in
        match err with
        | Some err => (pages, Some ("error iterating through pages: " +:+ err))
        | None => (pages, None)
        end
      else (pages, None)
  end.

(** *** [Get] *)

Definition defaultParams : QueryParameters :=
  {| Filter := None;
     Select := ["id"; "displayName"; "webUrl"; "siteCollection"; "description"] |}.

(** [id, siteData := convertSiteToMap(site); sitesData[id] = siteData] *)
Definition storeSite (site : Site.t) (sitesData : gmap string Attrs)
    : gmap string Attrs :=
  let '(id, siteData) := convertSiteToMap site in <[id := siteData]> sitesData.

(** The first part of [Get]: the request, the records of the first
    page, and the page iterator when the response has a link. *)
Definition aggregate (client : GraphServiceClient) (params : option QueryParameters)
    : option (gmap string Attrs) * option error :=
  let params := default defaultParams params in
  match SitesGet client params with
  | Failed err => (None, Some err)
  | Ok result =>
      match GetValue result with
      | None => (None, None)
      | Some sites =>
          let sitesData := foldl (fun sitesData site => storeSite site sitesData) ∅ sites in
          if hasNonEmptyNextLink result then
            let '(sitesData, err) :=
              Iterate (fun site sitesData => (storeSite site sitesData, true))
                      result sitesData in
            match err with
            | Some err => (None, Some ("error iterating over sites: " +:+ err))
            | None => (Some sitesData, None)
            end
          else (Some sitesData, None)
      end
  end.

(** The body of the loop over the pages of a site. *)
Definition storePage (client : GraphServiceClient) (id : string)
    (page : SitePage.t) (pageData : Attrs) : outcome Attrs :=
  let '(pageId, pageInfo) := convertSitePageToMap page in
  bind (getPageContent client id pageId "markdown") (fun '(content, err) =>
    let pageInfo :=
      match err with
      | None => <["content" := VStr content]> pageInfo
      | Some _ => <["content" := VStr "Error fetching content"]> pageInfo
      end in
    Done (<[pageId := VMap pageInfo]> pageData)).

(** The body of the loop over [sitesData]: the map of the site after
    the iteration. [continue] leaves it with what was written so far. *)
Definition enrichSite (client : GraphServiceClient) (id : string)
    (site : Attrs) : outcome Attrs :=
  match GetSubsites client id with
  | (_, Some _) => Done site
  | (subsites, None) =>
      let subsiteData : Attrs :=
        foldl (fun subsiteData subsite =>
                 let '(subsiteID, subsiteInfo) := convertSiteToMap subsite in
                 <[subsiteID := VMap subsiteInfo]> subsiteData)
              ∅ subsites in
      let site := <["subsites" := VMap subsiteData]> site in
      match GetPages client id with
      | (_, Some _) => Done site
      | (pages, None) =>
          bind (forEach (storePage client id) pages ∅) (fun pageData =>
            Done (<["pages" := VMap pageData]> site))
      end
  end.

(** [for id, site := range sitesData { ... sitesData[id] = site }]. An
    iteration writes to its own key only, so the order in which Go
    visits the keys does not show in the result. *)
Definition enrich (client : GraphServiceClient) (sitesData : gmap string Attrs)
    : outcome (gmap string Attrs) :=
  forEach (fun '(id, site) sitesData =>
             bind (enrichSite client id site) (fun site =>
               Done (<[id := site]> sitesData)))
          (map_to_list sitesData) sitesData.

Definition Get (client : GraphServiceClient) (params : option QueryParameters)
    : outcome (option string * option error) :=
  match aggregate client params with
  | (Some sitesData, _) =>
      bind (enrich client sitesData) (fun sitesData =>
        Done (MarshalIndent sitesData))
  | (None, err) => Done (None, err)
  end.

End WithLibraries.

End Sites.

(** ** Package [users] *)

Module Users.
Import GoStrings Go Graph.

(** [models.Userable], by its getters. *)
Record User : Type := {
  GetId : option string;
  GetDisplayName : option string;
  GetUserPrincipalName : option string;
  GetMail : option string;
  GetGivenName : option string;
  GetSurname : option string;
  GetJobTitle : option string;
  GetMobilePhone : option string;
  GetOfficeLocation : option string;
  GetBusinessPhones : option (list string);
  GetAccountEnabled : option bool;
  GetCity : option string;
  GetCountry : option string;
  GetDepartment : option string;
  GetCompanyName : option string;
  GetStreetAddress : option string;
  GetPostalCode : option string;
  GetState : option string;
  GetPreferredLanguage : option string;
  GetEmployeeId : option string;
  GetAdditionalData : option Attrs;
}.

(** [client.Users().Get(ctx, requestConfig)] *)
Record GraphServiceClient : Type := {
  UsersGet : QueryParameters -> Fetched (Response User);
}.

Definition VStrings (l : list string) : Value := VList (VStr <$> l).

Definition convertUserToMap (user : User) : string * Attrs :=
  let userId := default "" (GetId user) in
  let userData : Attrs := ∅ in
  let userData := setIf "id" VStr (GetId user) userData in
  let userData := setIf "displayName" VStr (GetDisplayName user) userData in
  let userData := setIf "userPrincipalName" VStr (GetUserPrincipalName user) userData in
  let userData := setIf "mail" VStr (GetMail user) userData in
  let userData := setIf "givenName" VStr (GetGivenName user) userData in
  let userData := setIf "surname" VStr (GetSurname user) userData in
  let userData := setIf "jobTitle" VStr (GetJobTitle user) userData in
  let userData := setIf "mobilePhone" VStr (GetMobilePhone user) userData in
  let userData := setIf "officeLocation" VStr (GetOfficeLocation user) userData in
  let userData := setIf "businessPhones" VStrings (GetBusinessPhones user) userData in
  let userData := setIf "accountEnabled" VBool (GetAccountEnabled user) userData in
  let userData := setIf "city" VStr (GetCity user) userData in
  let userData := setIf "country" VStr (GetCountry user) userData in
  let userData := setIf "department" VStr (GetDepartment user) userData in
  let userData := setIf "companyName" VStr (GetCompanyName user) userData in
  let userData := setIf "streetAddress" VStr (GetStreetAddress user) userData in
  let userData := setIf "postalCode" VStr (GetPostalCode user) userData in
  let userData := setIf "state" VStr (GetState user) userData in
  let userData := setIf "preferredLanguage" VStr (GetPreferredLanguage user) userData in
  let userData := setIf "employeeId" VStr (GetEmployeeId user) userData in
  let userData :=
    match GetAdditionalData user with
    | Some additionalData => copyInto additionalData userData
    | None => userData
    end in
  (userId, userData).

Definition storeUser (user : User) (usersData : gmap string Attrs)
    : gmap string Attrs :=
  let '(id, userData) := convertUserToMap user in <[id := userData]> usersData.

(** [Get] up to the call of [json.MarshalIndent]. The page iterator is
    created from the response just received and starts on it. *)
Definition aggregate (client : GraphServiceClient) (params : option QueryParameters)
    : option (gmap string Attrs) * option error :=
  let params := default emptyParams params in
  match UsersGet client params with
  | Failed err => (None, Some err)
  | Ok result =>
      match GetValue result with
      | None => (None, None)
      | Some users =>
          let usersData := foldl (fun usersData user => storeUser user usersData) ∅ users in
          let '(usersData, err) :=
            Iterate (fun user usersData => (storeUser user usersData, true))
                    result usersData in
          match err with
          | Some err => (None, Some err)
          | None => (Some usersData, None)
          end
      end
  end.

Section WithLibraries.
Variable MarshalIndent : gmap string Attrs -> option string * option error.

Definition Get (client : GraphServiceClient) (params : option QueryParameters)
    : option string * option error :=
  match aggregate client params with
  | (Some usersData, _) => MarshalIndent usersData
  | (None, err) => (None, err)
  end.
End WithLibraries.

End Users.

(** ** Package [applications] *)

Module Applications.
Import GoStrings Go Graph.

(** [models.Applicationable], by its getters. *)
Record Application : Type := {
  GetId : option string;
  GetDisplayName : option string;
  GetAppId : option string;
  GetPublisherDomain : option string;
  GetCreatedDateTime : option string;      (* as [Format(time.RFC3339)] prints it *)
  GetApplicationTemplateId : option string;
  GetDefaultRedirectUri : option string;
  GetDescription : option string;
  GetDisabledByMicrosoftStatus : option string;
  GetGroupMembershipClaims : option string;
  GetIsDeviceOnlyAuthSupported : option bool;
  GetIsFallbackPublicClient : option bool;
  GetNotes : option string;
  GetOauth2RequirePostResponse : option bool;
  GetSamlMetadataUrl : option string;
  GetServiceManagementReference : option string;
  GetSignInAudience : option string;
  GetTags : option (list string);
  GetTokenEncryptionKeyId : option string; (* the UUID, as [String()] prints it *)
  GetUniqueName : option string;
  GetLogo : string;                        (* bytes; nil is the empty slice *)
  GetApi : option string;                  (* handles of model objects *)
  GetWeb : option string;
  GetSpa : option string;
  GetCertification : option string;
  GetInfo : option string;
  GetVerifiedPublisher : option string;
  GetAdditionalData : option Attrs;
}.

(** [client.Applications().Get(ctx, requestConfig)] *)
Record GraphServiceClient : Type := {
  ApplicationsGet : QueryParameters -> Fetched (Response Application);
}.

Definition VStrings (l : list string) : Value := VList (VStr <$> l).

Section WithLibraries.
(** [base64.StdEncoding.EncodeToString] and [json.MarshalIndent]. *)
Variable EncodeToString : string -> string.
Variable MarshalIndent : gmap string Attrs -> option string * option error.

Definition convertApplicationToMap (application : Application) : string * Attrs :=
  let appId := default "" (GetId application) in
  let appMap : Attrs := ∅ in
  let appMap := setIf "id" VStr (GetId application) appMap in
  let appMap := setIf "displayName" VStr (GetDisplayName application) appMap in
  let appMap := setIf "appId" VStr (GetAppId application) appMap in
  let appMap := setIf "publisherDomain" VStr (GetPublisherDomain application) appMap in
  let appMap := setIf "createdDateTime" VStr (GetCreatedDateTime application) appMap in
  let appMap := setIf "applicationTemplateId" VStr (GetApplicationTemplateId application) appMap in
  let appMap := setIf "defaultRedirectUri" VStr (GetDefaultRedirectUri application) appMap in
  let appMap := setIf "description" VStr (GetDescription application) appMap in
  let appMap := setIf "disabledByMicrosoftStatus" VStr (GetDisabledByMicrosoftStatus application) appMap in
  let appMap := setIf "groupMembershipClaims" VStr (GetGroupMembershipClaims application) appMap in
  let appMap := setIf "isDeviceOnlyAuthSupported" VBool (GetIsDeviceOnlyAuthSupported application) appMap in
  let appMap := setIf "isFallbackPublicClient" VBool (GetIsFallbackPublicClient application) appMap in
  let appMap := setIf "notes" VStr (GetNotes application) appMap in
  let appMap := setIf "oauth2RequirePostResponse" VBool (GetOauth2RequirePostResponse application) appMap in
  let appMap := setIf "samlMetadataUrl" VStr (GetSamlMetadataUrl application) appMap in
  let appMap := setIf "serviceManagementReference" VStr (GetServiceManagementReference application) appMap in
  let appMap := setIf "signInAudience" VStr (GetSignInAudience application) appMap in
  let appMap := setIf "tags" VStrings (GetTags application) appMap in
  let appMap := setIf "tokenEncryptionKeyId" VStr (GetTokenEncryptionKeyId application) appMap in
  let appMap := setIf "uniqueName" VStr (GetUniqueName application) appMap in
  let appMap :=
    if (0 <? String.length (GetLogo application))%nat
    then <["logo" := VStr (EncodeToString (GetLogo application))]> appMap
    else appMap in
  let appMap := setIf "api" (fun _ => VStr "ApiApplication present") (GetApi application) appMap in
  let appMap := setIf "web" (fun _ => VStr "WebApplication present") (GetWeb application) appMap in
  let appMap := setIf "spa" (fun _ => VStr "SpaApplication present") (GetSpa application) appMap in
  let appMap := setIf "certification" (fun _ => VStr "Certification present") (GetCertification application) appMap in
  let appMap := setIf "info" (fun _ => VStr "InformationalUrl present") (GetInfo application) appMap in
  let appMap := setIf "verifiedPublisher" (fun _ => VStr "VerifiedPublisher present") (GetVerifiedPublisher application) appMap in
  let appMap :=
    match GetAdditionalData application with
    | Some additional => copyInto additional appMap
    | None => appMap
    end in
  (appId, appMap).

Definition storeApplication (application : Application)
    (applicationsData : gmap string Attrs) : gmap string Attrs :=
  let '(id, applicationData) := convertApplicationToMap application in
  <[id := applicationData]> applicationsData.

(** [Get] up to the call of [json.MarshalIndent]. *)
Definition aggregate (client : GraphServiceClient) (params : option QueryParameters)
    : option (gmap string Attrs) * option error :=
  let params := default emptyParams params in
  match ApplicationsGet client params with
  | Failed err => (None, Some err)
  | Ok result =>
      match GetValue result with
      | None => (None, None)
      | Some applications =>
          let applicationsData :=
            foldl (fun applicationsData application =>
                     storeApplication application applicationsData)
                  ∅ applications in
          let '(applicationsData, err) :=
            Iterate (fun application applicationsData =>
                       (storeApplication application applicationsData, true))
                    result applicationsData in
          match err with
          | Some err => (None, Some err)
          | None => (Some applicationsData, None)
          end
      end
  end.

Definition Get (client : GraphServiceClient) (params : option QueryParameters)
    : option string * option error :=
  match aggregate client params with
  | (Some applicationsData, _) => MarshalIndent applicationsData
  | (None, err) => (None, err)
  end.
End WithLibraries.

End Applications.

(** ** Words of the specification *)

Module Spec.
Import GoStrings Go Graph.

(** Following the links of a response, a fetch fails with [err]. *)
Inductive fetchFails {T : Type} : Response T -> error -> Prop :=
| fails_here value err : fetchFails (Resp value (LinkFails err)) err
| fails_later value page err :
    fetchFails page err -> fetchFails (Resp value (LinkTo page)) err.

(** Every link of the run is fetched. *)
Fixpoint allFetched {T : Type} (page : Response T) : bool :=
  match page with
  | Resp _ NoLink | Resp _ EmptyLink => true
  | Resp _ (LinkFails _) => false
  | Resp _ (LinkTo nextPage) => allFetched nextPage
  end.

(** The records of a response and of the pages its links lead to, in the
    order in which they are served. *)
Fixpoint records {T : Type} (page : Response T) : list T :=
  match page with
  | Resp value (LinkTo nextPage) => default [] value ++ records nextPage
  | Resp value _ => default [] value
  end.

(** A canvas with no horizontal section and no web part in the vertical
    section. *)
Definition hasNoBlocks (layout : Sites.CanvasLayout.t) : bool :=
  match Sites.CanvasLayout.GetHorizontalSections layout with
  | None | Some [] => true
  | Some (_ :: _) => false
  end
  && match Sites.CanvasLayout.GetVerticalSection layout with
     | None => true
     | Some vertSection =>
         match Sites.VerticalSection.GetWebparts vertSection with
         | None | Some [] => true
         | Some (_ :: _) => false
         end
     end.

(** What [Get] stores as the [content] of a page: the rendered document, or
    the sentinel when [getPageContent] returns an error. *)
Definition contentOrSentinel (rendered : string * option error) : string :=
  match rendered with
  | (content, None) => content
  | (_, Some _) => "Error fetching content"
  end.

Definition noContentMarkdown : string :=
  "*No detailed content available. Use the page URL to view in browser.*".

(** The entry a page is stored under holds the content of that page. *)
Definition holdsContent (unescapeEntities : string -> string)
    (client : Sites.GraphServiceClient) (siteId : string) (pageData : Attrs)
    (page : Sites.SitePage.t) : Prop :=
  let pageId := (Sites.convertSitePageToMap page).1 in
  exists pageInfo rendered,
    pageData !! pageId = Some (VMap pageInfo)
    /\ Sites.getPageContent unescapeEntities client siteId pageId "markdown"
       = Done rendered
    /\ pageInfo !! "content" = Some (VStr (contentOrSentinel rendered)).

(** No web part of a column of the page keeps a nil [*string] under
    [innerHtml] in its backing store. *)
Definition keepsNoNilPointer (page : Sites.SitePage.t) : Prop :=
  forall layout sections section columns column webParts webPart backingStore,
    Sites.SitePage.GetCanvasLayout page = Some layout ->
    Sites.CanvasLayout.GetHorizontalSections layout = Some sections ->
    section ∈ sections ->
    Sites.HorizontalSection.GetColumns section = Some columns ->
    column ∈ columns ->
    Sites.CanvasColumn.GetWebparts column = Some webParts ->
    webPart ∈ webParts ->
    Sites.WebPart.GetBackingStore webPart = Some backingStore ->
    backingStore !! "innerHtml" <> Some (VStrPtr None).

(** No key of the attribute map holds nil. *)
Definition noNil (m : Attrs) : Prop := forall k, m !! k <> Some VNil.

(** The pattern starts with the literal [l]. *)
Definition startsWith (l : string) (r : Regexp.re) : Prop :=
  exists rest, r = Regexp.Seq (Regexp.Lit l) rest.

End Spec.

(** ** Concrete inputs *)

Module Examples.
Import GoStrings Go Graph.

(** A decoder to run [htmlToMarkdown] on closed inputs. The inputs below
    hold no ampersand, so [UnescapeString] never calls it. *)
Definition keepEntities : string -> string := fun s => s.

(** A text web part with [innerHtml] in its backing store and [text] in its
    additional data. *)
Definition bothSources : Sites.WebPart.t :=
  {| Sites.WebPart.GoType := "*models.TextWebPart";
     Sites.WebPart.GetBackingStore := Some {[ "innerHtml" := VStrPtr (Some "<p>A</p>") ]};
     Sites.WebPart.GetAdditionalData := Some {[ "text" := VStr "B" ]} |}.

Definition inColumn (webPart : Sites.WebPart.t) : Sites.CanvasLayout.t :=
  {| Sites.CanvasLayout.GetHorizontalSections :=
       Some [ {| Sites.HorizontalSection.GetLayout := Some "oneColumn";
                 Sites.HorizontalSection.GetColumns :=
                   Some [ {| Sites.CanvasColumn.GetWebparts := Some [webPart] |} ] |} ];
     Sites.CanvasLayout.GetVerticalSection := None |}.

Definition inVerticalSection (webPart : Sites.WebPart.t) : Sites.CanvasLayout.t :=
  {| Sites.CanvasLayout.GetHorizontalSections := None;
     Sites.CanvasLayout.GetVerticalSection :=
       Some {| Sites.VerticalSection.GetWebparts := Some [webPart] |} |}.

Definition emptyCanvas : Sites.CanvasLayout.t :=
  {| Sites.CanvasLayout.GetHorizontalSections := Some [];
     Sites.CanvasLayout.GetVerticalSection :=
       Some {| Sites.VerticalSection.GetWebparts := Some [] |} |}.

Definition page (id : string) (title : option string)
    (layout : option Sites.CanvasLayout.t) : Sites.SitePage.t :=
  {| Sites.SitePage.GetId := Some id;
     Sites.SitePage.GetPageLayout := Some "article";
     Sites.SitePage.GetPublishingState := None;
     Sites.SitePage.GetTitle := title;
     Sites.SitePage.GetDescription := None;
     Sites.SitePage.GetCanvasLayout := layout;
     Sites.SitePage.GetAdditionalData := ∅ |}.

(** A service that answers every page request with [p]. *)
Definition serving (p : Sites.SitePage.t) : Sites.GraphServiceClient :=
  {| Sites.SitesGet := fun _ => Failed "unavailable";
     Sites.SubsitesGet := fun _ => Failed "unavailable";
     Sites.PagesGet := fun _ => Failed "unavailable";
     Sites.PageGet := fun _ _ => Ok p |}.

(** A user whose additional data repeats a typed key and holds a null. *)
Definition ann : Users.User :=
  {| Users.GetId := Some "u1";
     Users.GetDisplayName := Some "Ann";
     Users.GetUserPrincipalName := None;
     Users.GetMail := None;
     Users.GetGivenName := None;
     Users.GetSurname := None;
     Users.GetJobTitle := None;
     Users.GetMobilePhone := None;
     Users.GetOfficeLocation := None;
     Users.GetBusinessPhones := Some [];
     Users.GetAccountEnabled := Some true;
     Users.GetCity := None;
     Users.GetCountry := None;
     Users.GetDepartment := None;
     Users.GetCompanyName := None;
     Users.GetStreetAddress := None;
     Users.GetPostalCode := None;
     Users.GetState := None;
     Users.GetPreferredLanguage := None;
     Users.GetEmployeeId := None;
     Users.GetAdditionalData :=
       Some {[ "displayName" := VStr "Bob"; "manager" := VNil ]} |}.

(** Sites, with and without an identifier. *)
Definition site (id name : option string) : Sites.Site.t :=
  {| Sites.Site.GetId := id;
     Sites.Site.GetDisplayName := name;
     Sites.Site.GetIsPersonalSite := None;
     Sites.Site.GetAnalytics := None;
     Sites.Site.GetError := None;
     Sites.Site.GetSharepointIds := None;
     Sites.Site.GetSiteCollection := None;
     Sites.Site.GetAdditionalData := ∅ |}.

(** A service whose first page of users links to a page that cannot be
    fetched, and the same for applications and sites. *)
Definition brokenLink {T : Type} (first : list T) : Response T :=
  Resp (Some first) (LinkFails "503 Service Unavailable").

Definition usersClient : Users.GraphServiceClient :=
  {| Users.UsersGet := fun _ => Ok (brokenLink [ann]) |}.

Definition applicationsClient : Applications.GraphServiceClient :=
  {| Applications.ApplicationsGet := fun _ => Ok (brokenLink []) |}.

Definition sitesClient (answer : Response Sites.Site.t) : Sites.GraphServiceClient :=
  {| Sites.SitesGet := fun _ => Ok answer;
     Sites.SubsitesGet := fun _ => Failed "unavailable";
     Sites.PagesGet := fun _ => Failed "unavailable";
     Sites.PageGet := fun _ _ => Failed "unavailable" |}.

(** Two pages of sites; three of the four records have no identifier. *)
Definition twoPages : Response Sites.Site.t :=
  Resp (Some [site None (Some "first"); site (Some "s1") (Some "named")])
       (LinkTo (Resp (Some [site None (Some "second"); site None (Some "third")])
                     NoLink)).

(** A site with two pages; the content of the page [broken] cannot be
    fetched. *)
Definition intranet : Sites.GraphServiceClient :=
  {| Sites.SitesGet := fun _ => Ok (Resp (Some [site (Some "s1") (Some "Intranet")]) NoLink);
     Sites.SubsitesGet := fun _ => Ok (Resp (Some []) NoLink);
     Sites.PagesGet := fun _ =>
       Ok (Resp (Some [page "broken" (Some "Old") None;
                       page "home" (Some "Home") None]) NoLink);
     Sites.PageGet := fun _ pageId =>
       if String.eqb pageId "broken" then Failed "404 Not Found"
       else Ok (page "home" (Some "Home") None) |}.

(** A serializer to run [Get] on closed inputs. *)
Definition countEntries (data : gmap string Attrs) : option string * option error :=
  (Some (pretty (size data)), None).

End Examples.

(** ** The tools: packages [baggage] and [collection], and the processors
       the three [api] packages register *)

Module Msgraphsdk.

(** The one [*msgraphsdk.GraphServiceClient] the three packages send their
    requests through. *)
Record GraphServiceClient : Type := {
  forSites : Sites.GraphServiceClient;
  forUsers : Users.GraphServiceClient;
  forApplications : Applications.GraphServiceClient;
}.

End Msgraphsdk.

Module Baggage.
Import Go.

(** What the [interface{}] of a baggage holds in this program: nothing, a
    client pointer (which may be nil), a string, or a value of another
    type. *)
Inductive Any : Type :=
| AnyNil
| AnyClient (client : option Msgraphsdk.GraphServiceClient)
| AnyString (s : string)
| AnyOther.

(** [context.Context], as far as [ctx.Value] sees it: the values attached by
    [context.WithValue], the last one first. [BaggageKey] is the value
    [baggage{}] of the private key type; no other package can build it. *)
Inductive Key : Type :=
| BaggageKey
| OtherKey (name : string).

Definition Context : Type := list (Key * Any).

Definition sameKey (k1 k2 : Key) : bool :=
  match k1, k2 with
  | BaggageKey, BaggageKey => true
  | OtherKey a, OtherKey b => String.eqb a b
  | _, _ => false
  end.

Definition WithValue (ctx : Context) (key : Key) (val : Any) : Context :=
  (key, val) :: ctx.

Fixpoint CtxValue (ctx : Context) (key : Key) : Any :=
  match ctx with
  | [] => AnyNil
  | (k, v) :: parent => if sameKey k key then v else CtxValue parent key
  end.

(** [*http.Request], by its header; [Get] gives the first value. *)
Record Request : Type := { Header : gmap string (list string) }.

Definition HeaderGet (r : Request) (key : string) : string :=
  match Header r !! key with
  | Some (v :: _) => v
  | _ => ""
  end.

Definition withBaggage (ctx : Context) (i : Any) : Context :=
  WithValue ctx BaggageKey i.

Definition WithInfomationFromRequest (i : Any) : Context -> Request -> Context :=
  fun ctx r => withBaggage ctx i.

Definition WithInfomation (i : Any) : Context -> Context :=
  fun ctx => withBaggage ctx i.

Definition WithTokenFromRequest (ctx : Context) (r : Request) : Context :=
  withBaggage ctx (AnyString (HeaderGet r "Authorization")).

(** [Getenv] is [os.Getenv]. *)
Definition WithTokenFromEnv (Getenv : string -> string) (ctx : Context) : Context :=
  withBaggage ctx (AnyString (Getenv "API_KEY")).

Definition BaggageFromContext (ctx : Context) : Any :=
  CtxValue ctx BaggageKey.

End Baggage.

Module Collection.
Import Go Graph Baggage.

(** [mcp.CallToolRequest], by [Params.Arguments]. *)
Record CallToolRequest : Type := { Arguments : Attrs }.

(** [*mcp.CallToolResult]: one text content and the error flag. *)
Record CallToolResult : Type := { Text : string; IsError : bool }.

Definition NewToolResultError (text : string) : CallToolResult :=
  {| Text := text; IsError := true |}.

Definition NewToolResultText (text : string) : CallToolResult :=
  {| Text := text; IsError := false |}.

(** [mcp.Tool]: its name, its description and its string parameters. *)
Record McpTool : Type := {
  ToolName : string;
  Description : string;
  Strings : list (string * string);
}.

Record Tool : Type := {
  Name : string;
  Tool_ : McpTool;
  Processor : Context -> CallToolRequest -> outcome (CallToolResult * option error);
}.

(** [toolsMap]; [None] is the nil map of a package that is not initialized. *)
Definition toolsMap : Type := option (gmap string Tool).

(** [func init() { Tools = make(toolsMap) }] *)
Definition init : toolsMap := Some ∅.

(** [RegisterTool], on the variable [Tools]. *)
Definition RegisterTool (t : Tool) (Tools : toolsMap) : outcome toolsMap :=
  match Tools with
  | None => Panicked
  | Some tools =>
      match tools !! Name t with
      | Some _ => Panicked
      | None => Done (Some (<[Name t := t]> tools))
      end
  end.

End Collection.

Module Processors.
Import Go Graph Baggage Collection.

(** The type assertion of [baggage.BaggageFromContext(ctx)] to a pointer to
    [msgraphsdk.GraphServiceClient]: with one result, it panics on any
    other dynamic type and on the nil interface. *)
Definition assertClient (i : Any) : outcome (option Msgraphsdk.GraphServiceClient) :=
  match i with
  | AnyClient client => Done client
  | _ => Panicked
  end.

(** [name.(string)] *)
Definition assertString (v : Value) : outcome string :=
  match v with
  | VStr s => Done s
  | _ => Panicked
  end.

(** The parameters a processor builds: an empty struct, with the filter
    [field eq 'name'] when the request has the argument [name]. *)
Definition filterBy (field : string) (request : CallToolRequest)
    : outcome QueryParameters :=
  match Arguments request !! "name" with
  | Some name =>
      bind (assertString name) (fun name =>
        Done {| Filter := Some (field +:+ " eq '" +:+ name +:+ "'");
                Select := [] |})
  | None => Done emptyParams
  end.

(** What a processor returns from the result of [Get]. *)
Definition answer (failure : string) (got : option string * option error)
    : CallToolResult * option error :=
  match got with
  | (_, Some err) => (NewToolResultError failure, Some err)
  | (jsonData, None) => (NewToolResultText (default "" jsonData), None)
  end.

Section WithLibraries.
Variable unescapeEntities : string -> string.
Variable EncodeToString : string -> string.
Variable MarshalIndent : gmap string Attrs -> option string * option error.

Definition sitesProcessor (ctx : Context) (request : CallToolRequest)
    : outcome (CallToolResult * option error) :=
  bind (assertClient (BaggageFromContext ctx)) (fun client =>
    match client with
    | None => Done (NewToolResultError "client not found", None)
    | Some client =>
        bind (filterBy "displayName" request) (fun params =>
          bind (Sites.Get unescapeEntities MarshalIndent
                  (Msgraphsdk.forSites client) (Some params))
               (fun got => Done (answer "failed to get sites" got)))
    end).

Definition usersProcessor (ctx : Context) (request : CallToolRequest)
    : outcome (CallToolResult * option error) :=
  bind (assertClient (BaggageFromContext ctx)) (fun client =>
    match client with
    | None => Done (NewToolResultError "client not found", None)
    | Some client =>
        bind (filterBy "givenName" request) (fun params =>
          Done (answer "failed to get users"
                  (Users.Get MarshalIndent (Msgraphsdk.forUsers client)
                     (Some params))))
    end).

Definition applicationsProcessor (ctx : Context) (request : CallToolRequest)
    : outcome (CallToolResult * option error) :=
  bind (assertClient (BaggageFromContext ctx)) (fun client =>
    match client with
    | None => Done (NewToolResultError "client not found", None)
    | Some client =>
        bind (filterBy "displayName" request) (fun params =>
          Done (answer "failed to get applications"
                  (Applications.Get EncodeToString MarshalIndent
                     (Msgraphsdk.forApplications client) (Some params))))
    end).

(** The tools the three [init] functions register. *)
Definition sitesTool : Tool :=
  {| Name := "sites";
     Tool_ := {| ToolName := "sites";
                 Description := "Interact with Microsoft Graph API for site, subsites and pages operations";
                 Strings := [("name", "The name of the site")] |};
     Processor := sitesProcessor |}.

Definition usersTool : Tool :=
  {| Name := "users";
     Tool_ := {| ToolName := "users";
                 Description := "Interact with Microsoft Graph API for user operations";
                 Strings := [("name", "The name of the user. If not provided, all users will be returned.")] |};
     Processor := usersProcessor |}.

Definition applicationsTool : Tool :=
  {| Name := "applications";
     Tool_ := {| ToolName := "applications";
                 Description := "Interact with Microsoft Graph API for application operations";
                 Strings := [("name", "The name of the application. If not provided, all applications will be returned.")] |};
     Processor := applicationsProcessor |}.

End WithLibraries.

End Processors.

(** ** Words for the properties of the transducer and of the walk *)

Module Notions.
Import GoStrings Go Graph.

(** [strings.Contains(s, l)], for a non-empty [l]. *)
Fixpoint occursIn (l s : string) : bool :=
  HasPrefix s l
  || match s with
     | String _ t => occursIn l t
     | EmptyString => false
     end.

(** No [<] of the text has a [>] anywhere after it: the text holds nothing
    of the form [<...>]. *)
Fixpoint tagFree (s : string) : bool :=
  match s with
  | EmptyString => true
  | String a t =>
      (if Ascii.eqb a "<" then negb (ContainsByte ">" t) else true) && tagFree t
  end.

(** The number of line feeds the text starts with. *)
Fixpoint leadingLF (s : string) : nat :=
  match s with
  | String a t => if Ascii.eqb a "010" then S (leadingLF t) else 0
  | EmptyString => 0
  end.

(** The web parts of the columns of the horizontal sections, in the order
    of the document, and those of the vertical section. *)
Definition columnBlocks (layout : Sites.CanvasLayout.t) : list Sites.WebPart.t :=
  section ← default [] (Sites.CanvasLayout.GetHorizontalSections layout);
  column ← default [] (Sites.HorizontalSection.GetColumns section);
  default [] (Sites.CanvasColumn.GetWebparts column).

Definition verticalBlocks (layout : Sites.CanvasLayout.t) : list Sites.WebPart.t :=
  match Sites.CanvasLayout.GetVerticalSection layout with
  | Some vertSection => default [] (Sites.VerticalSection.GetWebparts vertSection)
  | None => []
  end.

(** The text a web part of a column writes in markdown. *)
Definition columnBlockText (unescapeEntities : string -> string)
    (webPart : Sites.WebPart.t) : string :=
  match Sites.horizontalWebPart unescapeEntities "markdown" 0 webPart with
  | Done written => written
  | Panicked => ""
  end.

(** The last of the records whose identifier is [k]. *)
Fixpoint latest {T} (idOf : T -> string) (k : string) (rs : list T) : option T :=
  match rs with
  | [] => None
  | r :: rest =>
      match latest idOf k rest with
      | Some later => Some later
      | None => if String.eqb (idOf r) k then Some r else None
      end
  end.

(** The [init] functions of the packages run one after the other, each
    registering its tool. *)
Definition registerAll (tools : list Collection.Tool)
    : Collection.toolsMap -> outcome Collection.toolsMap :=
  forEach Collection.RegisterTool tools.

(** What a processor that returns tells about the call: the baggage of the
    context is a client pointer; a nil pointer gives the result
    [client not found] with no error; otherwise the argument [name], when
    given, is a string, an error comes with the result [failure], and a
    call without error gives a result that is not flagged as an error. *)
Definition answersFromClient (failure : string)
    (processor : Baggage.Context -> Collection.CallToolRequest ->
                 outcome (Collection.CallToolResult * option error)) : Prop :=
  forall ctx request result err,
    processor ctx request = Done (result, err) ->
    exists client,
      Baggage.BaggageFromContext ctx = Baggage.AnyClient client
      /\ match client with
         | None =>
             result = Collection.NewToolResultError "client not found"
             /\ err = None
         | Some _ =>
             (forall name, Collection.Arguments request !! "name" = Some name ->
                exists s, name = VStr s)
             /\ match err with
                | Some _ => result = Collection.NewToolResultError failure
                | None => Collection.IsError result = false
                end
         end.

(** The contexts that carry a token instead of a client. *)
Definition carriesToken (Getenv : string -> string) (ctx : Baggage.Context) : Prop :=
  (exists parent r, ctx = Baggage.WithTokenFromRequest parent r)
  \/ (exists parent, ctx = Baggage.WithTokenFromEnv Getenv parent).

(** The literals the rules before [hrRegex] look for. *)
Definition ruleLiterals : list string :=
  ["<h1"; "<h2"; "<h3"; "<h4"; "<p"; "</\1>"; "<a"; "<ul>"; "</ul>"; "<li";
   "<ol>"; "</ol>"; "<img"; "<table"; "<pre"; "<code"; "<blockquote"].

(** The parameters of the one collection request a processor sends for a
    call: no [Select], and the filter on [field] when the call names one. *)
Definition requestFor (field : string) (request : Collection.CallToolRequest)
    : QueryParameters :=
  {| Filter := match Collection.Arguments request !! "name" with
               | Some (VStr name) => Some (field +:+ " eq '" +:+ name +:+ "'")
               | _ => None
               end;
     Select := [] |}.

(** Two services that answer every request about one site alike. *)
Definition sameSite (client1 client2 : Sites.GraphServiceClient) : Prop :=
  (forall siteId, Sites.SubsitesGet client1 siteId = Sites.SubsitesGet client2 siteId)
  /\ (forall siteId, Sites.PagesGet client1 siteId = Sites.PagesGet client2 siteId)
  /\ (forall siteId pageId,
        Sites.PageGet client1 siteId pageId = Sites.PageGet client2 siteId pageId).

(** The continuation finds nothing at any position inside [q]. *)
Fixpoint failsInside {A} (k : string -> option A) (q w : string) : Prop :=
  match q with
  | EmptyString => True
  | String a q' => k (String a (q' +:+ w)) = None /\ failsInside k q' w
  end.

(** The attribute names the normalizers write from typed fields. *)
Definition userKeys : list string :=
  ["id"; "displayName"; "userPrincipalName"; "mail"; "givenName"; "surname";
   "jobTitle"; "mobilePhone"; "officeLocation"; "businessPhones";
   "accountEnabled"; "city"; "country"; "department"; "companyName";
   "streetAddress"; "postalCode"; "state"; "preferredLanguage"; "employeeId"].

Definition applicationKeys : list string :=
  ["id"; "displayName"; "appId"; "publisherDomain"; "createdDateTime";
   "applicationTemplateId"; "defaultRedirectUri"; "description";
   "disabledByMicrosoftStatus"; "groupMembershipClaims";
   "isDeviceOnlyAuthSupported"; "isFallbackPublicClient"; "notes";
   "oauth2RequirePostResponse"; "samlMetadataUrl";
   "serviceManagementReference"; "signInAudience"; "tags";
   "tokenEncryptionKeyId"; "uniqueName"; "logo"; "api"; "web"; "spa";
   "certification"; "info"; "verifiedPublisher"].

Definition siteKeys : list string :=
  ["id"; "displayName"; "isPersonalSite"; "analytics"; "error";
   "sharepointIds"; "siteCollection"].

Definition pageKeys : list string :=
  ["id"; "pageLayout"; "publishingState"; "title"].

End Notions.

(** * Properties *)

Import GoStrings Regexp Go Graph Spec Examples.
Import Notions.

Lemma append_empty_r (s : string) : s +:+ "" = s.
Proof. induction s as [|a s IH]; [reflexivity|]. unfold String.append; fold String.append. by rewrite IH. Qed.

(** ** Matches are never empty

    Every pattern of [htmlToMarkdown] starts with a literal, so that a match
    spans at least that literal: the scan never meets Go's special case of
    an empty match. *)

Lemma CutPrefix_length (prefix s t : string) :
  CutPrefix prefix s = Some t ->
  String.length s = String.length prefix + String.length t.
Proof.
  revert s. induction prefix as [|a prefix IH]; intros s; cbn.
  { by intros [= ->]. }
  destruct s as [|b s]; [done|].
  destruct (Ascii.eqb a b); [|done]. intros H. cbn. by rewrite (IH _ H).
Qed.

Section ExecFacts.
Context {A : Type}.

Lemma star_rest (greedy : bool) (c : cclass) (s : string)
    (k : string -> option A) (x : A) :
  star greedy c s k = Some x ->
  exists t, String.length t <= String.length s /\ k t = Some x.
Proof.
  induction s as [|a s IH]; cbn.
  { intros Hk. by exists "". }
  assert (Hstop : k (String a s) = Some x ->
                  exists t, String.length t <= S (String.length s) /\ k t = Some x).
  { intros Hk. by exists (String a s). }
  assert (Hmore : star greedy c s k = Some x ->
                  exists t, String.length t <= S (String.length s) /\ k t = Some x).
  { intros (t & Hle & Hk)%IH. exists t. split; [lia|done]. }
  destruct (cmatch c a); [|done].
  destruct greedy.
  - destruct (star true c s k) eqn:Hstar; [|done].
    intros [= ->]. by apply Hmore.
  - destruct (k (String a s)) eqn:Hk; [|done].
    intros [= ->]. by apply Hstop.
Qed.

Lemma exec_rest (r : re) (s : string) (caps : Captures)
    (k : string -> Captures -> option A) (x : A) :
  exec r s caps k = Some x ->
  exists t caps', String.length t <= String.length s /\ k t caps' = Some x.
Proof.
  revert s caps k.
  induction r as [l|g c|r1 IH1 r2 IH2|r1 IH1 r2 IH2|i r IH]; intros s caps k; cbn.
  - destruct (CutPrefix l s) as [t|] eqn:Hcut; [|done].
    apply CutPrefix_length in Hcut. intros Hk. exists t, caps. split; [lia|done].
  - intros (t & Hle & Hk)%star_rest. eauto.
  - intros (t1 & caps1 & Hle1 & H2)%IH1.
    apply IH2 in H2 as (t & caps2 & Hle2 & Hk). exists t, caps2. split; [lia|done].
  - destruct (exec r1 s caps k) eqn:H1.
    + intros [= ->]. by apply IH1 in H1.
    + apply IH2.
  - intros (t & caps1 & Hle & Hk)%IH. eauto.
Qed.
End ExecFacts.

Lemma match_spans_literal (l : string) (r : re) (s : string) (n : nat)
    (m : Captures) :
  startsWith l r -> matchAt r s = Some (n, m) -> String.length l <= n.
Proof.
  intros [rest ->]. unfold matchAt. cbn.
  destruct (CutPrefix l s) as [t|] eqn:Hcut; [|done].
  apply CutPrefix_length in Hcut.
  intros (t' & caps & Hle & [= <- _])%exec_rest. lia.
Qed.

Lemma patterns_start_with_a_literal :
  Forall (fun r => exists l, l <> "" /\ startsWith l r)
    [ Sites.h1Regex; Sites.h2Regex; Sites.h3Regex; Sites.h4Regex; Sites.pRegex;
      Sites.boldRegex; Sites.italicRegex; Sites.linkRegex; Sites.liRegex;
      Sites.olLiRegex; Sites.imgRegex; Sites.tableRegex; Sites.trRegex;
      Sites.thRegex; Sites.tdRegex; Sites.preRegex; Sites.codeRegex;
      Sites.blockquoteRegex; Sites.hrRegex; Sites.divRegex; Sites.brRegex;
      Sites.tagRegex; Sites.spaceRegex ].
Proof. repeat constructor; eexists; (split; [|eexists; reflexivity]); done. Qed.

Lemma match_not_empty (l : string) (r : re) (s : string) (m : Captures) :
  l <> "" -> startsWith l r -> matchAt r s <> Some (0, m).
Proof.
  intros Hl Hr Hmatch. apply (match_spans_literal l) in Hmatch; [|done].
  destruct l; [done|]. cbn in Hmatch. lia.
Qed.

(** ** The transducer on concrete inputs *)

Section TransducerFacts.
Variable unescapeEntities : string -> string.
Abbreviation htmlToMarkdown := (Sites.htmlToMarkdown unescapeEntities).

(** C2. The items of an ordered list come out with the bullet of the
    unordered list: [liRegex] has rewritten every [<li>] element before the
    [<ol>] markers are removed, and [olLiRegex] finds none left. *)
Theorem C2_ordered_list_items_get_bullets :
  htmlToMarkdown "<ol><li>a</li><li>b</li></ol>" = "- a" +:+ LF +:+ "- b"
  /\ htmlToMarkdown "<ol><li>a</li><li>b</li></ol>"
     = htmlToMarkdown "<ul><li>a</li><li>b</li></ul>".
Proof. split; vm_compute; reflexivity. Qed.

(** C3. Bold and italic elements lose their tags and get no Markdown
    emphasis: the closing part of [boldRegex] and [italicRegex] is the
    literal [</\1>], which no closing tag spells; only an element closed by
    that text is rewritten. *)
Theorem C3_bold_and_italic_are_stripped :
  htmlToMarkdown "<b>content</b>" = "content"
  /\ htmlToMarkdown "<strong>content</strong>" = "content"
  /\ htmlToMarkdown "<i>content</i>" = "content"
  /\ htmlToMarkdown "<em>content</em>" = "content"
  /\ htmlToMarkdown "<b>content</\1>" = "**content**"
  /\ htmlToMarkdown "<em>content</\1>" = "*content*".
Proof. repeat split; vm_compute; reflexivity. Qed.

(** C9, amended. [<h2>Title</h2>] becomes [## Title]: the heading rule
    writes the two line feeds and the final [TrimSpace] removes them. *)
Theorem C9_heading_is_trimmed :
  htmlToMarkdown "<h2>Title</h2>" = "## Title"
  /\ ReplaceAllString Sites.h2Regex "<h2>Title</h2>" [T "## "; G 1; T LF; T LF]
     = "## Title" +:+ LF +:+ LF.
Proof. split; vm_compute; reflexivity. Qed.

End TransducerFacts.

(** C9 as stated: the output is not [## Title] followed by a blank line. *)
Lemma C9_heading_keeps_no_blank_line :
  Sites.htmlToMarkdown keepEntities "<h2>Title</h2>" <> "## Title" +:+ LF +:+ LF.
Proof. vm_compute. discriminate. Qed.

(** ** The content source of a web part *)

Section ResolverFacts.
Variable unescapeEntities : string -> string.

(** In a column, [innerHtml] of the backing store is taken before anything
    in the additional data. *)
Lemma column_prefers_backing_store (wpIdx : nat) (webPart : Sites.WebPart.t)
    (backingStore : Attrs) (htmlStr : string) :
  Sites.WebPart.GetBackingStore webPart = Some backingStore ->
  backingStore !! "innerHtml" = Some (VStrPtr (Some htmlStr)) ->
  Sites.horizontalWebPart unescapeEntities "markdown" wpIdx webPart
  = Done (Sites.htmlToMarkdown unescapeEntities htmlStr +:+ LF +:+ LF).
Proof.
  intros Hbs Hin. unfold Sites.horizontalWebPart, Sites.fromBackingStore.
  rewrite Hbs, Hin. cbn.
  destruct (Sites.WebPart.GetAdditionalData webPart); cbn;
    by rewrite append_empty_r.
Qed.

(** In the vertical section the backing store is not read at all. *)
Lemma vertical_section_never_reads_backing_store (format : string) (wpIdx : nat)
    (goType : string) (backingStore backingStore' : option Attrs)
    (data : option Attrs) :
  Sites.verticalWebPart unescapeEntities format wpIdx
    {| Sites.WebPart.GoType := goType;
       Sites.WebPart.GetBackingStore := backingStore;
       Sites.WebPart.GetAdditionalData := data |}
  = Sites.verticalWebPart unescapeEntities format wpIdx
      {| Sites.WebPart.GoType := goType;
         Sites.WebPart.GetBackingStore := backingStore';
         Sites.WebPart.GetAdditionalData := data |}.
Proof. reflexivity. Qed.

Lemma vertical_section_takes_text (wpIdx : nat) (webPart : Sites.WebPart.t)
    (data : Attrs) (textStr : string) :
  Sites.WebPart.GetAdditionalData webPart = Some data ->
  data !! "innerHtml" = None ->
  data !! "text" = Some (VStr textStr) ->
  Sites.verticalWebPart unescapeEntities "markdown" wpIdx webPart
  = textStr +:+ LF +:+ LF.
Proof.
  intros Hdata Hhtml Htext.
  unfold Sites.verticalWebPart, Sites.fromAdditionalData, Sites.fromInnerHtml,
    Sites.fromText.
  by rewrite Hdata, Hhtml, Htext.
Qed.

(** The markdown format panics on a nil pointer of a backing store only. *)
Lemma writeAll_returns (steps : list (outcome string)) :
  (forall step, step ∈ steps -> step <> Panicked) -> writeAll steps <> Panicked.
Proof.
  induction steps as [|step steps IH]; intros Hsteps; cbn; [done|].
  destruct step as [written|]; [|by destruct (Hsteps Panicked); [left|]].
  cbn. destruct (writeAll steps) as [rest|]; [done|].
  destruct IH; [|done]. intros step Hin. apply Hsteps. by right.
Qed.

Lemma writeAll_imap_returns {A} (first : outcome string)
    (write : nat -> A -> outcome string) (items : list A) :
  first <> Panicked ->
  (forall i item, item ∈ items -> write i item <> Panicked) ->
  writeAll (first :: imap write items) <> Panicked.
Proof.
  intros Hfirst Hitems. apply writeAll_returns.
  intros step [->|Hin]%elem_of_cons; [done|].
  apply elem_of_lookup_imap in Hin as (i & item & -> & Hitem).
  eapply Hitems, list_elem_of_lookup_2, Hitem.
Qed.

Lemma markdown_returns (client : Sites.GraphServiceClient) (siteId pageId : string) :
  (forall page, Sites.PageGet client siteId pageId = Ok page ->
                keepsNoNilPointer page) ->
  Sites.getPageContent unescapeEntities client siteId pageId "markdown"
  <> Panicked.
Proof.
  intros Hpage. unfold Sites.getPageContent.
  destruct (Sites.PageGet client siteId pageId) as [page|err]; [|done].
  specialize (Hpage page eq_refl).
  assert (Hwritten :
    writeAll [ Done (Sites.titleText "markdown" page);
               Done (Sites.descriptionText "markdown" page);
               match Sites.SitePage.GetCanvasLayout page with
               | Some layout => Sites.canvasText unescapeEntities "markdown" layout
               | None => Done ""
               end ] <> Panicked);
    [|destruct (writeAll _) as [content|]; [|done]; cbn;
      by destruct (String.eqb content "")].
  apply writeAll_returns.
  intros step [->|[->|[->|[]%elem_of_nil]%elem_of_cons]%elem_of_cons]%elem_of_cons;
    [done|done|].
  destruct (Sites.SitePage.GetCanvasLayout page) as [layout|] eqn:Hlayout; [|done].
  unfold Sites.canvasText. apply writeAll_returns.
  intros step [->|[->|[->|[]%elem_of_nil]%elem_of_cons]%elem_of_cons]%elem_of_cons;
    [done| |done].
  destruct (Sites.CanvasLayout.GetHorizontalSections layout) as [sections|]
    eqn:Hsections; [|done].
  apply writeAll_imap_returns; [done|]. intros secIdx section Hsection.
  unfold Sites.sectionText. apply writeAll_returns.
  intros step [->|[->|[]%elem_of_nil]%elem_of_cons]%elem_of_cons; [done|].
  destruct (Sites.HorizontalSection.GetColumns section) as [columns|]
    eqn:Hcolumns; [|done].
  apply writeAll_imap_returns; [done|]. intros colIdx column Hcolumn.
  unfold Sites.columnText. apply writeAll_returns.
  intros step [->|[->|[]%elem_of_nil]%elem_of_cons]%elem_of_cons; [done|].
  destruct (Sites.CanvasColumn.GetWebparts column) as [webParts|]
    eqn:HwebParts; [|done].
  apply writeAll_imap_returns; [done|]. intros wpIdx webPart HwebPart.
  unfold Sites.horizontalWebPart, Sites.fromBackingStore.
  destruct (Sites.WebPart.GetBackingStore webPart) as [backingStore|]
    eqn:Hstore; [|done].
  pose proof (Hpage _ _ _ _ _ _ _ _ Hlayout Hsections Hsection Hcolumns
                Hcolumn HwebParts HwebPart Hstore) as Hpointer.
  destruct (backingStore !! "innerHtml") as [[| |[htmlStr|]| | | | | |]|]; done.
Qed.

(** C1. The web part with [<p>A</p>] in its backing store and [B] as
    additional [text] renders as [A] in a column and as [B] in the
    vertical section. *)
Theorem C1_vertical_section_resolves_to_text :
  Sites.getPageContent unescapeEntities
    (serving (page "p" None (Some (inColumn bothSources)))) "s" "p" "markdown"
  = Done ("A" +:+ LF +:+ LF, None)
  /\ Sites.getPageContent unescapeEntities
       (serving (page "p" None (Some (inVerticalSection bothSources)))) "s" "p" "markdown"
     = Done ("B" +:+ LF +:+ LF, None).
Proof. split; vm_compute; reflexivity. Qed.

(** C7, amended. A page with no title, no description and no block renders
    in markdown to the fallback text, without an error. *)
Theorem C7_fallback_when_nothing_is_written (client : Sites.GraphServiceClient)
    (siteId pageId : string) (page : Sites.SitePage.t) :
  Sites.PageGet client siteId pageId = Ok page ->
  Sites.SitePage.GetTitle page = None ->
  Sites.SitePage.GetDescription page = None ->
  (forall layout, Sites.SitePage.GetCanvasLayout page = Some layout ->
                  hasNoBlocks layout = true) ->
  Sites.getPageContent unescapeEntities client siteId pageId "markdown"
  = Done (noContentMarkdown, None).
Proof.
  intros Hget Htitle Hdesc Hcanvas. unfold Sites.getPageContent.
  rewrite Hget. unfold Sites.titleText, Sites.descriptionText.
  rewrite Htitle, Hdesc.
  destruct (Sites.SitePage.GetCanvasLayout page) as [layout|]; [|reflexivity].
  specialize (Hcanvas layout eq_refl). unfold hasNoBlocks in Hcanvas.
  unfold Sites.canvasText, Sites.verticalText.
  destruct (Sites.CanvasLayout.GetHorizontalSections layout) as [[|? ?]|];
    try discriminate;
    (destruct (Sites.CanvasLayout.GetVerticalSection layout) as [v|];
     [destruct (Sites.VerticalSection.GetWebparts v) as [[|? ?]|];
      try discriminate|]);
    reflexivity.
Qed.

End ResolverFacts.

(** C7 as stated: with a title, a page without blocks renders to the title,
    not to the fallback text. *)
Lemma C7_title_replaces_fallback :
  hasNoBlocks emptyCanvas = true
  /\ Sites.getPageContent keepEntities
       (serving (page "p" (Some "Home") (Some emptyCanvas))) "s" "p" "markdown"
     = Done ("## Home" +:+ LF +:+ LF, None)
  /\ "## Home" +:+ LF +:+ LF <> noContentMarkdown.
Proof.
  split; [reflexivity|].
  split; [vm_compute; reflexivity | vm_compute; discriminate].
Qed.

Lemma C7_fallback_witness :
  Sites.getPageContent keepEntities
    (serving (page "p" None (Some emptyCanvas))) "s" "p" "markdown"
  = Done (noContentMarkdown, None).
Proof.
  apply (C7_fallback_when_nothing_is_written keepEntities
           (serving (page "p" None (Some emptyCanvas))) "s" "p"
           (page "p" None (Some emptyCanvas)));
    [reflexivity | reflexivity | reflexivity |].
  intros layout H. injection H as <-. reflexivity.
Defined.

(** ** The normalizers *)

Lemma noNil_empty : noNil ∅.
Proof. intros k. by rewrite lookup_empty. Qed.

Lemma noNil_insert (key : string) (v : Value) (m : Attrs) :
  v <> VNil -> noNil m -> noNil (<[key := v]> m).
Proof.
  intros Hv Hm k. destruct (decide (key = k)) as [->|Hne].
  - rewrite lookup_insert_eq. congruence.
  - rewrite lookup_insert_ne by done. apply Hm.
Qed.

Lemma noNil_setIf {A} (key : string) (toValue : A -> Value) (field : option A)
    (m : Attrs) :
  (forall x, toValue x <> VNil) -> noNil m -> noNil (setIf key toValue field m).
Proof.
  intros Hv Hm. destruct field as [x|]; cbn; [|done].
  by apply noNil_insert.
Qed.

Lemma copyInto_lookup (additional m : Attrs) (k : string) (v : Value) :
  additional !! k = Some v -> copyInto additional m !! k = Some v.
Proof. intros H. unfold copyInto. by apply lookup_union_Some_l. Qed.

Lemma copyInto_nil (additional m : Attrs) (k : string) :
  noNil m ->
  copyInto additional m !! k = Some VNil <-> additional !! k = Some VNil.
Proof.
  intros Hm. unfold copyInto. rewrite lookup_union_Some_raw. split.
  - intros [H|[_ H]]; [done|]. by destruct (Hm k).
  - by left.
Qed.

Ltac typed_fields_not_nil :=
  repeat first
    [ apply noNil_empty
    | apply noNil_setIf; [by intros| ]
    | apply noNil_insert; [done| ] ].

Lemma user_fields_not_nil (user : Users.User) :
  exists typed, noNil typed
    /\ (Users.convertUserToMap user).2
       = match Users.GetAdditionalData user with
         | Some additionalData => copyInto additionalData typed
         | None => typed
         end.
Proof. eexists. split; [|reflexivity]. typed_fields_not_nil. Qed.

Lemma application_fields_not_nil (EncodeToString : string -> string)
    (application : Applications.Application) :
  exists typed, noNil typed
    /\ (Applications.convertApplicationToMap EncodeToString application).2
       = match Applications.GetAdditionalData application with
         | Some additional => copyInto additional typed
         | None => typed
         end.
Proof.
  eexists. split; [|reflexivity].
  typed_fields_not_nil. case_match; typed_fields_not_nil.
Qed.

Lemma site_fields_not_nil (site : Sites.Site.t) :
  exists typed, noNil typed
    /\ (Sites.convertSiteToMap site).2
       = copyInto (Sites.Site.GetAdditionalData site) typed.
Proof. eexists. split; [|reflexivity]. typed_fields_not_nil. Qed.

Lemma page_fields_not_nil (page : Sites.SitePage.t) :
  exists typed, noNil typed
    /\ (Sites.convertSitePageToMap page).2
       = copyInto (Sites.SitePage.GetAdditionalData page) typed.
Proof. eexists. split; [|reflexivity]. typed_fields_not_nil. Qed.

(** C6. Whatever the typed fields wrote, a key of the additional data holds
    the value of the additional data in the attribute map: for users,
    applications, sites and site pages. *)
Theorem C6_additional_data_wins (EncodeToString : string -> string)
    (k : string) (v : Value) :
  (forall user additionalData,
     Users.GetAdditionalData user = Some additionalData ->
     additionalData !! k = Some v ->
     (Users.convertUserToMap user).2 !! k = Some v)
  /\ (forall application additional,
        Applications.GetAdditionalData application = Some additional ->
        additional !! k = Some v ->
        (Applications.convertApplicationToMap EncodeToString application).2 !! k
        = Some v)
  /\ (forall site,
        Sites.Site.GetAdditionalData site !! k = Some v ->
        (Sites.convertSiteToMap site).2 !! k = Some v)
  /\ (forall page,
        Sites.SitePage.GetAdditionalData page !! k = Some v ->
        (Sites.convertSitePageToMap page).2 !! k = Some v).
Proof.
  repeat split.
  - intros user additionalData Had Hk.
    destruct (user_fields_not_nil user) as (typed & _ & ->).
    rewrite Had. by apply copyInto_lookup.
  - intros application additional Had Hk.
    destruct (application_fields_not_nil EncodeToString application)
      as (typed & _ & ->).
    rewrite Had. by apply copyInto_lookup.
  - intros site Hk. destruct (site_fields_not_nil site) as (typed & _ & ->).
    by apply copyInto_lookup.
  - intros page Hk. destruct (page_fields_not_nil page) as (typed & _ & ->).
    by apply copyInto_lookup.
Qed.

Lemma C6_additional_data_wins_witness :
  Users.GetDisplayName ann = Some "Ann"
  /\ (Users.convertUserToMap ann).2 !! "displayName" = Some (VStr "Bob").
Proof.
  split; [reflexivity|].
  apply (proj1 (C6_additional_data_wins keepEntities "displayName" (VStr "Bob"))
           ann {[ "displayName" := VStr "Bob"; "manager" := VNil ]});
    [reflexivity | vm_compute; reflexivity].
Defined.

(** C8, amended. The attribute map holds nil under a key exactly when the
    additional data of the record holds nil under that key: no typed field
    writes nil. *)
Theorem C8_nil_comes_from_additional_data_only (EncodeToString : string -> string)
    (k : string) :
  (forall user,
     (Users.convertUserToMap user).2 !! k = Some VNil
     <-> Users.GetAdditionalData user ≫= (.!! k) = Some VNil)
  /\ (forall application,
        (Applications.convertApplicationToMap EncodeToString application).2 !! k
        = Some VNil
        <-> Applications.GetAdditionalData application ≫= (.!! k) = Some VNil)
  /\ (forall site,
        (Sites.convertSiteToMap site).2 !! k = Some VNil
        <-> Sites.Site.GetAdditionalData site !! k = Some VNil)
  /\ (forall page,
        (Sites.convertSitePageToMap page).2 !! k = Some VNil
        <-> Sites.SitePage.GetAdditionalData page !! k = Some VNil).
Proof.
  repeat apply conj.
  - intros user. destruct (user_fields_not_nil user) as (typed & Htyped & ->).
    destruct (Users.GetAdditionalData user) as [additionalData|]; cbn.
    + by apply copyInto_nil.
    + split; [intros H; by destruct (Htyped k) | done].
  - intros application.
    destruct (application_fields_not_nil EncodeToString application)
      as (typed & Htyped & ->).
    destruct (Applications.GetAdditionalData application) as [additional|]; cbn.
    + by apply copyInto_nil.
    + split; [intros H; by destruct (Htyped k) | done].
  - intros site. destruct (site_fields_not_nil site) as (typed & Htyped & ->).
    by apply copyInto_nil.
  - intros page. destruct (page_fields_not_nil page) as (typed & Htyped & ->).
    by apply copyInto_nil.
Qed.

(** C8 as stated: a null in the additional data is a nil in the map. *)
Lemma C8_null_additional_field_is_kept :
  (Users.convertUserToMap ann).2 !! "manager" = Some VNil.
Proof. vm_compute. reflexivity. Qed.

Lemma C8_nil_comes_from_additional_data_only_witness :
  Users.GetAdditionalData ann ≫= (.!! "manager") = Some VNil
  /\ (Users.convertUserToMap ann).2 !! "manager" = Some VNil.
Proof.
  split; [vm_compute; reflexivity|].
  apply (proj1 (C8_nil_comes_from_additional_data_only keepEntities "manager") ann).
  vm_compute; reflexivity.
Defined.

(** ** The page iterator *)

Section IteratorFacts.
Context {T S : Type}.
Variable store : T -> S -> S.

Lemma enumerate_to_the_end (items : list T) (st : S) :
  enumerate (fun item st => (store item st, true)) items st
  = (foldl (fun st item => store item st) st items, true).
Proof.
  revert st. induction items as [|item items IH]; intros st; cbn; [done|].
  apply IH.
Qed.

Lemma Iterate_fetch_fails (page : Response T) (err : error) (st : S) :
  fetchFails page err ->
  (Iterate (fun item st => (store item st, true)) page st).2 = Some err.
Proof.
  intros Hfail. revert st.
  induction Hfail as [value err|value page err _ IH]; intros st; cbn;
    rewrite enumerate_to_the_end; [done|apply IH].
Qed.

Lemma Response_run_ind (P : Response T -> Prop) :
  (forall value, P (Resp value NoLink)) ->
  (forall value, P (Resp value EmptyLink)) ->
  (forall value err, P (Resp value (LinkFails err))) ->
  (forall value page, P page -> P (Resp value (LinkTo page))) ->
  forall page, P page.
Proof.
  intros Hno Hempty Hfails Hto. fix IH 1.
  intros [value [| |page|err]]; [apply Hno|apply Hempty| |apply Hfails].
  apply Hto, IH.
Qed.

Lemma Iterate_all_fetched (page : Response T) (st : S) :
  allFetched page = true ->
  Iterate (fun item st => (store item st, true)) page st
  = (foldl (fun st item => store item st) st (records page), None).
Proof.
  revert st.
  induction page as [value|value|value err|value page IH] using Response_run_ind;
    intros st Hall; cbn in *; rewrite enumerate_to_the_end; try done.
  rewrite foldl_app. by apply IH.
Qed.

Lemma fetchFails_has_link (page : Response T) (err : error) :
  fetchFails page err -> hasNonEmptyNextLink page = true.
Proof. by intros []. Qed.

End IteratorFacts.

(** ** The aggregation of a paginated collection *)

Section AggregationFacts.
Variable unescapeEntities : string -> string.
Variable EncodeToString : string -> string.
Variable MarshalIndent : gmap string Attrs -> option string * option error.

(** C5. When a link of the run cannot be fetched, [Get] returns the error
    and nil instead of the data, for users, applications and sites; the
    records stored so far are dropped. *)
Theorem C5_failed_fetch_returns_the_error_alone (err : error) :
  (forall client params result users,
     Users.UsersGet client (default emptyParams params) = Ok result ->
     GetValue result = Some users ->
     fetchFails result err ->
     Users.Get MarshalIndent client params = (None, Some err))
  /\ (forall client params result applications,
        Applications.ApplicationsGet client (default emptyParams params) = Ok result ->
        GetValue result = Some applications ->
        fetchFails result err ->
        Applications.Get EncodeToString MarshalIndent client params
        = (None, Some err))
  /\ (forall client params result sites,
        Sites.SitesGet client (default Sites.defaultParams params) = Ok result ->
        GetValue result = Some sites ->
        fetchFails result err ->
        Sites.Get unescapeEntities MarshalIndent client params
        = Done (None, Some ("error iterating over sites: " +:+ err))).
Proof.
  repeat apply conj.
  - intros client params result users Hget Hvalue Hfail.
    unfold Users.Get, Users.aggregate. cbn zeta. rewrite Hget, Hvalue.
    pose proof (Iterate_fetch_fails Users.storeUser result err
                  (foldl (fun usersData user => Users.storeUser user usersData) ∅ users)
                  Hfail) as Herr.
    destruct (Iterate _ result _) as [usersData err']. cbn in Herr. by subst.
  - intros client params result applications Hget Hvalue Hfail.
    unfold Applications.Get, Applications.aggregate. cbn zeta.
    rewrite Hget, Hvalue.
    pose proof (Iterate_fetch_fails (Applications.storeApplication EncodeToString)
                  result err
                  (foldl (fun applicationsData application =>
                            Applications.storeApplication EncodeToString
                              application applicationsData) ∅ applications)
                  Hfail) as Herr.
    destruct (Iterate _ result _) as [applicationsData err']. cbn in Herr.
    by subst.
  - intros client params result sites Hget Hvalue Hfail.
    unfold Sites.Get, Sites.aggregate. cbn zeta. rewrite Hget, Hvalue.
    rewrite (fetchFails_has_link result err Hfail).
    pose proof (Iterate_fetch_fails Sites.storeSite result err
                  (foldl (fun sitesData site => Sites.storeSite site sitesData) ∅ sites)
                  Hfail) as Herr.
    destruct (Iterate _ result _) as [sitesData err']. cbn in Herr. by subst.
Qed.

End AggregationFacts.

(** [GetPages] (and [GetSubsites], written alike) is not part of that
    policy: it returns the pages it has, the first page twice since the
    iterator starts on it again, together with the error. *)
Lemma GetPages_returns_pages_with_the_error (client : Sites.GraphServiceClient)
    (siteId : string) (first : list Sites.SitePage.t) (err : error) :
  Sites.PagesGet client siteId = Ok (Resp (Some first) (LinkFails err)) ->
  Sites.GetPages client siteId
  = ((first ++ first)%list, Some ("error iterating through pages: " +:+ err)).
Proof.
  intros Hget. unfold Sites.GetPages. rewrite Hget. cbn.
  rewrite (enumerate_to_the_end (fun page pages => (pages ++ [page])%list)).
  cbn.
  assert (Happend : forall items fetched : list Sites.SitePage.t,
            foldl (fun st item => (st ++ [item])%list) fetched items
            = (fetched ++ items)%list).
  { induction items as [|page items IH]; intros fetched; cbn.
    - by rewrite app_nil_r.
    - rewrite IH. by rewrite <- app_assoc. }
  by rewrite Happend.
Qed.

Lemma C5_failed_fetch_returns_the_error_alone_witness :
  Users.Get countEntries usersClient None
  = (None, Some "503 Service Unavailable")
  /\ Applications.Get keepEntities countEntries applicationsClient None
     = (None, Some "503 Service Unavailable")
  /\ Sites.Get keepEntities countEntries
       (sitesClient (brokenLink [site (Some "s1") None])) None
     = Done (None, Some "error iterating over sites: 503 Service Unavailable").
Proof.
  pose proof (C5_failed_fetch_returns_the_error_alone keepEntities keepEntities
                countEntries "503 Service Unavailable") as (Husers & Happs & Hsites).
  repeat apply conj.
  - apply (Husers usersClient None (brokenLink [ann]) [ann]);
      [reflexivity | reflexivity | constructor].
  - apply (Happs applicationsClient None (brokenLink []) []);
      [reflexivity | reflexivity | constructor].
  - apply (Hsites (sitesClient (brokenLink [site (Some "s1") None])) None
             (brokenLink [site (Some "s1") None]) [site (Some "s1") None]);
      [reflexivity | reflexivity | constructor].
Defined.

(** ** Records without an identifier *)

Lemma storeSite_insert (site : Sites.Site.t) (sitesData : gmap string Attrs) :
  Sites.storeSite site sitesData
  = <[(Sites.convertSiteToMap site).1 := (Sites.convertSiteToMap site).2]> sitesData.
Proof. reflexivity. Qed.

Lemma stored_elsewhere (key : string) (sites : list Sites.Site.t)
    (sitesData : gmap string Attrs) :
  (forall site, site ∈ sites -> (Sites.convertSiteToMap site).1 <> key) ->
  foldl (fun sitesData site => Sites.storeSite site sitesData) sitesData sites !! key
  = sitesData !! key.
Proof.
  revert sitesData. induction sites as [|site sites IH]; intros sitesData Hne;
    [done|].
  cbn [foldl]. rewrite IH.
  - rewrite storeSite_insert. apply lookup_insert_ne, Hne. by left.
  - intros later Hin. apply Hne. by right.
Qed.

Lemma last_stored_wins (before after : list Sites.Site.t) (site : Sites.Site.t)
    (sitesData : gmap string Attrs) :
  (forall later, later ∈ after ->
     (Sites.convertSiteToMap later).1 <> (Sites.convertSiteToMap site).1) ->
  foldl (fun sitesData site => Sites.storeSite site sitesData) sitesData
        (before ++ site :: after) !! (Sites.convertSiteToMap site).1
  = Some (Sites.convertSiteToMap site).2.
Proof.
  intros Hne. rewrite foldl_app. cbn [foldl].
  rewrite stored_elsewhere by done.
  rewrite storeSite_insert. apply lookup_insert_eq.
Qed.

(** C10. A site without identifier is normalized under the identifier [""];
    in a run of [Get] that fetches all its pages, the entry [""] of the
    collection is the attribute map of the last record stored under [""]:
    the records without identifier before it are overwritten. *)
Theorem C10_sites_without_id_share_the_empty_key :
  (forall site, Sites.Site.GetId site = None -> (Sites.convertSiteToMap site).1 = "")
  /\ (forall client params result sites before site after,
        Sites.SitesGet client (default Sites.defaultParams params) = Ok result ->
        GetValue result = Some sites ->
        allFetched result = true ->
        (sites ++ (if hasNonEmptyNextLink result then records result else [])
         = before ++ site :: after)%list ->
        Sites.Site.GetId site = None ->
        (forall later, later ∈ after -> (Sites.convertSiteToMap later).1 <> "") ->
        exists sitesData,
          Sites.aggregate client params = (Some sitesData, None)
          /\ sitesData !! "" = Some (Sites.convertSiteToMap site).2).
Proof.
  assert (Hid : forall site, Sites.Site.GetId site = None ->
                             (Sites.convertSiteToMap site).1 = "").
  { intros site Hnone. cbn. by rewrite Hnone. }
  split; [exact Hid|].
  intros client params result sites before site after Hget Hvalue Hall Hrun
         Hnone Hafter.
  unfold Sites.aggregate. cbn zeta. rewrite Hget, Hvalue.
  pose proof (last_stored_wins before after site ∅) as Hlast.
  rewrite (Hid site Hnone), <- Hrun in Hlast. specialize (Hlast Hafter).
  destruct (hasNonEmptyNextLink result).
  - rewrite Iterate_all_fetched by done. eexists. split; [reflexivity|].
    by rewrite <- foldl_app.
  - eexists. split; [reflexivity|]. by rewrite app_nil_r in Hlast.
Qed.

Lemma C10_sites_without_id_share_the_empty_key_witness :
  exists sitesData,
    Sites.aggregate (sitesClient twoPages) None = (Some sitesData, None)
    /\ sitesData !! ""
       = Some (Sites.convertSiteToMap (site None (Some "third"))).2.
Proof.
  apply (proj2 C10_sites_without_id_share_the_empty_key
           (sitesClient twoPages) None twoPages
           [site None (Some "first"); site (Some "s1") (Some "named")]
           [site None (Some "first"); site (Some "s1") (Some "named");
            site None (Some "first"); site (Some "s1") (Some "named");
            site None (Some "second")]
           (site None (Some "third")) []);
    [reflexivity | reflexivity | reflexivity | reflexivity | reflexivity |].
  intros later Hin. by apply elem_of_nil in Hin.
Defined.

(** ** The enrichment of the sites with their pages *)

Section EnrichmentFacts.
Variable unescapeEntities : string -> string.
Variable MarshalIndent : gmap string Attrs -> option string * option error.
Variable client : Sites.GraphServiceClient.

Abbreviation render siteId pageId :=
  (Sites.getPageContent unescapeEntities client siteId pageId "markdown").
Abbreviation pageIdOf page := ((Sites.convertSitePageToMap page).1).

(** No page of the service makes the renderer dereference a nil pointer. *)
Hypothesis renders : forall siteId pageId, render siteId pageId <> Panicked.

Lemma render_failed_fetch (siteId pageId : string) (err : error) :
  Sites.PageGet client siteId pageId = Failed err ->
  render siteId pageId = Done ("", Some ("error getting page content: " +:+ err)).
Proof. intros H. unfold Sites.getPageContent. by rewrite H. Qed.

Lemma render_fetched (siteId pageId : string) (page : Sites.SitePage.t) :
  Sites.PageGet client siteId pageId = Ok page ->
  exists content, render siteId pageId = Done (content, None).
Proof.
  intros H. pose proof (renders siteId pageId) as Hno.
  unfold Sites.getPageContent in *. rewrite H in *.
  destruct (writeAll _) as [content|]; cbn in *; [|done].
  destruct (String.eqb content ""); cbn; eauto.
Qed.

Lemma storePage_done (siteId : string) (page : Sites.SitePage.t) (pageData : Attrs) :
  exists pageInfo rendered,
    Sites.storePage unescapeEntities client siteId page pageData
    = Done (<[pageIdOf page := VMap pageInfo]> pageData)
    /\ render siteId (pageIdOf page) = Done rendered
    /\ pageInfo !! "content" = Some (VStr (contentOrSentinel rendered)).
Proof.
  unfold Sites.storePage.
  destruct (Sites.convertSitePageToMap page) as [pageId pageInfo] eqn:Hpage.
  cbn [fst]. pose proof (renders siteId pageId) as Hno.
  destruct (render siteId pageId) as [[content [err|]]|]; [| |done]; cbn;
    eexists _, _; (split; [reflexivity|]); (split; [reflexivity|]);
    apply lookup_insert_eq.
Qed.

Lemma pages_stored (siteId : string) (pages : list Sites.SitePage.t)
    (pageData0 : Attrs) :
  exists pageData,
    forEach (Sites.storePage unescapeEntities client siteId) pages pageData0
    = Done pageData
    /\ (forall page, page ∈ pages -> holdsContent unescapeEntities client siteId pageData page)
    /\ (forall key, (forall page, page ∈ pages -> pageIdOf page <> key) ->
                    pageData !! key = pageData0 !! key).
Proof.
  revert pageData0.
  induction pages as [|first pages IH]; intros pageData0.
  { exists pageData0. split; [done|]. split; [|done].
    intros page Hin. by apply elem_of_nil in Hin. }
  destruct (storePage_done siteId first pageData0)
    as (pageInfo & rendered & Hstore & Hrender & Hcontent).
  destruct (IH (<[pageIdOf first := VMap pageInfo]> pageData0))
    as (pageData & Hrest & Hin & Hout).
  exists pageData. split; [cbn [forEach]; by rewrite Hstore|]. split.
  - intros page [->|Hpage]%elem_of_cons; [|by apply Hin].
    destruct (decide (pageIdOf first ∈ (fun page => pageIdOf page) <$> pages))
      as [Hagain|Hlast].
    + apply list_elem_of_fmap in Hagain as (later & Hid & Hlater).
      destruct (Hin later Hlater) as (info & r & H1 & H2 & H3).
      exists info, r. by rewrite Hid.
    + exists pageInfo, rendered. split; [|done].
      rewrite Hout; [apply lookup_insert_eq|].
      intros page Hpage Heq. apply Hlast, list_elem_of_fmap. eauto.
  - intros key Hkey. rewrite Hout.
    + apply lookup_insert_ne, Hkey. by left.
    + intros page Hpage. apply Hkey. by right.
Qed.

Lemma enrichSite_done (id : string) (site : Attrs) :
  exists siteOut,
    Sites.enrichSite unescapeEntities client id site = Done siteOut
    /\ forall subsites pages,
         Sites.GetSubsites client id = (subsites, None) ->
         Sites.GetPages client id = (pages, None) ->
         exists pageData,
           siteOut !! "pages" = Some (VMap pageData)
           /\ forall page, page ∈ pages -> holdsContent unescapeEntities client id pageData page.
Proof.
  unfold Sites.enrichSite.
  destruct (Sites.GetSubsites client id) as [subsites [err|]].
  { eexists. split; [reflexivity|]. intros ?? [=]. }
  destruct (Sites.GetPages client id) as [pages [err|]].
  { eexists. split; [reflexivity|]. intros ?? _ [=]. }
  destruct (pages_stored id pages ∅) as (pageData & Hstored & Hin & _).
  rewrite Hstored. cbn. eexists. split; [reflexivity|].
  intros ? pages' _ [= <-]. exists pageData. split; [apply lookup_insert_eq|done].
Qed.

Lemma enrich_entries (entries : list (string * Attrs))
    (sitesData0 : gmap string Attrs) :
  NoDup entries.*1 ->
  exists out,
    forEach (fun '(id, site) sitesData =>
               bind (Sites.enrichSite unescapeEntities client id site)
                    (fun site => Done (<[id := site]> sitesData)))
            entries sitesData0
    = Done out
    /\ (forall id site, (id, site) ∈ entries ->
          exists siteOut,
            Sites.enrichSite unescapeEntities client id site = Done siteOut
            /\ out !! id = Some siteOut)
    /\ (forall key, key ∉ entries.*1 -> out !! key = sitesData0 !! key).
Proof.
  revert sitesData0.
  induction entries as [|[id site] entries IH]; intros sitesData0 Hnodup.
  { exists sitesData0. split; [done|]. split; [|done].
    intros ?? Hin. by apply elem_of_nil in Hin. }
  cbn in Hnodup. apply NoDup_cons in Hnodup as [Hfresh Hnodup].
  destruct (enrichSite_done id site) as (siteOut & Hsite & _).
  destruct (IH (<[id := siteOut]> sitesData0) Hnodup) as (out & Hrest & Hin & Hout).
  exists out. split; [cbn [forEach]; rewrite Hsite; exact Hrest|]. split.
  - intros id' site' [[= -> ->]|Hentry]%elem_of_cons; [|by apply Hin].
    exists siteOut. split; [done|]. rewrite Hout by done. apply lookup_insert_eq.
  - intros key [Hne Hkey]%not_elem_of_cons. rewrite Hout by done.
    by apply lookup_insert_ne.
Qed.

(** C4. [Get] stores every page of every site it lists under the page's
    identifier, with the sentinel as [content] when the page cannot be
    fetched and with the rendered document when it can; neither case stops
    the loops over the pages and over the sites. *)
Theorem C4_page_failure_becomes_sentinel (params : option QueryParameters)
    (sitesData : gmap string Attrs) :
  Sites.aggregate client params = (Some sitesData, None) ->
  exists out,
    Sites.Get unescapeEntities MarshalIndent client params = Done (MarshalIndent out)
    /\ forall id site subsites pages page,
         sitesData !! id = Some site ->
         Sites.GetSubsites client id = (subsites, None) ->
         Sites.GetPages client id = (pages, None) ->
         page ∈ pages ->
         exists siteOut pageData pageInfo,
           out !! id = Some siteOut
           /\ siteOut !! "pages" = Some (VMap pageData)
           /\ pageData !! pageIdOf page = Some (VMap pageInfo)
           /\ (forall err,
                 Sites.PageGet client id (pageIdOf page) = Failed err ->
                 pageInfo !! "content" = Some (VStr "Error fetching content"))
           /\ (forall fetched,
                 Sites.PageGet client id (pageIdOf page) = Ok fetched ->
                 exists content,
                   render id (pageIdOf page) = Done (content, None)
                   /\ pageInfo !! "content" = Some (VStr content)).
Proof.
  intros Haggregate.
  destruct (enrich_entries (map_to_list sitesData) sitesData
              (NoDup_fst_map_to_list sitesData)) as (out & Henrich & Hin & _).
  exists out. split.
  { unfold Sites.Get. rewrite Haggregate. unfold Sites.enrich.
    by rewrite Henrich. }
  intros id site subsites pages page Hsite Hsubsites Hpages Hpage.
  destruct (Hin id site) as (siteOut & Hdone & Hout);
    [by apply elem_of_map_to_list|].
  destruct (enrichSite_done id site) as (siteOut' & Hdone' & Hlisted).
  rewrite Hdone in Hdone'. injection Hdone' as <-.
  destruct (Hlisted subsites pages Hsubsites Hpages) as (pageData & Hdata & Hall).
  destruct (Hall page Hpage) as (pageInfo & rendered & Hentry & Hrender & Hcontent).
  exists siteOut, pageData, pageInfo. repeat (split; [done|]). split.
  - intros err Hfail. rewrite (render_failed_fetch _ _ _ Hfail) in Hrender.
    injection Hrender as <-. exact Hcontent.
  - intros fetched Hok. destruct (render_fetched _ _ _ Hok) as (content & Hc).
    exists content. split; [done|]. rewrite Hc in Hrender.
    injection Hrender as <-. exact Hcontent.
Qed.

End EnrichmentFacts.

Lemma intranet_renders (siteId pageId : string) :
  Sites.getPageContent keepEntities intranet siteId pageId "markdown" <> Panicked.
Proof.
  unfold Sites.getPageContent. cbn [Sites.PageGet intranet].
  destruct (String.eqb pageId "broken"); vm_compute; discriminate.
Qed.

Lemma C4_page_failure_becomes_sentinel_witness :
  exists out siteOut pageData broken home,
    Sites.Get keepEntities countEntries intranet None = Done (countEntries out)
    /\ out !! "s1" = Some siteOut
    /\ siteOut !! "pages" = Some (VMap pageData)
    /\ pageData !! "broken" = Some (VMap broken)
    /\ broken !! "content" = Some (VStr "Error fetching content")
    /\ pageData !! "home" = Some (VMap home)
    /\ home !! "content" = Some (VStr ("## Home" +:+ LF +:+ LF)).
Proof.
  destruct (C4_page_failure_becomes_sentinel keepEntities countEntries intranet
              intranet_renders None
              {[ "s1" := (Sites.convertSiteToMap (site (Some "s1") (Some "Intranet"))).2 ]}
              eq_refl)
    as (out & Hget & Hpages).
  pose (pages := [page "broken" (Some "Old") None; page "home" (Some "Home") None]).
  destruct (Hpages "s1" (Sites.convertSiteToMap (site (Some "s1") (Some "Intranet"))).2
              [] pages (page "broken" (Some "Old") None))
    as (siteOut & pageData & broken & Hout & Hdata & Hbroken & Hfail & _);
    [vm_compute; reflexivity | reflexivity | reflexivity | by left |].
  destruct (Hpages "s1" (Sites.convertSiteToMap (site (Some "s1") (Some "Intranet"))).2
              [] pages (page "home" (Some "Home") None))
    as (siteOut' & pageData' & home & Hout' & Hdata' & Hhome & _ & Hok);
    [vm_compute; reflexivity | reflexivity | reflexivity | by right; left |].
  rewrite Hout in Hout'. injection Hout' as <-.
  rewrite Hdata in Hdata'. injection Hdata' as <-.
  destruct (Hok (page "home" (Some "Home") None) eq_refl) as (content & Hrender & Hcontent).
  vm_compute in Hrender. injection Hrender as <-.
  exists out, siteOut, pageData, broken, home.
  repeat (split; [done|]). split; [|done].
  by apply (Hfail "404 Not Found").
Defined.

(** * Further properties *)

(** ** Strings *)

Lemma string_length_ind (P : string -> Prop) :
  (forall s, (forall t, String.length t < String.length s -> P t) -> P s) ->
  forall s, P s.
Proof.
  intros Hstep s. remember (S (String.length s)) as n eqn:Hn.
  assert (Hlt : String.length s < n) by lia. clear Hn. revert s Hlt.
  induction n as [|n IH]; intros s Hlt; [lia|].
  apply Hstep. intros t Ht. apply IH. lia.
Qed.

Lemma length_drop (n : nat) (s : string) :
  String.length (drop n s) = String.length s - n.
Proof.
  revert s. induction n as [|n IH]; intros [|a s]; cbn;
    first [done | lia | apply IH].
Qed.

Lemma concat_cons (x : string) (l : list string) :
  GoStrings.concat (x :: l) = x +:+ GoStrings.concat l.
Proof. reflexivity. Qed.

Lemma append_cons (a : ascii) (s t : string) :
  String a s +:+ t = String a (s +:+ t).
Proof. reflexivity. Qed.

Lemma append_assoc (s t u : string) : (s +:+ t) +:+ u = s +:+ (t +:+ u).
Proof.
  induction s as [|a s IH]; [reflexivity|].
  rewrite !append_cons. by rewrite IH.
Qed.

(** ** The scan of a pattern that starts with a literal *)

Section ScanFacts.
Variable r : re.
Variable l : string.
Hypothesis r_starts : startsWith l r.
Hypothesis l_not_empty : l <> "".

Lemma matchAt_needs_literal (s : string) :
  CutPrefix l s = None -> matchAt r s = None.
Proof.
  destruct r_starts as [rest ->]. intros Hcut. unfold matchAt. cbn.
  by rewrite Hcut.
Qed.

Lemma matchAt_nothing : matchAt r "" = None.
Proof.
  apply matchAt_needs_literal. destruct l; [done|reflexivity].
Qed.

Lemma matchAt_span (s : string) (n : nat) (m : Captures) :
  matchAt r s = Some (n, m) -> 0 < n <= String.length s.
Proof.
  intros Hmatch. split.
  - pose proof (match_spans_literal l r s n m r_starts Hmatch).
    destruct l; [done|]. cbn in *. lia.
  - unfold matchAt in Hmatch.
    apply exec_rest in Hmatch as (t & caps & Hle & [= <- _]). lia.
Qed.

Lemma scan_after (b b' : bool) (s : string) : scan r 0 b s = scan r 0 b' s.
Proof.
  destruct s as [|a t]; cbn.
  - by rewrite matchAt_nothing.
  - destruct (matchAt r (String a t)) as [[[|k] m]|] eqn:Hmatch; try done.
    apply matchAt_span in Hmatch. lia.
Qed.

Lemma scan_skip (k : nat) (b : bool) (s : string) :
  scan r k b s = scan r 0 b (drop k s).
Proof.
  revert b s. induction k as [|k IH]; intros b s.
  - by destruct s.
  - destruct s as [|a t]; cbn.
    + by rewrite matchAt_nothing.
    + rewrite IH. apply scan_after.
Qed.

Lemma scan_unfold (b : bool) (s : string) :
  scan r 0 b s
  = match matchAt r s with
    | Some (n, m) => Hit m :: scan r 0 false (drop n s)
    | None =>
        match s with
        | String a t => Text a :: scan r 0 false t
        | EmptyString => []
        end
    end.
Proof.
  destruct s as [|a t].
  - cbn. by rewrite matchAt_nothing.
  - cbn [scan].
    destruct (matchAt r (String a t)) as [[[|k] m]|] eqn:Hmatch; try done.
    + apply matchAt_span in Hmatch. lia.
    + f_equal. rewrite scan_skip. apply scan_after.
Qed.

Lemma ReplaceAllString_unfold (s : string) (repl : list tpart) :
  ReplaceAllString r s repl
  = match matchAt r s with
    | Some (n, m) => expand repl m +:+ ReplaceAllString r (drop n s) repl
    | None =>
        match s with
        | String a t => String a (ReplaceAllString r t repl)
        | EmptyString => ""
        end
    end.
Proof.
  unfold ReplaceAllString. rewrite scan_unfold.
  destruct (matchAt r s) as [[n m]|]; [done|]. by destruct s.
Qed.

Lemma FindAllStringSubmatch_unfold (s : string) :
  FindAllStringSubmatch r s
  = match matchAt r s with
    | Some (n, m) => m :: FindAllStringSubmatch r (drop n s)
    | None =>
        match s with
        | String a t => FindAllStringSubmatch r t
        | EmptyString => []
        end
    end.
Proof.
  unfold FindAllStringSubmatch. rewrite scan_unfold.
  destruct (matchAt r s) as [[n m]|]; [done|]. by destruct s.
Qed.

(** Where the literal does not occur, the pattern finds nothing. *)
Lemma no_match_without_literal (s : string) :
  occursIn l s = false -> FindAllStringSubmatch r s = [].
Proof.
  induction s as [|a t IH]; intros Hfree;
    rewrite FindAllStringSubmatch_unfold.
  - by rewrite matchAt_nothing.
  - cbn in Hfree. apply orb_false_elim in Hfree as [Hhere Hlater].
    rewrite matchAt_needs_literal; [by apply IH|].
    unfold HasPrefix in Hhere. by destruct (CutPrefix l (String a t)).
Qed.

Lemma unchanged_without_literal (s : string) (repl : list tpart) :
  occursIn l s = false -> ReplaceAllString r s repl = s.
Proof.
  induction s as [|a t IH]; intros Hfree; rewrite ReplaceAllString_unfold.
  - by rewrite matchAt_nothing.
  - cbn in Hfree. apply orb_false_elim in Hfree as [Hhere Hlater].
    rewrite matchAt_needs_literal; [by rewrite IH|].
    unfold HasPrefix in Hhere. by destruct (CutPrefix l (String a t)).
Qed.

End ScanFacts.

(** ** Text without markup *)

Lemma no_literal_in_text (l s : string) :
  ContainsByte "<" s = false -> occursIn (String "<" l) s = false.
Proof.
  induction s as [|a t IH]; [done|]. cbn.
  intros [Ha Ht]%orb_false_elim. rewrite (IH Ht), orb_false_r.
  unfold HasPrefix. cbn [CutPrefix]. by rewrite Ascii.eqb_sym, Ha.
Qed.

Lemma HasPrefix_occursIn (l s : string) : occursIn l s = false -> HasPrefix s l = false.
Proof. destruct s; cbn; by intros [? ?]%orb_false_elim. Qed.

Lemma replace_without_occurrence (old new : string) (limit : option nat)
    (s : string) :
  occursIn old s = false -> replace_from old new limit 0 s = s.
Proof.
  induction s as [|a t IH]; [done|]. intros Hfree.
  pose proof (HasPrefix_occursIn _ _ Hfree) as Hhere.
  cbn in Hfree. apply orb_false_elim in Hfree as [_ Hlater].
  cbn [replace_from]. rewrite Hhere. cbn. by rewrite IH.
Qed.

Lemma Replace_without_occurrence (s old new : string) (n : Z) :
  occursIn old s = false -> Replace s old new n = s.
Proof.
  intros Hfree. unfold Replace. destruct old; [done|].
  by apply replace_without_occurrence.
Qed.

Lemma unwrapDivs_without_literal (fuel : nat) (s : string) :
  ContainsByte "<" s = false -> Sites.unwrapDivs fuel s = s.
Proof.
  intros Hs. destruct fuel as [|fuel]; [done|]. cbn [Sites.unwrapDivs].
  unfold MatchString.
  rewrite (no_match_without_literal Sites.divRegex "<"); first done.
  - by eexists.
  - done.
  - by apply (no_literal_in_text "").
Qed.

Lemma rule_without_markup (r rest : re) (l d : string) (repl : list tpart) :
  r = Seq (Lit (String "<" l)) rest ->
  ContainsByte "<" d = false ->
  ReplaceAllString r d repl = d /\ FindAllStringSubmatch r d = [].
Proof.
  intros -> Hd. split.
  - apply (unchanged_without_literal _ (String "<" l)); [by eexists|done|].
    by apply no_literal_in_text.
  - apply (no_match_without_literal _ (String "<" l)); [by eexists|done|].
    by apply no_literal_in_text.
Qed.

Ltac rule_skips r d Hs :=
  rewrite (proj1 (rule_without_markup r _ _ d _ eq_refl Hs)).

Ltac marker_absent old d Hs :=
  rewrite (Replace_without_occurrence d old)
    by (by apply (no_literal_in_text _ _ Hs)).

Section PlainTextFacts.
Variable unescapeEntities : string -> string.

(** All the rules but the last two leave a text without [<] as it is. *)
Lemma markdown_of_text (s : string) :
  ContainsByte "<" (Sites.UnescapeString unescapeEntities s) = false ->
  Sites.htmlToMarkdown unescapeEntities s
  = ReplaceAllString Sites.spaceRegex
      (TrimSpace (Sites.UnescapeString unescapeEntities s)) [T LF; T LF].
Proof.
  intros Hs. unfold Sites.htmlToMarkdown. cbv zeta.
  set (d := Sites.UnescapeString unescapeEntities s) in *.
  rule_skips Sites.h1Regex d Hs. rule_skips Sites.h2Regex d Hs.
  rule_skips Sites.h3Regex d Hs. rule_skips Sites.h4Regex d Hs.
  rule_skips Sites.pRegex d Hs. rule_skips Sites.boldRegex d Hs.
  rule_skips Sites.italicRegex d Hs. rule_skips Sites.linkRegex d Hs.
  marker_absent "<ul>" d Hs. marker_absent "</ul>" d Hs.
  rule_skips Sites.liRegex d Hs.
  marker_absent "<ol>" d Hs. marker_absent "</ol>" d Hs.
  rule_skips Sites.olLiRegex d Hs. rule_skips Sites.imgRegex d Hs.
  rewrite (proj2 (rule_without_markup Sites.tableRegex _ _ d [] eq_refl Hs)).
  cbn [foldl].
  rule_skips Sites.preRegex d Hs. rule_skips Sites.codeRegex d Hs.
  rule_skips Sites.blockquoteRegex d Hs. rule_skips Sites.hrRegex d Hs.
  rewrite unwrapDivs_without_literal by done.
  rule_skips Sites.brRegex d Hs. rule_skips Sites.tagRegex d Hs.
  done.
Qed.

End PlainTextFacts.

(** ** Runs of line feeds *)

Lemma leadingLF_length (s : string) : leadingLF s <= String.length s.
Proof.
  induction s as [|a t IH]; cbn; [done|]. destruct (Ascii.eqb a "010"); lia.
Qed.

Lemma leadingLF_dropped (s : string) : leadingLF (drop (leadingLF s) s) = 0.
Proof.
  induction s as [|a t IH]; [done|]. cbn [leadingLF].
  destruct (Ascii.eqb a "010") eqn:Ha; cbn [drop]; [done|].
  cbn. by rewrite Ha.
Qed.

Lemma drop_more (n k : nat) (s : string) : drop n (drop k s) = drop (k + n) s.
Proof.
  revert s. induction k as [|k IH]; intros s; [done|].
  destruct s as [|a t]; cbn; [by destruct n|]. apply IH.
Qed.

Lemma leadingLF_drop (n : nat) (s : string) :
  n <= leadingLF s -> leadingLF (drop n s) = leadingLF s - n.
Proof.
  revert s. induction n as [|n IH]; intros s Hn; [cbn; lia|].
  destruct s as [|a t]; [done|]. cbn in *.
  destruct (Ascii.eqb a "010"); [|lia]. rewrite IH; lia.
Qed.

Lemma CutPrefix_three_line_feeds (s : string) :
  CutPrefix (LF +:+ LF +:+ LF) s
  = if Nat.leb 3 (leadingLF s) then Some (drop 3 s) else None.
Proof.
  change (LF +:+ LF +:+ LF) with (String "010" (String "010" (String "010" ""))).
  destruct s as [|a [|b [|c t]]]; cbn [CutPrefix leadingLF drop];
    rewrite ?(Ascii.eqb_sym "010"%char);
    repeat (destruct (Ascii.eqb _ "010")); reflexivity.
Qed.

Lemma star_takes_all_line_feeds {A} (s : string) (k : string -> option A) :
  (forall t, k t <> None) ->
  star true (Only "010") s k = k (drop (leadingLF s) s).
Proof.
  intros Hk. induction s as [|a t IH]; [done|]. cbn.
  destruct (Ascii.eqb a "010"); [|done].
  rewrite IH. by destruct (k (drop (leadingLF t) t)) eqn:Hkt; [|destruct (Hk _ Hkt)].
Qed.

Lemma matchAt_spaceRegex (s : string) :
  matchAt Sites.spaceRegex s
  = if Nat.leb 3 (leadingLF s)
    then Some (leadingLF s, <[0 := take (leadingLF s) s]> ∅)
    else None.
Proof.
  unfold matchAt, Sites.spaceRegex. cbn [exec].
  rewrite CutPrefix_three_line_feeds.
  destruct (Nat.leb 3 (leadingLF s)) eqn:Hrun; [|done].
  apply Nat.leb_le in Hrun.
  rewrite star_takes_all_line_feeds by done.
  rewrite drop_more, length_drop.
  rewrite (leadingLF_drop 3) by done.
  pose proof (leadingLF_length s).
  replace (3 + (leadingLF s - 3)) with (leadingLF s) by lia.
  by replace (String.length s - (String.length s - leadingLF s))
    with (leadingLF s) by lia.
Qed.

Lemma three_line_feeds_here (s : string) :
  HasPrefix s (LF +:+ LF +:+ LF) = (Nat.leb 3 (leadingLF s)).
Proof.
  unfold HasPrefix. rewrite CutPrefix_three_line_feeds.
  by destruct (Nat.leb 3 (leadingLF s)).
Qed.

(** Replacing the runs of three and more line feeds by two leaves no such
    run, and shortens the run at the head to two at most. *)
Lemma runs_are_collapsed (s : string) :
  let o := ReplaceAllString Sites.spaceRegex s [T LF; T LF] in
  occursIn (LF +:+ LF +:+ LF) o = false /\ leadingLF o = Nat.min (leadingLF s) 2.
Proof.
  induction s as [s IH] using string_length_ind. cbv zeta.
  rewrite (ReplaceAllString_unfold _ (LF +:+ LF +:+ LF)); [|by eexists|done].
  rewrite matchAt_spaceRegex.
  destruct (Nat.leb 3 (leadingLF s)) eqn:Hrun.
  - apply Nat.leb_le in Hrun.
    destruct (IH (drop (leadingLF s) s)) as [Hfree Hhead].
    { rewrite length_drop. pose proof (leadingLF_length s). lia. }
    rewrite leadingLF_dropped in Hhead. cbn in Hhead.
    set (o := ReplaceAllString Sites.spaceRegex (drop (leadingLF s) s) _) in *.
    change (expand [T LF; T LF] _ +:+ o) with (String "010" (String "010" o)).
    split.
    + cbn [occursIn]. rewrite !three_line_feeds_here. cbn [leadingLF Ascii.eqb].
      cbn. rewrite Hhead. cbn. exact Hfree.
    + cbn. rewrite Hhead. lia.
  - apply Nat.leb_gt in Hrun. destruct s as [|a t]; [done|].
    destruct (IH t) as [Hfree Hhead]; [cbn; lia|].
    set (o := ReplaceAllString Sites.spaceRegex t _) in *.
    assert (Ho : leadingLF (String a o) = leadingLF (String a t)).
    { cbn in *. destruct (Ascii.eqb a "010"); [|done]. lia. }
    split.
    + cbn [occursIn]. rewrite three_line_feeds_here, Ho, Hfree.
      apply Nat.leb_gt in Hrun. by rewrite Hrun.
    + rewrite Ho. lia.
Qed.

(** ** What [TrimSpace] keeps is a piece of the text *)

Lemma take_drop (n : nat) (s : string) : take n s +:+ drop n s = s.
Proof.
  revert s. induction n as [|n IH]; intros [|a t]; cbn; try done.
  rewrite append_cons. by rewrite IH.
Qed.

Lemma trim_left_drops (width : string -> nat) (fuel : nat) (s : string) :
  exists n, trim_left width fuel s = drop n s.
Proof.
  revert s. induction fuel as [|fuel IH]; intros s; [by exists 0|].
  cbn [trim_left]. destruct (width s) as [|w]; [by exists 0|].
  destruct (IH (drop (S w) s)) as [n ->]. exists (S w + n). apply drop_more.
Qed.

Lemma rev_onto_append (s acc : string) : rev_onto s acc = rev s +:+ acc.
Proof.
  unfold rev. revert acc. induction s as [|a t IH]; intros acc; [done|]. cbn.
  rewrite (IH (String a acc)), (IH (String a "")). by rewrite append_assoc.
Qed.

Lemma rev_append (s t : string) : rev (s +:+ t) = rev t +:+ rev s.
Proof.
  induction s as [|a s IH]; [by rewrite append_empty_r|].
  rewrite append_cons. unfold rev at 1 3. cbn.
  rewrite !rev_onto_append, IH. by rewrite append_assoc.
Qed.

Lemma rev_rev (s : string) : rev (rev s) = s.
Proof.
  induction s as [|a s IH]; [done|].
  change (rev (String a s)) with (rev_onto s (String a "")).
  by rewrite rev_onto_append, rev_append, IH.
Qed.

Lemma TrimSpace_piece (s : string) :
  exists before after, s = before +:+ TrimSpace s +:+ after.
Proof.
  unfold TrimSpace, TrimLeftSpace, TrimRightSpace.
  destruct (trim_left_drops space_width (String.length s) s) as [n ->].
  set (u := drop n s).
  destruct (trim_left_drops space_width_back (String.length u) (rev u)) as [k ->].
  exists (take n s), (rev (take k (rev u))).
  rewrite <- rev_append, take_drop, rev_rev. subst u. by rewrite take_drop.
Qed.

Lemma CutPrefix_append (l s t u : string) :
  CutPrefix l s = Some t -> CutPrefix l (s +:+ u) = Some (t +:+ u).
Proof.
  revert s. induction l as [|a l IH]; intros s; cbn.
  - by intros [= ->].
  - destruct s as [|b s]; [done|]. rewrite append_cons.
    destruct (Ascii.eqb a b); [apply IH|done].
Qed.

Lemma occursIn_piece (l before s after : string) :
  occursIn l (before +:+ s +:+ after) = false -> occursIn l s = false.
Proof.
  induction before as [|a before IH].
  - change ("" +:+ s +:+ after) with (s +:+ after).
    induction s as [|a s IH]; intros Hfree.
    + destruct l; [|done]. by destruct after.
    + rewrite append_cons in Hfree. cbn [occursIn] in *.
      apply orb_false_elim in Hfree as [Hhere Hlater].
      rewrite (IH Hlater), orb_false_r.
      unfold HasPrefix in *.
      destruct (CutPrefix l (String a s)) as [t|] eqn:Hcut; [|done].
      rewrite <- append_cons in Hhere.
      by rewrite (CutPrefix_append _ _ _ after Hcut) in Hhere.
  - rewrite append_cons. cbn [occursIn].
    intros [_ Hlater]%orb_false_elim. by apply IH.
Qed.

Lemma ContainsByte_append (c : ascii) (s t : string) :
  ContainsByte c (s +:+ t) = ContainsByte c s || ContainsByte c t.
Proof.
  induction s as [|a s IH]; [done|]. rewrite append_cons. cbn.
  by rewrite IH, orb_assoc.
Qed.

Lemma tagFree_append (s t : string) :
  tagFree (s +:+ t) = true -> tagFree s = true /\ tagFree t = true.
Proof.
  induction s as [|a s IH]; [done|]. rewrite append_cons. cbn.
  intros [Ha Hrest]%andb_prop. destruct (IH Hrest) as [Hs Ht].
  split; [|done]. rewrite Hs, andb_true_r.
  destruct (Ascii.eqb a "<"); [|done].
  rewrite ContainsByte_append in Ha. by destruct (ContainsByte ">" s).
Qed.

Lemma tagFree_drop (n : nat) (s : string) :
  tagFree s = true -> tagFree (drop n s) = true.
Proof.
  intros Hs. apply (tagFree_append (take n s) (drop n s)). by rewrite take_drop.
Qed.

Lemma ContainsByte_drop (c : ascii) (n : nat) (s : string) :
  ContainsByte c s = false -> ContainsByte c (drop n s) = false.
Proof.
  intros Hs.
  assert (H : ContainsByte c (take n s +:+ drop n s) = false)
    by by rewrite take_drop.
  rewrite ContainsByte_append in H. by apply orb_false_elim in H as [_ H].
Qed.

Lemma TrimSpace_tagFree (s : string) :
  tagFree s = true -> tagFree (TrimSpace s) = true.
Proof.
  intros Hs. destruct (TrimSpace_piece s) as (before & after & Heq).
  rewrite Heq in Hs. apply tagFree_append in Hs as [_ Hs].
  by apply tagFree_append in Hs as [Hs _].
Qed.

(** ** The last rules of the transducer *)

(** A rule whose replacement is a fixed text adds no byte but those of that
    text. *)
Lemma rule_adds_no_byte (r : re) (l : string) (c : ascii) (repl : list tpart)
    (text s : string) :
  startsWith l r -> l <> "" ->
  (forall m, expand repl m = text) ->
  ContainsByte c text = false ->
  ContainsByte c s = false ->
  ContainsByte c (ReplaceAllString r s repl) = false.
Proof.
  intros Hr Hl Hrepl Htext.
  induction s as [s IH] using string_length_ind. intros Hs.
  rewrite (ReplaceAllString_unfold r l Hr Hl).
  destruct (matchAt r s) as [[n m]|] eqn:Hmatch.
  - apply (matchAt_span r l Hr Hl) in Hmatch.
    rewrite ContainsByte_append, Hrepl, Htext. cbn.
    apply IH; [rewrite length_drop; lia|]. by apply ContainsByte_drop.
  - destruct s as [|a t]; [done|]. cbn in *.
    apply orb_false_elim in Hs as [-> Ht]. cbn. apply IH; [lia|done].
Qed.

Lemma no_tag_without_closing (t : string) (K : string -> nat * Captures) :
  star true (Not ">") t
    (fun u => match CutPrefix ">" u with
              | Some v => Some (K v)
              | None => None
              end) = None ->
  ContainsByte ">" t = false.
Proof.
  induction t as [|a t IH]; [done|]. cbn [star cmatch ContainsByte].
  destruct (Ascii.eqb a ">") eqn:Ha; cbn [negb orb].
  - cbn [CutPrefix]. by rewrite Ascii.eqb_sym, Ha.
  - destruct (star true (Not ">") t _) eqn:Hstar; [done|]. intros _. by apply IH.
Qed.

Lemma tagRegex_finds_the_tag (t : string) :
  matchAt Sites.tagRegex (String "<" t) = None -> ContainsByte ">" t = false.
Proof.
  unfold matchAt, Sites.tagRegex. cbn [exec CutPrefix].
  rewrite Ascii.eqb_refl.
  apply (no_tag_without_closing t
           (fun v => (String.length (String "<" t) - String.length v,
                      <[0 := take (String.length (String "<" t) - String.length v)
                               (String "<" t)]> ∅))).
Qed.

Lemma tags_are_stripped (s : string) :
  tagFree (ReplaceAllString Sites.tagRegex s []) = true.
Proof.
  induction s as [s IH] using string_length_ind.
  rewrite (ReplaceAllString_unfold _ "<"); [|by eexists|done].
  destruct (matchAt Sites.tagRegex s) as [[n m]|] eqn:Hmatch.
  - apply (matchAt_span _ "<") in Hmatch; [|by eexists|done].
    change (expand [] m) with "". apply IH. rewrite length_drop. lia.
  - destruct s as [|a t]; [done|]. cbn [tagFree].
    rewrite IH by (cbn; lia). rewrite andb_true_r.
    destruct (Ascii.eqb a "<") eqn:Ha; [|done].
    apply Ascii.eqb_eq in Ha as ->.
    rewrite (rule_adds_no_byte _ "<" _ _ ""); try done; [by eexists|].
    by apply tagRegex_finds_the_tag.
Qed.

Lemma collapse_keeps_tagFree (s : string) :
  tagFree s = true ->
  tagFree (ReplaceAllString Sites.spaceRegex s [T LF; T LF]) = true.
Proof.
  induction s as [s IH] using string_length_ind. intros Hs.
  rewrite (ReplaceAllString_unfold _ (LF +:+ LF +:+ LF)); [|by eexists|done].
  rewrite matchAt_spaceRegex.
  destruct (Nat.leb 3 (leadingLF s)) eqn:Hrun.
  - apply Nat.leb_le in Hrun.
    change (expand [T LF; T LF] _ +:+ ?o) with (String "010" (String "010" o)).
    cbn [tagFree Ascii.eqb]. cbn.
    apply IH; [|by apply tagFree_drop].
    rewrite length_drop. pose proof (leadingLF_length s). lia.
  - destruct s as [|a t]; [done|]. cbn [tagFree] in *.
    apply andb_prop in Hs as [Ha Ht]. rewrite IH by (done || cbn; lia).
    rewrite andb_true_r. destruct (Ascii.eqb a "<"); [|done].
    rewrite (rule_adds_no_byte _ (LF +:+ LF +:+ LF) _ _ (LF +:+ LF));
      try done; [by eexists|].
    by destruct (ContainsByte ">" t).
Qed.

Section TransducerLaws.
Variable unescapeEntities : string -> string.

(** X1. Whatever the input, the output has no run of three line feeds. *)
Theorem output_has_no_three_line_feeds (htmlContent : string) :
  occursIn (LF +:+ LF +:+ LF) (Sites.htmlToMarkdown unescapeEntities htmlContent)
  = false.
Proof.
  unfold Sites.htmlToMarkdown. cbv zeta. apply (proj1 (runs_are_collapsed _)).
Qed.

(** X2. Whatever the input, the output holds nothing of the form [<...>]: no
    [<] of the output has a [>] after it. *)
Theorem output_has_no_tag (htmlContent : string) :
  tagFree (Sites.htmlToMarkdown unescapeEntities htmlContent) = true.
Proof.
  unfold Sites.htmlToMarkdown. cbv zeta.
  apply collapse_keeps_tagFree, TrimSpace_tagFree, tags_are_stripped.
Qed.

(** X3. A text with no [<] (after the entities are decoded) and no run of three
    line feeds is only trimmed. *)
Theorem text_without_markup_is_trimmed (htmlContent : string) :
  ContainsByte "<" (Sites.UnescapeString unescapeEntities htmlContent) = false ->
  occursIn (LF +:+ LF +:+ LF) (Sites.UnescapeString unescapeEntities htmlContent)
  = false ->
  Sites.htmlToMarkdown unescapeEntities htmlContent
  = TrimSpace (Sites.UnescapeString unescapeEntities htmlContent).
Proof.
  intros Htext Hruns. rewrite markdown_of_text by done.
  apply (unchanged_without_literal _ (LF +:+ LF +:+ LF)); [by eexists|done|].
  destruct (TrimSpace_piece (Sites.UnescapeString unescapeEntities htmlContent))
    as (before & after & Heq).
  rewrite Heq in Hruns. by apply occursIn_piece in Hruns.
Qed.

End TransducerLaws.

Lemma text_without_markup_is_trimmed_witness :
  Sites.htmlToMarkdown keepEntities "  Quarterly report  "
  = TrimSpace "  Quarterly report  ".
Proof.
  apply (text_without_markup_is_trimmed keepEntities "  Quarterly report  ");
    reflexivity.
Defined.

(** ** Elements with plain text inside *)

Lemma CutPrefix_self (l s : string) : CutPrefix l (l +:+ s) = Some s.
Proof.
  induction l as [|a l IH]; [done|]. rewrite append_cons. cbn.
  by rewrite Ascii.eqb_refl.
Qed.

Lemma CutPrefix_same (l : string) : CutPrefix l l = Some "".
Proof. induction l as [|a l IH]; [done|]. cbn. by rewrite Ascii.eqb_refl. Qed.

Lemma drop_all (s : string) : drop (String.length s) s = "".
Proof. induction s as [|a s IH]; [done|]. apply IH. Qed.

Lemma length_append (s t : string) :
  String.length (s +:+ t) = String.length s + String.length t.
Proof.
  induction s as [|a s IH]; [done|]. rewrite append_cons. cbn. by rewrite IH.
Qed.

Lemma take_append (s t : string) : take (String.length s) (s +:+ t) = s.
Proof.
  induction s as [|a s IH]; [by destruct t|]. rewrite append_cons. cbn.
  by rewrite IH.
Qed.

Lemma take_all (s : string) : take (String.length s) s = s.
Proof. induction s as [|a s IH]; [done|]. cbn. by rewrite IH. Qed.

(** [.*?] runs over a text without line feed and without [<] up to the
    closing tag. *)
Lemma lazy_star_reaches_closing {A} (t c : string) (k : string -> option A) :
  ContainsByte "010" t = false ->
  ContainsByte "<" t = false ->
  (forall a u, Ascii.eqb a "<" = false -> k (String a u) = None) ->
  k (String "<" c) <> None ->
  star false Dot (t +:+ String "<" c) k = k (String "<" c).
Proof.
  intros Hlf Hlt Hk Hclose. induction t as [|a t IH].
  - change ("" +:+ String "<" c) with (String "<" c). cbn.
    by destruct (k (String "<" c)).
  - rewrite append_cons. cbn [star cmatch]. cbn in Hlf, Hlt.
    apply orb_false_elim in Hlf as [Ha Hlf].
    apply orb_false_elim in Hlt as [Ha' Hlt].
    rewrite Ha. cbn [negb]. rewrite (Hk _ _ Ha'). by apply IH.
Qed.

(** The rules of the form [<tag[^>]*>(.*?)</tag>] on an element without
    attributes that holds plain text. *)
Lemma element_is_matched (open c t : string) :
  ContainsByte "010" t = false ->
  ContainsByte "<" t = false ->
  let s := open +:+ ">" +:+ t +:+ String "<" c in
  matchAt (Lit open · Star true (Not ">") · Lit ">" · Cap 1 (Star false Dot)
           · Lit (String "<" c))%re s
  = Some (String.length s, <[0 := s]> (<[1 := t]> ∅)).
Proof.
  intros Hlf Hlt s. unfold matchAt. cbn [exec]. subst s.
  rewrite CutPrefix_self.
  change (">" +:+ t +:+ String "<" c) with (String ">" (t +:+ String "<" c)).
  cbn [star cmatch]. rewrite Ascii.eqb_refl. cbn [negb CutPrefix].
  rewrite Ascii.eqb_refl.
  rewrite lazy_star_reaches_closing; try done.
  - rewrite Ascii.eqb_refl, CutPrefix_same.
    rewrite (length_append t (String "<" c)), Nat.add_sub, take_append.
    change (String.length "") with 0. rewrite Nat.sub_0_r. by rewrite take_all.
  - intros a u Ha. by rewrite Ascii.eqb_sym, Ha.
  - by rewrite Ascii.eqb_refl, CutPrefix_same.
Qed.

Lemma element_is_rewritten (open c t : string) (repl : list tpart) :
  open <> "" ->
  ContainsByte "010" t = false ->
  ContainsByte "<" t = false ->
  let s := open +:+ ">" +:+ t +:+ String "<" c in
  ReplaceAllString (Lit open · Star true (Not ">") · Lit ">"
                    · Cap 1 (Star false Dot) · Lit (String "<" c))%re s repl
  = expand repl (<[0 := s]> (<[1 := t]> ∅)).
Proof.
  intros Hopen Hlf Hlt s.
  rewrite (ReplaceAllString_unfold _ open); [|by eexists|done].
  subst s. rewrite element_is_matched by done. rewrite drop_all.
  rewrite (ReplaceAllString_unfold _ open); [|by eexists|done].
  rewrite (matchAt_nothing _ open); [|by eexists|done].
  apply append_empty_r.
Qed.

Lemma occursIn_after_text (l t u : string) :
  ContainsByte "<" t = false ->
  occursIn (String "<" l) (t +:+ u) = occursIn (String "<" l) u.
Proof.
  intros Ht. induction t as [|a t IH]; [done|]. rewrite append_cons.
  cbn in Ht. apply orb_false_elim in Ht as [Ha Ht].
  cbn [occursIn]. rewrite (IH Ht). unfold HasPrefix at 1. cbn [CutPrefix].
  by rewrite Ascii.eqb_sym, Ha.
Qed.

Lemma no_run_after_line (t : string) :
  ContainsByte "010" t = false ->
  occursIn (LF +:+ LF +:+ LF) (t +:+ LF +:+ LF) = false.
Proof.
  intros Ht. induction t as [|a t IH]; [reflexivity|]. rewrite append_cons.
  cbn in Ht. apply orb_false_elim in Ht as [Ha Ht].
  cbn [occursIn]. rewrite (IH Ht), three_line_feeds_here. cbn [leadingLF].
  by rewrite Ha.
Qed.

Lemma expand_one_group (before : string) (s t : string) :
  expand [T before; G 1; T LF; T LF] (<[0 := s]> (<[1 := t]> ∅))
  = before +:+ t +:+ LF +:+ LF.
Proof.
  unfold expand. rewrite !fmap_cons, fmap_nil, !concat_cons.
  replace (<[0 := s]> (<[1 := t]> ∅) !! 1) with (Some t) by reflexivity.
  cbn [default]. change (GoStrings.concat []) with "".
  by rewrite append_empty_r.
Qed.

Lemma append_empty_l (s : string) : "" +:+ s = s.
Proof. reflexivity. Qed.

(** The literal of an earlier rule does not occur in the element. *)
Ltac literal_absent Hlt :=
  rewrite ?append_cons, ?append_empty_l; cbn [occursIn];
  rewrite occursIn_after_text by exact Hlt; reflexivity.

Ltac earlier_rule r lit x Hlt :=
  let H := fresh "Habsent" in
  assert (H : occursIn lit x = false) by literal_absent Hlt;
  rewrite (unchanged_without_literal r lit ltac:(by eexists) ltac:(done) x _ H);
  clear H.

(** The rules after the one that fired find a text without [<]. *)
Ltac later_rules d Hs :=
  try rule_skips Sites.h1Regex d Hs; try rule_skips Sites.h2Regex d Hs;
  try rule_skips Sites.h3Regex d Hs; try rule_skips Sites.h4Regex d Hs;
  try rule_skips Sites.pRegex d Hs; rule_skips Sites.boldRegex d Hs;
  rule_skips Sites.italicRegex d Hs; rule_skips Sites.linkRegex d Hs;
  marker_absent "<ul>" d Hs; marker_absent "</ul>" d Hs;
  rule_skips Sites.liRegex d Hs;
  marker_absent "<ol>" d Hs; marker_absent "</ol>" d Hs;
  rule_skips Sites.olLiRegex d Hs; rule_skips Sites.imgRegex d Hs;
  rewrite (proj2 (rule_without_markup Sites.tableRegex _ _ d [] eq_refl Hs));
  cbn [foldl];
  rule_skips Sites.preRegex d Hs; rule_skips Sites.codeRegex d Hs;
  rule_skips Sites.blockquoteRegex d Hs; rule_skips Sites.hrRegex d Hs;
  rewrite unwrapDivs_without_literal by exact Hs;
  rule_skips Sites.brRegex d Hs; rule_skips Sites.tagRegex d Hs.

Section ElementFacts.
Variable unescapeEntities : string -> string.
Variable t : string.
Hypothesis no_markup : ContainsByte "<" t = false.
Hypothesis no_entity : ContainsByte "&" t = false.
Hypothesis one_line : ContainsByte "010" t = false.

Lemma element_is_not_decoded (open close : string) :
  ContainsByte "&" open = false -> ContainsByte "&" close = false ->
  Sites.UnescapeString unescapeEntities (open +:+ t +:+ close)
  = open +:+ t +:+ close.
Proof.
  intros Hopen Hclose. unfold Sites.UnescapeString.
  by rewrite !ContainsByte_append, Hopen, Hclose, no_entity.
Qed.

(** What is left to do once a rule has written [before ++ t] and two line
    feeds. *)
Lemma line_is_trimmed (before : string) :
  ContainsByte "<" before = false ->
  ContainsByte "010" before = false ->
  let y := before +:+ t +:+ LF +:+ LF in
  ContainsByte "<" y = false
  /\ ReplaceAllString Sites.spaceRegex (TrimSpace y) [T LF; T LF] = TrimSpace y.
Proof.
  intros Hlt Hlf y. split.
  - subst y. by rewrite !ContainsByte_append, Hlt, no_markup.
  - apply (unchanged_without_literal _ (LF +:+ LF +:+ LF)); [by eexists|done|].
    destruct (TrimSpace_piece y) as (p & q & Heq).
    apply (occursIn_piece _ p _ q). rewrite <- Heq. subst y.
    rewrite <- (append_assoc before t (LF +:+ LF)). apply no_run_after_line.
    by rewrite ContainsByte_append, Hlf, one_line.
Qed.

Lemma heading_one :
  Sites.htmlToMarkdown unescapeEntities ("<h1>" +:+ t +:+ "</h1>")
  = TrimSpace ("# " +:+ t +:+ LF +:+ LF).
Proof.
  unfold Sites.htmlToMarkdown. cbv zeta.
  rewrite element_is_not_decoded by done.
  change ("<h1>" +:+ t +:+ "</h1>") with ("<h1" +:+ ">" +:+ t +:+ String "<" "/h1>").
  change Sites.h1Regex with
    (Lit "<h1" · Star true (Not ">") · Lit ">" · Cap 1 (Star false Dot)
     · Lit (String "<" "/h1>"))%re.
  rewrite (element_is_rewritten "<h1" "/h1>" t) by done.
  rewrite (expand_one_group "# ").
  destruct (line_is_trimmed "# " eq_refl eq_refl) as [Hs Hend].
  set (y := "# " +:+ t +:+ LF +:+ LF) in *.
  later_rules y Hs. exact Hend.
Qed.

Lemma heading_two :
  Sites.htmlToMarkdown unescapeEntities ("<h2>" +:+ t +:+ "</h2>")
  = TrimSpace ("## " +:+ t +:+ LF +:+ LF).
Proof.
  unfold Sites.htmlToMarkdown. cbv zeta.
  rewrite element_is_not_decoded by done.
  earlier_rule Sites.h1Regex "<h1" ("<h2>" +:+ t +:+ "</h2>") no_markup.
  change ("<h2>" +:+ t +:+ "</h2>") with ("<h2" +:+ ">" +:+ t +:+ String "<" "/h2>").
  change Sites.h2Regex with
    (Lit "<h2" · Star true (Not ">") · Lit ">" · Cap 1 (Star false Dot)
     · Lit (String "<" "/h2>"))%re.
  rewrite (element_is_rewritten "<h2" "/h2>" t) by done.
  rewrite (expand_one_group "## ").
  destruct (line_is_trimmed "## " eq_refl eq_refl) as [Hs Hend].
  set (y := "## " +:+ t +:+ LF +:+ LF) in *.
  later_rules y Hs. exact Hend.
Qed.

Lemma heading_three :
  Sites.htmlToMarkdown unescapeEntities ("<h3>" +:+ t +:+ "</h3>")
  = TrimSpace ("### " +:+ t +:+ LF +:+ LF).
Proof.
  unfold Sites.htmlToMarkdown. cbv zeta.
  rewrite element_is_not_decoded by done.
  earlier_rule Sites.h1Regex "<h1" ("<h3>" +:+ t +:+ "</h3>") no_markup.
  earlier_rule Sites.h2Regex "<h2" ("<h3>" +:+ t +:+ "</h3>") no_markup.
  change ("<h3>" +:+ t +:+ "</h3>") with ("<h3" +:+ ">" +:+ t +:+ String "<" "/h3>").
  change Sites.h3Regex with
    (Lit "<h3" · Star true (Not ">") · Lit ">" · Cap 1 (Star false Dot)
     · Lit (String "<" "/h3>"))%re.
  rewrite (element_is_rewritten "<h3" "/h3>" t) by done.
  rewrite (expand_one_group "### ").
  destruct (line_is_trimmed "### " eq_refl eq_refl) as [Hs Hend].
  set (y := "### " +:+ t +:+ LF +:+ LF) in *.
  later_rules y Hs. exact Hend.
Qed.

Lemma heading_four :
  Sites.htmlToMarkdown unescapeEntities ("<h4>" +:+ t +:+ "</h4>")
  = TrimSpace ("#### " +:+ t +:+ LF +:+ LF).
Proof.
  unfold Sites.htmlToMarkdown. cbv zeta.
  rewrite element_is_not_decoded by done.
  earlier_rule Sites.h1Regex "<h1" ("<h4>" +:+ t +:+ "</h4>") no_markup.
  earlier_rule Sites.h2Regex "<h2" ("<h4>" +:+ t +:+ "</h4>") no_markup.
  earlier_rule Sites.h3Regex "<h3" ("<h4>" +:+ t +:+ "</h4>") no_markup.
  change ("<h4>" +:+ t +:+ "</h4>") with ("<h4" +:+ ">" +:+ t +:+ String "<" "/h4>").
  change Sites.h4Regex with
    (Lit "<h4" · Star true (Not ">") · Lit ">" · Cap 1 (Star false Dot)
     · Lit (String "<" "/h4>"))%re.
  rewrite (element_is_rewritten "<h4" "/h4>" t) by done.
  rewrite (expand_one_group "#### ").
  destruct (line_is_trimmed "#### " eq_refl eq_refl) as [Hs Hend].
  set (y := "#### " +:+ t +:+ LF +:+ LF) in *.
  later_rules y Hs. exact Hend.
Qed.

Lemma paragraph :
  Sites.htmlToMarkdown unescapeEntities ("<p>" +:+ t +:+ "</p>")
  = TrimSpace (t +:+ LF +:+ LF).
Proof.
  unfold Sites.htmlToMarkdown. cbv zeta.
  rewrite element_is_not_decoded by done.
  earlier_rule Sites.h1Regex "<h1" ("<p>" +:+ t +:+ "</p>") no_markup.
  earlier_rule Sites.h2Regex "<h2" ("<p>" +:+ t +:+ "</p>") no_markup.
  earlier_rule Sites.h3Regex "<h3" ("<p>" +:+ t +:+ "</p>") no_markup.
  earlier_rule Sites.h4Regex "<h4" ("<p>" +:+ t +:+ "</p>") no_markup.
  change ("<p>" +:+ t +:+ "</p>") with ("<p" +:+ ">" +:+ t +:+ String "<" "/p>").
  change Sites.pRegex with
    (Lit "<p" · Star true (Not ">") · Lit ">" · Cap 1 (Star false Dot)
     · Lit (String "<" "/p>"))%re.
  rewrite (element_is_rewritten "<p" "/p>" t) by done.
  change [G 1; T LF; T LF] with (tl [T ""; G 1; T LF; T LF]).
  assert (Hexpand : forall m, expand (tl [T ""; G 1; T LF; T LF]) m
                              = expand [T ""; G 1; T LF; T LF] m) by done.
  rewrite Hexpand, (expand_one_group "").
  destruct (line_is_trimmed "" eq_refl eq_refl) as [Hs Hend].
  set (y := "" +:+ t +:+ LF +:+ LF) in *.
  later_rules y Hs. exact Hend.
Qed.

(** X4. A heading or a paragraph without attributes that holds one line of
    plain text becomes that line behind its Markdown prefix, trimmed: the
    two line feeds the rule writes are taken off again. *)
Theorem headings_and_paragraphs :
  Sites.htmlToMarkdown unescapeEntities ("<h1>" +:+ t +:+ "</h1>")
  = TrimSpace ("# " +:+ t +:+ LF +:+ LF)
  /\ Sites.htmlToMarkdown unescapeEntities ("<h2>" +:+ t +:+ "</h2>")
     = TrimSpace ("## " +:+ t +:+ LF +:+ LF)
  /\ Sites.htmlToMarkdown unescapeEntities ("<h3>" +:+ t +:+ "</h3>")
     = TrimSpace ("### " +:+ t +:+ LF +:+ LF)
  /\ Sites.htmlToMarkdown unescapeEntities ("<h4>" +:+ t +:+ "</h4>")
     = TrimSpace ("#### " +:+ t +:+ LF +:+ LF)
  /\ Sites.htmlToMarkdown unescapeEntities ("<p>" +:+ t +:+ "</p>")
     = TrimSpace (t +:+ LF +:+ LF).
Proof.
  repeat split;
    [apply heading_one|apply heading_two|apply heading_three
    |apply heading_four|apply paragraph].
Qed.

End ElementFacts.

Lemma headings_and_paragraphs_witness :
  Sites.htmlToMarkdown keepEntities "<h3>Release notes</h3>" = "### Release notes".
Proof.
  exact (proj1 (proj2 (proj2 (headings_and_paragraphs keepEntities
                                "Release notes" eq_refl eq_refl eq_refl)))).
Defined.

(** ** The walk over the canvas *)

Lemma concat_append (l1 l2 : list string) :
  GoStrings.concat (l1 ++ l2)%list = GoStrings.concat l1 +:+ GoStrings.concat l2.
Proof.
  induction l1 as [|x l1 IH]; [done|]. cbn [app]. rewrite !concat_cons, IH.
  by rewrite append_assoc.
Qed.

Lemma concat_bind {A B} (g : B -> string) (h : A -> list B) (l : list A) :
  GoStrings.concat (g <$> (l ≫= h))
  = GoStrings.concat ((fun x => GoStrings.concat (g <$> h x)) <$> l).
Proof.
  induction l as [|x l IH]; [done|].
  rewrite bind_cons, fmap_app, concat_append, fmap_cons, concat_cons.
  by rewrite IH.
Qed.

Lemma writeAll_imap_done {A} (first : string) (write : nat -> A -> outcome string)
    (text : A -> string) (items : list A) :
  (forall i item, item ∈ items -> write i item = Done (text item)) ->
  writeAll (Done first :: imap write items)
  = Done (first +:+ GoStrings.concat (text <$> items)).
Proof.
  intros Hwrite. cbn [writeAll bind]. f_equal.
  assert (Hitems : writeAll (imap write items)
                   = Done (GoStrings.concat (text <$> items))); [|by rewrite Hitems].
  revert write Hwrite. induction items as [|item items IH]; intros write Hwrite;
    [done|].
  rewrite imap_cons. cbn [writeAll]. rewrite (Hwrite 0 item) by by left.
  cbn [bind]. rewrite (IH (write ∘ S)).
  - done.
  - intros i x Hx. apply Hwrite. by right.
Qed.

Lemma writeAll_two (a b : string) : writeAll [Done a; Done b] = Done (a +:+ b).
Proof. cbn [writeAll bind]. by rewrite append_empty_r. Qed.

Section WalkFacts.
Variable unescapeEntities : string -> string.

Lemma column_block_written (wpIdx : nat) (webPart : Sites.WebPart.t) :
  Sites.horizontalWebPart unescapeEntities "markdown" 0 webPart <> Panicked ->
  Sites.horizontalWebPart unescapeEntities "markdown" wpIdx webPart
  = Done (columnBlockText unescapeEntities webPart).
Proof.
  unfold columnBlockText.
  change (Sites.horizontalWebPart unescapeEntities "markdown" wpIdx webPart)
    with (Sites.horizontalWebPart unescapeEntities "markdown" 0 webPart).
  by destruct (Sites.horizontalWebPart unescapeEntities "markdown" 0 webPart).
Qed.

Lemma column_written (colIdx : nat) (column : Sites.CanvasColumn.t) :
  (forall webPart,
     webPart ∈ default [] (Sites.CanvasColumn.GetWebparts column) ->
     Sites.horizontalWebPart unescapeEntities "markdown" 0 webPart <> Panicked) ->
  Sites.columnText unescapeEntities "markdown" colIdx column
  = Done (GoStrings.concat
            (columnBlockText unescapeEntities
               <$> default [] (Sites.CanvasColumn.GetWebparts column))).
Proof.
  intros Hparts. unfold Sites.columnText.
  change (Sites.isMarkdown "markdown") with true. cbv iota.
  destruct (Sites.CanvasColumn.GetWebparts column) as [webParts|];
    [|by rewrite writeAll_two].
  rewrite (writeAll_imap_done "" _ (columnBlockText unescapeEntities)).
  - by rewrite writeAll_two, !append_empty_l.
  - intros i webPart Hin. by apply column_block_written, Hparts.
Qed.

Lemma section_written (secIdx : nat) (section : Sites.HorizontalSection.t) :
  (forall column webPart,
     column ∈ default [] (Sites.HorizontalSection.GetColumns section) ->
     webPart ∈ default [] (Sites.CanvasColumn.GetWebparts column) ->
     Sites.horizontalWebPart unescapeEntities "markdown" 0 webPart <> Panicked) ->
  Sites.sectionText unescapeEntities "markdown" secIdx section
  = Done (GoStrings.concat
            (columnBlockText unescapeEntities <$>
               (column ← default [] (Sites.HorizontalSection.GetColumns section);
                default [] (Sites.CanvasColumn.GetWebparts column)))).
Proof.
  intros Hparts. unfold Sites.sectionText. rewrite concat_bind.
  change (Sites.isMarkdown "markdown") with true. cbv iota.
  destruct (Sites.HorizontalSection.GetColumns section) as [columns|];
    [|by rewrite writeAll_two].
  rewrite (writeAll_imap_done "" _
             (fun column => GoStrings.concat
                (columnBlockText unescapeEntities
                   <$> default [] (Sites.CanvasColumn.GetWebparts column)))).
  - by rewrite writeAll_two, !append_empty_l.
  - intros i column Hin. apply column_written. intros webPart. by apply Hparts.
Qed.

Lemma vertical_written (vertSection : Sites.VerticalSection.t) :
  Sites.verticalText unescapeEntities "markdown" vertSection
  = GoStrings.concat
      (Sites.verticalWebPart unescapeEntities "markdown" 0
         <$> default [] (Sites.VerticalSection.GetWebparts vertSection)).
Proof.
  unfold Sites.verticalText.
  change (Sites.isMarkdown "markdown") with true. cbv iota.
  destruct (Sites.VerticalSection.GetWebparts vertSection) as [webParts|];
    [|done].
  rewrite !append_empty_l.
  change (Sites.verticalWebPart unescapeEntities "markdown")
    with (fun _ : nat => Sites.verticalWebPart unescapeEntities "markdown" 0).
  by rewrite (imap_const (Sites.verticalWebPart unescapeEntities "markdown" 0)).
Qed.

Lemma canvas_written (layout : Sites.CanvasLayout.t) :
  (forall webPart, webPart ∈ columnBlocks layout ->
     Sites.horizontalWebPart unescapeEntities "markdown" 0 webPart <> Panicked) ->
  Sites.canvasText unescapeEntities "markdown" layout
  = Done (GoStrings.concat (columnBlockText unescapeEntities <$> columnBlocks layout)
          +:+ GoStrings.concat
                (Sites.verticalWebPart unescapeEntities "markdown" 0
                   <$> verticalBlocks layout)).
Proof.
  intros Hparts. unfold Sites.canvasText, columnBlocks, verticalBlocks in *.
  rewrite concat_bind.
  change (Sites.isMarkdown "markdown") with true. cbv iota.
  assert (Hvertical :
    match Sites.CanvasLayout.GetVerticalSection layout with
    | Some vertSection => Sites.verticalText unescapeEntities "markdown" vertSection
    | None => ""
    end
    = GoStrings.concat
        (Sites.verticalWebPart unescapeEntities "markdown" 0
           <$> match Sites.CanvasLayout.GetVerticalSection layout with
               | Some vertSection =>
                   default [] (Sites.VerticalSection.GetWebparts vertSection)
               | None => []
               end)).
  { destruct (Sites.CanvasLayout.GetVerticalSection layout); [|done].
    apply vertical_written. }
  rewrite Hvertical. clear Hvertical.
  destruct (Sites.CanvasLayout.GetHorizontalSections layout) as [sections|].
  - rewrite (writeAll_imap_done "" _
               (fun section => GoStrings.concat
                  (columnBlockText unescapeEntities <$>
                     (column ← default [] (Sites.HorizontalSection.GetColumns section);
                      default [] (Sites.CanvasColumn.GetWebparts column))))).
    + cbn [writeAll bind]. by rewrite append_empty_r, !append_empty_l.
    + intros i section Hsection. apply section_written.
      intros column webPart Hcolumn HwebPart. apply Hparts.
      apply list_elem_of_bind. exists section. split; [|done].
      apply list_elem_of_bind. by exists column.
  - cbn [writeAll bind]. by rewrite append_empty_r, !append_empty_l.
Qed.

(** X5. In markdown a page is its title, its description and the texts of the
    web parts of its canvas one after the other: the horizontal sections in
    their order, within a section its columns, within a column its web
    parts, and the vertical section last. No heading, count or index is
    written between them; the fallback text stands for an empty document. *)
Theorem page_is_written_in_document_order (client : Sites.GraphServiceClient)
    (siteId pageId : string) (page : Sites.SitePage.t) :
  Sites.PageGet client siteId pageId = Ok page ->
  (forall layout webPart,
     Sites.SitePage.GetCanvasLayout page = Some layout ->
     webPart ∈ columnBlocks layout ->
     Sites.horizontalWebPart unescapeEntities "markdown" 0 webPart <> Panicked) ->
  let written :=
    Sites.titleText "markdown" page
    +:+ Sites.descriptionText "markdown" page
    +:+ match Sites.SitePage.GetCanvasLayout page with
        | Some layout =>
            GoStrings.concat (columnBlockText unescapeEntities <$> columnBlocks layout)
            +:+ GoStrings.concat
                  (Sites.verticalWebPart unescapeEntities "markdown" 0
                     <$> verticalBlocks layout)
        | None => ""
        end in
  Sites.getPageContent unescapeEntities client siteId pageId "markdown"
  = Done (if String.eqb written "" then noContentMarkdown else written, None).
Proof.
  intros Hpage Hparts written. unfold Sites.getPageContent. rewrite Hpage.
  assert (Hcanvas :
    match Sites.SitePage.GetCanvasLayout page with
    | Some layout => Sites.canvasText unescapeEntities "markdown" layout
    | None => Done ""
    end
    = Done match Sites.SitePage.GetCanvasLayout page with
           | Some layout =>
               GoStrings.concat (columnBlockText unescapeEntities <$> columnBlocks layout)
               +:+ GoStrings.concat
                     (Sites.verticalWebPart unescapeEntities "markdown" 0
                        <$> verticalBlocks layout)
           | None => ""
           end).
  { destruct (Sites.SitePage.GetCanvasLayout page) as [layout|]; [|done].
    apply canvas_written. intros webPart. by apply Hparts. }
  rewrite Hcanvas. cbn [writeAll bind]. rewrite append_empty_r.
  fold written. change (Sites.isMarkdown "markdown") with true. cbv iota.
  by destruct (String.eqb written "").
Qed.

End WalkFacts.

Lemma page_is_written_in_document_order_witness :
  Sites.getPageContent keepEntities
    (serving (page "p" (Some "Home") (Some (inColumn bothSources)))) "s" "p" "markdown"
  = Done ("## Home" +:+ LF +:+ LF +:+ "A" +:+ LF +:+ LF, None).
Proof.
  rewrite (page_is_written_in_document_order keepEntities
             (serving (page "p" (Some "Home") (Some (inColumn bothSources))))
             "s" "p" (page "p" (Some "Home") (Some (inColumn bothSources)))).
  - by vm_compute.
  - reflexivity.
  - intros layout webPart [= <-] Hin. apply list_elem_of_singleton in Hin.
    subst webPart. by vm_compute.
Defined.

(** ** The sources of a web part *)

Lemma writeAll_panics (steps : list (outcome string)) :
  Panicked ∈ steps -> writeAll steps = Panicked.
Proof.
  induction steps as [|step steps IH]; intros Hin; [by apply elem_of_nil in Hin|].
  apply elem_of_cons in Hin as [<-|Hin]; [done|].
  cbn [writeAll]. rewrite IH by done. by destruct step.
Qed.

Section ResolverLaws.
Variable unescapeEntities : string -> string.



(** X7. In a format other than markdown the heading of a horizontal section
    dereferences the layout of the section: a section without a layout makes
    [getPageContent] panic. *)
Theorem plain_format_needs_the_section_layout (client : Sites.GraphServiceClient)
    (siteId pageId format : string) (page : Sites.SitePage.t)
    (layout : Sites.CanvasLayout.t) (sections : list Sites.HorizontalSection.t)
    (section : Sites.HorizontalSection.t) :
  Sites.isMarkdown format = false ->
  Sites.PageGet client siteId pageId = Ok page ->
  Sites.SitePage.GetCanvasLayout page = Some layout ->
  Sites.CanvasLayout.GetHorizontalSections layout = Some sections ->
  section ∈ sections ->
  Sites.HorizontalSection.GetLayout section = None ->
  Sites.getPageContent unescapeEntities client siteId pageId format = Panicked.
Proof.
  intros Hformat Hpage Hlayout Hsections Hsection Hnil.
  unfold Sites.getPageContent. rewrite Hpage, Hlayout.
  assert (Hcanvas : Sites.canvasText unescapeEntities format layout = Panicked).
  { unfold Sites.canvasText. rewrite Hsections.
    assert (Hwalk : writeAll
              (Done (if Sites.isMarkdown format then ""
                     else "Number of horizontal sections: "
                          +:+ pretty (length sections) +:+ LF)
               :: imap (Sites.sectionText unescapeEntities format) sections)
              = Panicked).
    { apply writeAll_panics. right.
      apply list_elem_of_lookup_1 in Hsection as [secIdx Hlookup].
      apply elem_of_lookup_imap. exists secIdx, section. split; [|done].
      unfold Sites.sectionText. by rewrite Hformat, Hnil. }
    rewrite Hwalk. apply writeAll_panics. right. by left. }
  rewrite Hcanvas, writeAll_panics; [done|]. right. right. by left.
Qed.

(** X8. [getPageContent] returns an error exactly when the page cannot be
    fetched, with no content then; a fetched page always has content. *)
Theorem content_or_error (client : Sites.GraphServiceClient)
    (siteId pageId format content : string) (err : option error) :
  Sites.getPageContent unescapeEntities client siteId pageId format
  = Done (content, err) ->
  match err with
  | Some err =>
      content = ""
      /\ exists cause, Sites.PageGet client siteId pageId = Failed cause
                       /\ err = "error getting page content: " +:+ cause
  | None =>
      content <> "" /\ exists page, Sites.PageGet client siteId pageId = Ok page
  end.
Proof.
  unfold Sites.getPageContent.
  destruct (Sites.PageGet client siteId pageId) as [page|cause].
  - destruct (writeAll _) as [written|]; [|done]. cbn [bind].
    destruct (String.eqb_spec written "") as [->|Hne].
    + destruct (Sites.isMarkdown format); intros [= <- <-]; split; eauto.
    + intros [= <- <-]. split; eauto.
  - intros [= <- <-]. split; eauto.
Qed.

End ResolverLaws.


Lemma plain_format_needs_the_section_layout_witness :
  Sites.getPageContent keepEntities
    (serving (page "p" None
       (Some {| Sites.CanvasLayout.GetHorizontalSections :=
                  Some [ {| Sites.HorizontalSection.GetLayout := None;
                            Sites.HorizontalSection.GetColumns := None |} ];
                Sites.CanvasLayout.GetVerticalSection := None |})))
    "s" "p" "text"
  = Panicked.
Proof.
  eapply (plain_format_needs_the_section_layout keepEntities);
    [reflexivity | reflexivity | reflexivity | reflexivity | by left | reflexivity].
Defined.

Lemma content_or_error_witness :
  "" = ""
  /\ exists cause,
       Sites.PageGet intranet "s1" "broken" = Failed cause
       /\ "error getting page content: " +:+ "404 Not Found"
          = "error getting page content: " +:+ cause.
Proof.
  exact (content_or_error keepEntities intranet "s1" "broken" "markdown" ""
           (Some ("error getting page content: " +:+ "404 Not Found")) eq_refl).
Defined.

(** ** Records merged by identifier *)

Section MergeFacts.
Context {T : Type}.
Variable convert : T -> string * Attrs.

Abbreviation store :=
  (fun (data : gmap string Attrs) (r : T) => <[(convert r).1 := (convert r).2]> data).

Lemma latest_app (k : string) (rs1 rs2 : list T) :
  latest (fun r => (convert r).1) k (rs1 ++ rs2)
  = match latest (fun r => (convert r).1) k rs2 with
    | Some later => Some later
    | None => latest (fun r => (convert r).1) k rs1
    end.
Proof.
  induction rs1 as [|r rs1 IH]; cbn [app latest].
  - by destruct (latest _ k rs2).
  - rewrite IH. by destruct (latest _ k rs2).
Qed.

Lemma merged_lookup (k : string) (rs : list T) (data : gmap string Attrs) :
  foldl store data rs !! k
  = match latest (fun r => (convert r).1) k rs with
    | Some r => Some (convert r).2
    | None => data !! k
    end.
Proof.
  revert data. induction rs as [|r rs IH]; intros data; [done|].
  cbn [foldl latest]. rewrite IH.
  destruct (latest _ k rs); [done|].
  destruct (String.eqb_spec (convert r).1 k) as [<-|Hne].
  - apply lookup_insert_eq.
  - by apply lookup_insert_ne.
Qed.

(** Storing the first page and then the whole run, which starts on the
    first page again, gives every identifier its last record. *)
Lemma merged_run (k : string) (first : list T) (result : Response T) :
  GetValue result = Some first ->
  foldl store (foldl store ∅ first) (records result) !! k
  = (fun r => (convert r).2) <$> latest (fun r => (convert r).1) k (records result).
Proof.
  intros Hvalue. rewrite !merged_lookup, lookup_empty.
  destruct result as [value next]. cbn in Hvalue. subst value.
  destruct next as [| |page|err]; cbn [records default from_option id];
    try by destruct (latest _ k first).
  rewrite latest_app.
  destruct (latest _ k (records page)); [done|]. by destruct (latest _ k first).
Qed.

End MergeFacts.

Section MergeLaws.
Variable EncodeToString : string -> string.
Variable MarshalIndent : gmap string Attrs -> option string * option error.

(** X9. When every link of the run is fetched, the collection [Get] serializes
    holds, under each identifier, the attribute map of the last record
    served with that identifier, and nothing under any other key: for
    users, for applications, and for sites before they are enriched. *)
Theorem records_are_merged_by_identifier :
  (forall client params result first,
     Users.UsersGet client (default emptyParams params) = Ok result ->
     GetValue result = Some first ->
     allFetched result = true ->
     exists usersData,
       Users.Get MarshalIndent client params = MarshalIndent usersData
       /\ forall k,
            usersData !! k
            = (fun user => (Users.convertUserToMap user).2)
                <$> latest (fun user => (Users.convertUserToMap user).1) k
                      (records result))
  /\ (forall client params result first,
        Applications.ApplicationsGet client (default emptyParams params) = Ok result ->
        GetValue result = Some first ->
        allFetched result = true ->
        exists applicationsData,
          Applications.Get EncodeToString MarshalIndent client params
          = MarshalIndent applicationsData
          /\ forall k,
               applicationsData !! k
               = (fun application =>
                    (Applications.convertApplicationToMap EncodeToString application).2)
                   <$> latest
                         (fun application =>
                            (Applications.convertApplicationToMap EncodeToString
                               application).1)
                         k (records result))
  /\ (forall client params result first,
        Sites.SitesGet client (default Sites.defaultParams params) = Ok result ->
        GetValue result = Some first ->
        allFetched result = true ->
        exists sitesData,
          Sites.aggregate client params = (Some sitesData, None)
          /\ forall k,
               sitesData !! k
               = (fun site => (Sites.convertSiteToMap site).2)
                   <$> latest (fun site => (Sites.convertSiteToMap site).1) k
                         (records result)).
Proof.
  split; [|split]; intros client params result first Hget Hvalue Hall.
  - unfold Users.Get, Users.aggregate. rewrite Hget, Hvalue.
    rewrite (Iterate_all_fetched Users.storeUser) by done.
    eexists. split; [reflexivity|]. intros k.
    apply (merged_run Users.convertUserToMap k first result Hvalue).
  - unfold Applications.Get, Applications.aggregate. rewrite Hget, Hvalue.
    rewrite (Iterate_all_fetched (Applications.storeApplication EncodeToString))
      by done.
    eexists. split; [reflexivity|]. intros k.
    apply (merged_run (Applications.convertApplicationToMap EncodeToString)
             k first result Hvalue).
  - unfold Sites.aggregate. rewrite Hget, Hvalue.
    destruct (hasNonEmptyNextLink result) eqn:Hlink.
    + rewrite (Iterate_all_fetched Sites.storeSite) by done.
      eexists. split; [reflexivity|]. intros k.
      apply (merged_run Sites.convertSiteToMap k first result Hvalue).
    + eexists. split; [reflexivity|]. intros k.
      rewrite (merged_lookup Sites.convertSiteToMap), lookup_empty.
      destruct result as [value [| |page|err]]; try done;
        cbn in Hvalue; subst value; cbn [records default from_option id];
        by destruct (latest _ k first).
Qed.

End MergeLaws.

Lemma records_are_merged_by_identifier_witness :
  exists usersData,
    Users.Get countEntries
      {| Users.UsersGet := fun _ => Ok (Resp (Some [ann]) NoLink) |} None
    = countEntries usersData
    /\ usersData !! "u1" = Some (Users.convertUserToMap ann).2
    /\ usersData !! "u2" = None.
Proof.
  destruct (proj1 (records_are_merged_by_identifier keepEntities countEntries)
              {| Users.UsersGet := fun _ => Ok (Resp (Some [ann]) NoLink) |}
              None (Resp (Some [ann]) NoLink) [ann] eq_refl eq_refl eq_refl)
    as (usersData & Hget & Hdata).
  exists usersData. split; [done|]. by rewrite !Hdata.
Defined.

(** ** The listings of a site *)

Lemma collected (A : Type) (items fetched : list A) :
  foldl (fun st item => (st ++ [item])%list) fetched items = (fetched ++ items)%list.
Proof.
  revert fetched. induction items as [|item items IH]; intros fetched; cbn.
  - by rewrite app_nil_r.
  - rewrite IH. by rewrite <- app_assoc.
Qed.

(** X10. When every link is fetched, [GetPages] and [GetSubsites] list the
    records of the run in the order served; when the first response has a
    link, the records of the first page come a second time in front, since
    they are collected before the iterator starts on that page. *)
Theorem listing_repeats_the_first_page (client : Sites.GraphServiceClient)
    (siteId : string) :
  (forall result,
     Sites.PagesGet client siteId = Ok result ->
     allFetched result = true ->
     Sites.GetPages client siteId
     = (((if hasNextLink result then default [] (GetValue result) else [])
         ++ records result)%list, None))
  /\ (forall result,
        Sites.SubsitesGet client siteId = Ok result ->
        allFetched result = true ->
        Sites.GetSubsites client siteId
        = (((if hasNextLink result then default [] (GetValue result) else [])
            ++ records result)%list, None)).
Proof.
  split; intros result Hget Hall.
  - unfold Sites.GetPages. rewrite Hget.
    destruct (hasNextLink result) eqn:Hlink.
    + rewrite (Iterate_all_fetched (fun page pages => (pages ++ [page])%list))
        by done.
      by rewrite collected.
    + by destruct result as [value [| |page|err]].
  - unfold Sites.GetSubsites. rewrite Hget.
    destruct (hasNextLink result) eqn:Hlink.
    + rewrite (Iterate_all_fetched (fun subsite subsites => (subsites ++ [subsite])%list))
        by done.
      by rewrite collected.
    + by destruct result as [value [| |page|err]].
Qed.

Lemma listing_repeats_the_first_page_witness :
  Sites.GetPages
    {| Sites.SitesGet := fun _ => Failed "unavailable";
       Sites.SubsitesGet := fun _ => Failed "unavailable";
       Sites.PagesGet := fun _ =>
         Ok (Resp (Some [page "a" None None])
               (LinkTo (Resp (Some [page "b" None None]) NoLink)));
       Sites.PageGet := fun _ _ => Failed "unavailable" |} "s"
  = ([page "a" None None; page "a" None None; page "b" None None], None).
Proof.
  exact (proj1 (listing_repeats_the_first_page
                  {| Sites.SitesGet := fun _ => Failed "unavailable";
                     Sites.SubsitesGet := fun _ => Failed "unavailable";
                     Sites.PagesGet := fun _ =>
                       Ok (Resp (Some [page "a" None None])
                             (LinkTo (Resp (Some [page "b" None None]) NoLink)));
                     Sites.PageGet := fun _ _ => Failed "unavailable" |} "s")
           (Resp (Some [page "a" None None])
                 (LinkTo (Resp (Some [page "b" None None]) NoLink)))
           eq_refl eq_refl).
Defined.

(** ** Sites that cannot be listed *)

Section EnrichmentLaws.
Variable unescapeEntities : string -> string.
Variable MarshalIndent : gmap string Attrs -> option string * option error.
Variable client : Sites.GraphServiceClient.

Hypothesis renders : forall siteId pageId,
  Sites.getPageContent unescapeEntities client siteId pageId "markdown" <> Panicked.


End EnrichmentLaws.


(** ** The registry of tools *)

Section RegistryFacts.
Import Collection.

Lemma registered_name_panics (tools : list Tool) (known : gmap string Tool) :
  (exists t, t ∈ tools /\ is_Some (known !! Name t)) ->
  registerAll tools (Some known) = Panicked.
Proof.
  revert known. induction tools as [|t tools IH]; intros known (t' & Hin & Hsome).
  { by apply elem_of_nil in Hin. }
  unfold registerAll. cbn [forEach RegisterTool].
  destruct (known !! Name t) as [earlier|] eqn:Hknown; [done|]. cbn [bind].
  apply IH. apply elem_of_cons in Hin as [->|Hin].
  { rewrite Hknown in Hsome. by destruct Hsome. }
  exists t'. split; [done|].
  destruct (decide (Name t = Name t')) as [Heq|Hne].
  - rewrite Heq, lookup_insert_eq. eauto.
  - by rewrite lookup_insert_ne.
Qed.

Lemma repeated_name_panics (tools : list Tool) (known : gmap string Tool) :
  ~ NoDup (Name <$> tools) -> registerAll tools (Some known) = Panicked.
Proof.
  revert known. induction tools as [|t tools IH]; intros known Hdup.
  { destruct Hdup. constructor. }
  unfold registerAll. cbn [forEach RegisterTool].
  destruct (known !! Name t) as [earlier|] eqn:Hknown; [done|]. cbn [bind].
  destruct (decide (Name t ∈ Name <$> tools)) as [Hin|Hfresh].
  - apply registered_name_panics.
    apply list_elem_of_fmap in Hin as (t' & Heq & Hin).
    exists t'. split; [done|]. rewrite <- Heq, lookup_insert_eq. eauto.
  - apply IH. intros Hnodup. apply Hdup. cbn. by constructor.
Qed.

Lemma distinct_names_register (tools : list Tool) (known : gmap string Tool) :
  NoDup (Name <$> tools) ->
  (forall t, t ∈ tools -> known !! Name t = None) ->
  exists registered,
    registerAll tools (Some known) = Done (Some registered)
    /\ (forall t, t ∈ tools -> registered !! Name t = Some t)
    /\ (forall k, k ∉ Name <$> tools -> registered !! k = known !! k).
Proof.
  revert known. induction tools as [|t tools IH]; intros known Hnodup Hfresh.
  { exists known. split; [done|]. split; [|done].
    intros t Hin. by apply elem_of_nil in Hin. }
  cbn in Hnodup. apply NoDup_cons in Hnodup as [Hnew Hnodup].
  destruct (IH (<[Name t := t]> known) Hnodup) as (registered & Hrun & Hin & Hout).
  { intros t' Hin'. rewrite lookup_insert_ne.
    - apply Hfresh. by right.
    - intros Heq. apply Hnew. apply list_elem_of_fmap. by exists t'. }
  exists registered. split; [|split].
  - unfold registerAll. cbn [forEach RegisterTool].
    rewrite (Hfresh t) by by left. exact Hrun.
  - intros t' [->|Hin']%elem_of_cons; [|by apply Hin].
    rewrite Hout by done. apply lookup_insert_eq.
  - intros k [Hne Hk]%not_elem_of_cons. rewrite Hout by done.
    by apply lookup_insert_ne.
Qed.

(** X12. Registering tools one after the other on the initialized registry
    succeeds exactly when their names are pairwise distinct; every tool is
    then found under its name and the registry holds nothing else. With a
    repeated name, and on a registry that was not initialized, the
    registration panics. *)
Theorem tools_register_under_distinct_names (tools : list Tool) :
  (NoDup (Name <$> tools) ->
   exists registered,
     registerAll tools init = Done (Some registered)
     /\ (forall t, t ∈ tools -> registered !! Name t = Some t)
     /\ (forall k, is_Some (registered !! k) -> k ∈ Name <$> tools))
  /\ (~ NoDup (Name <$> tools) -> registerAll tools init = Panicked)
  /\ (tools <> [] -> registerAll tools None = Panicked).
Proof.
  split; [|split].
  - intros Hnodup.
    destruct (distinct_names_register tools ∅ Hnodup) as (registered & Hrun & Hin & Hout).
    { intros t _. apply lookup_empty. }
    exists registered. split; [done|]. split; [done|].
    intros k Hsome. destruct (decide (k ∈ Name <$> tools)) as [|Hk]; [done|].
    rewrite (Hout k Hk), lookup_empty in Hsome. by destruct Hsome.
  - apply repeated_name_panics.
  - by destruct tools.
Qed.

End RegistryFacts.

Lemma tools_register_under_distinct_names_witness :
  exists registered,
    registerAll
      [ Processors.sitesTool keepEntities countEntries;
        Processors.usersTool countEntries;
        Processors.applicationsTool keepEntities countEntries ]
      Collection.init
    = Done (Some registered)
    /\ registered !! "users" = Some (Processors.usersTool countEntries).
Proof.
  destruct (proj1 (tools_register_under_distinct_names
              [ Processors.sitesTool keepEntities countEntries;
                Processors.usersTool countEntries;
                Processors.applicationsTool keepEntities countEntries ]))
    as (registered & Hrun & Hin & _).
  { apply (bool_decide_unpack _). by vm_compute. }
  exists registered. split; [done|].
  apply (Hin (Processors.usersTool countEntries)). right. by left.
Defined.

(** ** The processors of the tools *)

Section ProcessorFacts.
Import Baggage Collection Processors.
Variable unescapeEntities : string -> string.
Variable EncodeToString : string -> string.
Variable MarshalIndent : gmap string Attrs -> option string * option error.
Variable Getenv : string -> string.

Lemma answer_shape (failure : string) (got : option string * option error)
    (result : CallToolResult) (err : option error) :
  answer failure got = (result, err) ->
  match err with
  | Some _ => result = NewToolResultError failure
  | None => IsError result = false
  end.
Proof. destruct got as [jsonData [e|]]; by intros [= <- <-]. Qed.

Lemma filter_needs_a_string (field : string) (request : CallToolRequest) :
  filterBy field request <> Panicked ->
  forall name, Arguments request !! "name" = Some name -> exists s, name = VStr s.
Proof.
  unfold filterBy. intros Hfilter name Hname. rewrite Hname in Hfilter.
  destruct name; try done. eauto.
Qed.

Ltac from_client Hrun :=
  match type of Hrun with
  | context [BaggageFromContext ?ctx] =>
      destruct (BaggageFromContext ctx) as [|[client|]| |]; try done;
      eexists; (split; [reflexivity|])
  end.

(** X13. A processor returns only in a context whose baggage is the client; its
    result is an error result whenever [Get] fails. In a context that
    carries a token, as [WithTokenFromRequest] and [WithTokenFromEnv] build
    it, the three processors panic on the type assertion. *)
Theorem processors_need_the_client :
  answersFromClient "failed to get sites"
    (sitesProcessor unescapeEntities MarshalIndent)
  /\ answersFromClient "failed to get users" (usersProcessor MarshalIndent)
  /\ answersFromClient "failed to get applications"
       (applicationsProcessor EncodeToString MarshalIndent)
  /\ (forall ctx request,
        carriesToken Getenv ctx ->
        sitesProcessor unescapeEntities MarshalIndent ctx request = Panicked
        /\ usersProcessor MarshalIndent ctx request = Panicked
        /\ applicationsProcessor EncodeToString MarshalIndent ctx request
           = Panicked).
Proof.
  split; [|split; [|split]].
  - intros ctx request result err Hrun. unfold sitesProcessor in Hrun.
    from_client Hrun; cbn [assertClient bind] in Hrun; [|by injection Hrun as <- <-].
    split.
    + apply (filter_needs_a_string "displayName").
      by destruct (filterBy "displayName" request).
    + destruct (filterBy "displayName" request) as [params|]; [|done].
      cbn [bind] in Hrun. destruct (Sites.Get _ _ _ _) as [got|]; [|done].
      cbn [bind] in Hrun. injection Hrun as Hrun. by apply answer_shape in Hrun.
  - intros ctx request result err Hrun. unfold usersProcessor in Hrun.
    from_client Hrun; cbn [assertClient bind] in Hrun; [|by injection Hrun as <- <-].
    split.
    + apply (filter_needs_a_string "givenName").
      by destruct (filterBy "givenName" request).
    + destruct (filterBy "givenName" request) as [params|]; [|done].
      cbn [bind] in Hrun. injection Hrun as Hrun. by apply answer_shape in Hrun.
  - intros ctx request result err Hrun. unfold applicationsProcessor in Hrun.
    from_client Hrun; cbn [assertClient bind] in Hrun; [|by injection Hrun as <- <-].
    split.
    + apply (filter_needs_a_string "displayName").
      by destruct (filterBy "displayName" request).
    + destruct (filterBy "displayName" request) as [params|]; [|done].
      cbn [bind] in Hrun. injection Hrun as Hrun. by apply answer_shape in Hrun.
  - by intros ctx request [(parent & r & ->)|(parent & ->)].
Qed.

End ProcessorFacts.

Lemma processors_need_the_client_witness :
  exists client,
    Baggage.BaggageFromContext
      (Baggage.WithInfomation
         (Baggage.AnyClient
            (Some {| Msgraphsdk.forSites := intranet;
                     Msgraphsdk.forUsers := usersClient;
                     Msgraphsdk.forApplications := applicationsClient |})) [])
    = Baggage.AnyClient client
    /\ match client with
       | None =>
           Collection.NewToolResultError "failed to get users"
           = Collection.NewToolResultError "client not found"
           /\ Some "503 Service Unavailable" = None
       | Some _ =>
           (forall name,
              Collection.Arguments
                {| Collection.Arguments := {[ "name" := VStr "Ann" ]} |} !! "name"
              = Some name ->
              exists s, name = VStr s)
           /\ Collection.NewToolResultError "failed to get users"
              = Collection.NewToolResultError "failed to get users"
       end.
Proof.
  exact (proj1 (proj2 (processors_need_the_client keepEntities keepEntities
                         countEntries (fun _ => "")))
           (Baggage.WithInfomation
              (Baggage.AnyClient
                 (Some {| Msgraphsdk.forSites := intranet;
                          Msgraphsdk.forUsers := usersClient;
                          Msgraphsdk.forApplications := applicationsClient |})) [])
           {| Collection.Arguments := {[ "name" := VStr "Ann" ]} |}
           (Collection.NewToolResultError "failed to get users")
           (Some "503 Service Unavailable") eq_refl).
Defined.

(** ** The attribute maps *)

Lemma setIf_lookup {A} (key : string) (toValue : A -> Value) (field : option A)
    (m : Attrs) (k : string) (v : Value) :
  setIf key toValue field m !! k = Some v -> k = key \/ m !! k = Some v.
Proof.
  destruct field as [x|]; cbn; [|by right].
  destruct (decide (key = k)) as [->|Hne]; [by left|].
  rewrite lookup_insert_ne by done. by right.
Qed.

Lemma setIf_lookup_ne {A} (key : string) (toValue : A -> Value) (field : option A)
    (m : Attrs) (k : string) :
  key <> k -> setIf key toValue field m !! k = m !! k.
Proof. intros Hne. destruct field; cbn; [by apply lookup_insert_ne|done]. Qed.

Lemma setIf_lookup_eq {A} (key : string) (toValue : A -> Value) (field : option A)
    (m : Attrs) :
  m !! key = None -> setIf key toValue field m !! key = toValue <$> field.
Proof. intros Hm. destruct field; cbn; [apply lookup_insert_eq|done]. Qed.

Lemma copyInto_lookup_typed (additional m : Attrs) (k : string) (v : Value) :
  copyInto additional m !! k = Some v ->
  additional !! k = Some v \/ m !! k = Some v.
Proof.
  unfold copyInto. rewrite lookup_union_Some_raw. intros [H|[_ H]]; eauto.
Qed.

Lemma copyInto_lookup_none (additional m : Attrs) (k : string) :
  additional !! k = None -> copyInto additional m !! k = m !! k.
Proof. intros H. unfold copyInto. by apply lookup_union_r. Qed.

Ltac typed_key H :=
  repeat (apply setIf_lookup in H as [->|H]; [by repeat constructor|]);
  try (rewrite lookup_empty in H; discriminate H).

(** X14. An attribute map has no key of its own making: each key is one of the
    typed attribute names of its normalizer or a key of the additional data
    of the record, with the value found there. *)
Theorem attribute_names_are_known (EncodeToString : string -> string)
    (k : string) (v : Value) :
  (forall user,
     (Users.convertUserToMap user).2 !! k = Some v ->
     k ∈ userKeys
     \/ exists data, Users.GetAdditionalData user = Some data /\ data !! k = Some v)
  /\ (forall application,
        (Applications.convertApplicationToMap EncodeToString application).2 !! k
        = Some v ->
        k ∈ applicationKeys
        \/ exists data, Applications.GetAdditionalData application = Some data
                        /\ data !! k = Some v)
  /\ (forall site,
        (Sites.convertSiteToMap site).2 !! k = Some v ->
        k ∈ siteKeys \/ Sites.Site.GetAdditionalData site !! k = Some v)
  /\ (forall page,
        (Sites.convertSitePageToMap page).2 !! k = Some v ->
        k ∈ pageKeys \/ Sites.SitePage.GetAdditionalData page !! k = Some v).
Proof.
  split; [|split; [|split]].
  - intros user H. unfold Users.convertUserToMap in H. cbn [snd] in H.
    destruct (Users.GetAdditionalData user) as [data|].
    + apply copyInto_lookup_typed in H as [H|H]; [right; eauto|].
      left. typed_key H.
    + left. typed_key H.
  - intros application H.
    unfold Applications.convertApplicationToMap in H. cbn [snd] in H.
    assert (Htyped : forall m : Attrs,
              (if (0 <? String.length (Applications.GetLogo application))%nat
               then <["logo" := VStr (EncodeToString (Applications.GetLogo application))]> m
               else m) !! k = Some v ->
              k = "logo" \/ m !! k = Some v).
    { intros m Hm. destruct (0 <? _)%nat; [|by right].
      destruct (decide ("logo" = k)) as [<-|Hne]; [by left|].
      rewrite lookup_insert_ne in Hm by done. by right. }
    destruct (Applications.GetAdditionalData application) as [data|].
    + apply copyInto_lookup_typed in H as [H|H]; [right; eauto|].
      left. typed_key H. apply Htyped in H as [->|H]; [by repeat constructor|].
      typed_key H.
    + left. typed_key H. apply Htyped in H as [->|H]; [by repeat constructor|].
      typed_key H.
  - intros site H. unfold Sites.convertSiteToMap in H. cbn [snd] in H.
    apply copyInto_lookup_typed in H as [H|H]; [by right|].
    left. typed_key H.
  - intros page H. unfold Sites.convertSitePageToMap in H. cbn [snd] in H.
    apply copyInto_lookup_typed in H as [H|H]; [by right|].
    left. typed_key H.
Qed.

Lemma attribute_names_are_known_witness :
  "manager" ∈ userKeys
  \/ exists data, Users.GetAdditionalData ann = Some data /\ data !! "manager" = Some VNil.
Proof.
  apply (proj1 (attribute_names_are_known keepEntities "manager" VNil) ann).
  by vm_compute.
Defined.

(** X15. A record is stored under the identifier its attribute map shows as
    [id], and under the empty key when it has none, as long as the
    additional data of the record has no key [id] of its own. *)
Theorem identifier_is_the_id_attribute (EncodeToString : string -> string) :
  (forall user,
     (forall data, Users.GetAdditionalData user = Some data -> data !! "id" = None) ->
     (Users.convertUserToMap user).2 !! "id" = VStr <$> Users.GetId user
     /\ (Users.convertUserToMap user).1 = default "" (Users.GetId user))
  /\ (forall application,
        (forall data, Applications.GetAdditionalData application = Some data ->
                      data !! "id" = None) ->
        (Applications.convertApplicationToMap EncodeToString application).2 !! "id"
        = VStr <$> Applications.GetId application
        /\ (Applications.convertApplicationToMap EncodeToString application).1
           = default "" (Applications.GetId application))
  /\ (forall site,
        Sites.Site.GetAdditionalData site !! "id" = None ->
        (Sites.convertSiteToMap site).2 !! "id" = VStr <$> Sites.Site.GetId site
        /\ (Sites.convertSiteToMap site).1 = default "" (Sites.Site.GetId site))
  /\ (forall page,
        Sites.SitePage.GetAdditionalData page !! "id" = None ->
        (Sites.convertSitePageToMap page).2 !! "id" = VStr <$> Sites.SitePage.GetId page
        /\ (Sites.convertSitePageToMap page).1 = default "" (Sites.SitePage.GetId page)).
Proof.
  split; [|split; [|split]].
  - intros user Hdata. split; [|done].
    unfold Users.convertUserToMap. cbn [snd].
    destruct (Users.GetAdditionalData user) as [data|];
      [rewrite copyInto_lookup_none by by apply Hdata|];
      rewrite !setIf_lookup_ne by done; by apply setIf_lookup_eq.
  - intros application Hdata. split; [|done].
    unfold Applications.convertApplicationToMap. cbn [snd].
    destruct (Applications.GetAdditionalData application) as [data|];
      [rewrite copyInto_lookup_none by by apply Hdata|];
      rewrite !setIf_lookup_ne by done;
      (destruct (0 <? _)%nat; [rewrite lookup_insert_ne by done|]);
      rewrite !setIf_lookup_ne by done; by apply setIf_lookup_eq.
  - intros site Hdata. split; [|done].
    unfold Sites.convertSiteToMap. cbn [snd].
    rewrite copyInto_lookup_none by done.
    rewrite !setIf_lookup_ne by done. by apply setIf_lookup_eq.
  - intros page Hdata. split; [|done].
    unfold Sites.convertSitePageToMap. cbn [snd].
    rewrite copyInto_lookup_none by done.
    rewrite !setIf_lookup_ne by done. by apply setIf_lookup_eq.
Qed.

Lemma identifier_is_the_id_attribute_witness :
  (Users.convertUserToMap ann).2 !! "id" = VStr <$> Users.GetId ann
  /\ (Users.convertUserToMap ann).1 = default "" (Users.GetId ann).
Proof.
  apply (proj1 (identifier_is_the_id_attribute keepEntities) ann).
  intros data [= <-]. by vm_compute.
Defined.

(** ** The other rules of the transducer *)

Lemma star_fails {A} (g : bool) (c : cclass) (s : string) (k : string -> option A) :
  (forall n, k (drop n s) = None) -> star g c s k = None.
Proof.
  induction s as [|a t IH]; intros Hk.
  - exact (Hk 0).
  - cbn [star]. pose proof (Hk 0) as H0. cbn [drop] in H0.
    rewrite IH; [|intros n; exact (Hk (S n))].
    rewrite H0. by destruct (cmatch c a), g.
Qed.

Lemma CutPrefix_absent (l s : string) (n : nat) :
  occursIn l s = false -> CutPrefix l (drop n s) = None.
Proof.
  revert n. induction s as [|a t IH]; intros n Hs.
  - pose proof (HasPrefix_occursIn _ _ Hs) as H. unfold HasPrefix in H.
    destruct n; cbn [drop]; by destruct (CutPrefix l "").
  - pose proof (HasPrefix_occursIn _ _ Hs) as H. unfold HasPrefix in H.
    cbn in Hs. apply orb_false_elim in Hs as [_ Ht].
    destruct n as [|n]; cbn [drop]; [by destruct (CutPrefix l _)|by apply IH].
Qed.

Section NoMatchFacts.
Variable r : re.
Variable l : string.
Hypothesis r_starts : startsWith (String "<" l) r.

Lemma unchanged_without_match (s : string) (repl : list tpart) :
  (forall n, matchAt r (drop n s) = None) ->
  ReplaceAllString r s repl = s /\ FindAllStringSubmatch r s = [].
Proof.
  induction s as [|a t IH]; intros Hs.
  - pose proof (Hs 0) as H0. cbn [drop] in H0. split.
    + rewrite (ReplaceAllString_unfold r (String "<" l)) by done.
      by rewrite H0.
    + rewrite (FindAllStringSubmatch_unfold r (String "<" l)) by done.
      by rewrite H0.
  - destruct IH as [IHr IHf]; [intros n; exact (Hs (S n))|].
    pose proof (Hs 0) as H0. cbn [drop] in H0. split.
    + rewrite (ReplaceAllString_unfold r (String "<" l)) by done.
      by rewrite H0, IHr.
    + rewrite (FindAllStringSubmatch_unfold r (String "<" l)) by done.
      by rewrite H0, IHf.
Qed.

Lemma text_is_copied (t u : string) (repl : list tpart) :
  ContainsByte "<" t = false ->
  ReplaceAllString r (t +:+ u) repl = t +:+ ReplaceAllString r u repl.
Proof.
  intros Ht. induction t as [|a t IH]; [done|].
  cbn in Ht. apply orb_false_elim in Ht as [Ha Ht].
  rewrite !append_cons.
  rewrite (ReplaceAllString_unfold r (String "<" l)) by done.
  rewrite (matchAt_needs_literal r (String "<" l)); [by rewrite IH|done|].
  cbn [CutPrefix]. by rewrite Ascii.eqb_sym, Ha.
Qed.

End NoMatchFacts.

Lemma greedy_star_stops {A} (name rest : string) (k : string -> option A) :
  ContainsByte ">" name = false ->
  k (String ">" rest) <> None ->
  star true (Not ">") (name +:+ String ">" rest) k = k (String ">" rest).
Proof.
  intros Hname Hk. induction name as [|a name IH].
  - reflexivity.
  - rewrite append_cons. cbn in Hname. apply orb_false_elim in Hname as [Ha Hname].
    cbn [star cmatch]. rewrite Ha. cbn [negb].
    rewrite (IH Hname). by destruct (k (String ">" rest)).
Qed.

Lemma tag_is_dropped (name rest : string) :
  ContainsByte ">" name = false ->
  ReplaceAllString Sites.tagRegex (String "<" (name +:+ String ">" rest)) []
  = ReplaceAllString Sites.tagRegex rest [].
Proof.
  intros Hname.
  rewrite (ReplaceAllString_unfold _ "<"); [|by eexists|done].
  unfold matchAt, Sites.tagRegex. cbn [exec CutPrefix].
  rewrite Ascii.eqb_refl. rewrite greedy_star_stops; [|done|].
  - cbn [CutPrefix]. rewrite Ascii.eqb_refl. cbn [CutPrefix].
    change (expand [] _) with "".
    replace (String.length (String "<" (name +:+ String ">" rest)) - String.length rest)
      with (S (String.length name + 1)).
    + cbn [drop]. rewrite append_empty_l. f_equal.
      clear Hname. induction name as [|a name IH]; [done|].
      rewrite append_cons. cbn [String.length Nat.add drop]. exact IH.
    + cbn [String.length]. rewrite length_append. cbn [String.length]. lia.
  - cbn [CutPrefix]. by rewrite Ascii.eqb_refl.
Qed.

Lemma CutPrefix_is_drop (p s rest : string) :
  CutPrefix p s = Some rest -> rest = drop (String.length p) s.
Proof.
  revert s. induction p as [|a p IH]; intros s; cbn [CutPrefix String.length drop].
  { intros [= ->]. by destruct rest. }
  destruct s as [|b s]; [done|]. destruct (Ascii.eqb a b); [|done]. apply IH.
Qed.

Lemma occursIn_drop (l : string) (n : nat) (s : string) :
  occursIn l s = false -> occursIn l (drop n s) = false.
Proof.
  revert s. induction n as [|n IH]; intros s Hs; [by destruct s|].
  destruct s as [|a s]; [done|]. cbn [drop]. apply IH.
  cbn in Hs. by apply orb_false_elim in Hs as [_ Hs].
Qed.

Lemma occursIn_rest (l p s rest : string) :
  occursIn l s = false -> CutPrefix p s = Some rest -> occursIn l rest = false.
Proof. intros Hs ->%CutPrefix_is_drop. by apply occursIn_drop. Qed.

Lemma name_never_closes {A} (name s1 : string)
    (K : string -> string -> string -> string -> A) :
  occursIn "</\1>" s1 = false ->
  match CutPrefix name s1 with
  | Some t =>
      star true (Not ">") t
        (fun t0 => match CutPrefix ">" t0 with
                   | Some t1 =>
                       star false Dot t1
                         (fun t2 => match CutPrefix "</\1>" t2 with
                                    | Some t3 => Some (K t t1 t2 t3)
                                    | None => None
                                    end)
                   | None => None
                   end)
  | None => None
  end = None.
Proof.
  intros Hs1. destruct (CutPrefix name s1) as [s2|] eqn:H2; [|done].
  pose proof (occursIn_rest _ _ _ _ Hs1 H2) as Hs2.
  apply star_fails. intros n.
  destruct (CutPrefix ">" (drop n s2)) as [v|] eqn:H3; [|done].
  pose proof (occursIn_rest _ _ _ _ (occursIn_drop _ n _ Hs2) H3) as Hv.
  apply star_fails. intros m. by rewrite CutPrefix_absent.
Qed.

(** The three rules whose closing part is the literal [</\1>]. *)
Lemma named_rule_finds_nothing (a b : string) (s : string) :
  occursIn "</\1>" s = false ->
  matchAt (Lit "<" · Cap 1 (Lit a || Lit b) · Star true (Not ">") · Lit ">"
           · Cap 2 (Star false Dot) · Lit "</\1>")%re s
  = None.
Proof.
  intros Hs. unfold matchAt. cbn [exec].
  destruct (CutPrefix "<" s) as [s1|] eqn:H1; [|done].
  pose proof (occursIn_rest _ _ _ _ Hs H1) as Hs1.
  by rewrite !name_never_closes.
Qed.

Lemma named_rule_skips (a b : string) (s : string) (repl : list tpart) :
  occursIn "</\1>" s = false ->
  ReplaceAllString (Lit "<" · Cap 1 (Lit a || Lit b) · Star true (Not ">") · Lit ">"
                    · Cap 2 (Star false Dot) · Lit "</\1>")%re s repl = s
  /\ FindAllStringSubmatch
       (Lit "<" · Cap 1 (Lit a || Lit b) · Star true (Not ">") · Lit ">"
        · Cap 2 (Star false Dot) · Lit "</\1>")%re s = [].
Proof.
  intros Hs. apply (unchanged_without_match _ ""); [by eexists|].
  intros n. apply named_rule_finds_nothing. by apply occursIn_drop.
Qed.

Lemma divs_without_closing (fuel : nat) (s : string) :
  occursIn "</\1>" s = false -> Sites.unwrapDivs fuel s = s.
Proof.
  intros Hs. destruct fuel as [|fuel]; [done|]. cbn [Sites.unwrapDivs].
  unfold MatchString, Sites.divRegex.
  by rewrite (proj2 (named_rule_skips "div" "span" s [] Hs)).
Qed.

Ltac rule_absent Hx r lit x :=
  rewrite (unchanged_without_literal r lit ltac:(by eexists) ltac:(done) x _
             (Hx lit ltac:(by repeat constructor))).

Ltac marker_not_found Hx old x :=
  rewrite (Replace_without_occurrence x old LF (-1)
             (Hx old ltac:(by repeat constructor))).

Section UnmatchedFacts.
Variable unescapeEntities : string -> string.

(** Where none of these literals occurs, the rules for rules and line
    breaks are the first to see the text. *)
Lemma unmatched_markup_reaches_the_breaks (htmlContent : string) :
  let x := Sites.UnescapeString unescapeEntities htmlContent in
  (forall l, l ∈ ruleLiterals -> occursIn l x = false) ->
  Sites.htmlToMarkdown unescapeEntities htmlContent
  = ReplaceAllString Sites.spaceRegex
      (TrimSpace
         (ReplaceAllString Sites.tagRegex
            (ReplaceAllString Sites.brRegex
               (Sites.unwrapDivs
                  (String.length
                     (ReplaceAllString Sites.hrRegex x [T "---"; T LF; T LF]))
                  (ReplaceAllString Sites.hrRegex x [T "---"; T LF; T LF]))
               [T LF])
            []))
      [T LF; T LF].
Proof.
  intros x Hx. unfold Sites.htmlToMarkdown. cbv zeta. fold x.
  rule_absent Hx Sites.h1Regex "<h1" x. rule_absent Hx Sites.h2Regex "<h2" x.
  rule_absent Hx Sites.h3Regex "<h3" x. rule_absent Hx Sites.h4Regex "<h4" x.
  rule_absent Hx Sites.pRegex "<p" x.
  unfold Sites.boldRegex, Sites.italicRegex.
  rewrite (proj1 (named_rule_skips "b" "strong" x _
                    (Hx "</\1>" ltac:(by repeat constructor)))).
  rewrite (proj1 (named_rule_skips "i" "em" x _
                    (Hx "</\1>" ltac:(by repeat constructor)))).
  rule_absent Hx Sites.linkRegex "<a" x.
  marker_not_found Hx "<ul>" x. marker_not_found Hx "</ul>" x.
  rule_absent Hx Sites.liRegex "<li" x.
  marker_not_found Hx "<ol>" x. marker_not_found Hx "</ol>" x.
  rule_absent Hx Sites.olLiRegex "<li" x.
  rule_absent Hx Sites.imgRegex "<img" x.
  rewrite (no_match_without_literal Sites.tableRegex "<table"
             ltac:(by eexists) ltac:(done) x
             (Hx "<table" ltac:(by repeat constructor))).
  cbn [foldl].
  rule_absent Hx Sites.preRegex "<pre" x. rule_absent Hx Sites.codeRegex "<code" x.
  rule_absent Hx Sites.blockquoteRegex "<blockquote" x.
  reflexivity.
Qed.

End UnmatchedFacts.

Lemma expand_around_group (before after : string) (s t : string) :
  expand [T before; G 1; T after] (<[0 := s]> (<[1 := t]> ∅))
  = before +:+ t +:+ after.
Proof.
  unfold expand. rewrite !fmap_cons, fmap_nil, !concat_cons.
  replace (<[0 := s]> (<[1 := t]> ∅) !! 1) with (Some t) by reflexivity.
  cbn [default]. change (GoStrings.concat []) with "".
  by rewrite append_empty_r.
Qed.

Lemma trimmed_is_kept (y : string) :
  occursIn (LF +:+ LF +:+ LF) y = false ->
  ReplaceAllString Sites.spaceRegex (TrimSpace y) [T LF; T LF] = TrimSpace y.
Proof.
  intros Hy.
  apply (unchanged_without_literal _ (LF +:+ LF +:+ LF)); [by eexists|done|].
  destruct (TrimSpace_piece y) as (p & q & Heq).
  apply (occursIn_piece _ p _ q). by rewrite <- Heq.
Qed.

Lemma no_run_in_line (t after : string) :
  ContainsByte "010" t = false ->
  after = "" \/ after = LF \/ after = LF +:+ LF ->
  occursIn (LF +:+ LF +:+ LF) (t +:+ after) = false.
Proof.
  intros Ht Hafter. pose proof (no_run_after_line t Ht) as Hrun.
  destruct Hafter as [->|[->| ->]]; [| |done].
  - apply (occursIn_piece _ "" _ (LF +:+ LF)).
    by rewrite append_empty_l, append_empty_r.
  - apply (occursIn_piece _ "" _ LF).
    by rewrite append_empty_l, append_assoc.
Qed.

Section EmphasisFacts.
Variable unescapeEntities : string -> string.
Variable t : string.
Hypothesis no_markup : ContainsByte "<" t = false.
Hypothesis no_entity : ContainsByte "&" t = false.
Hypothesis no_run : occursIn (LF +:+ LF +:+ LF) t = false.

(** An element [<name>t</name>] none of the earlier rules looks for loses
    its two tags. *)
Lemma unknown_element_is_unwrapped (name : string) :
  ContainsByte ">" name = false ->
  ContainsByte "&" name = false ->
  (forall l, l ∈ "<hr" :: "<br" :: ruleLiterals ->
     occursIn l (String "<" (name +:+ String ">" (t +:+ "</" +:+ name +:+ ">")))
     = false) ->
  Sites.htmlToMarkdown unescapeEntities
    (String "<" (name +:+ String ">" (t +:+ "</" +:+ name +:+ ">")))
  = TrimSpace t.
Proof.
  intros Hname Hamp Hall.
  pose proof (Hall "<hr" ltac:(by left)) as Hhr.
  pose proof (Hall "<br" ltac:(by right; left)) as Hbr.
  assert (Hx : forall l, l ∈ ruleLiterals ->
            occursIn l (String "<" (name +:+ String ">" (t +:+ "</" +:+ name +:+ ">")))
            = false).
  { intros l Hl. apply Hall. by do 2 right. }
  assert (Hplain : Sites.UnescapeString unescapeEntities
                     (String "<" (name +:+ String ">" (t +:+ "</" +:+ name +:+ ">")))
                   = String "<" (name +:+ String ">" (t +:+ "</" +:+ name +:+ ">"))).
  { unfold Sites.UnescapeString.
    repeat (rewrite ?ContainsByte_append; cbn [ContainsByte]).
    by rewrite Hamp, no_entity. }
  rewrite unmatched_markup_reaches_the_breaks; rewrite Hplain; [|exact Hx].
  rewrite (unchanged_without_literal Sites.hrRegex "<hr" ltac:(by eexists)
             ltac:(done) _ _ Hhr).
  rewrite (divs_without_closing _ _ (Hx "</\1>" ltac:(by repeat constructor))).
  rewrite (unchanged_without_literal Sites.brRegex "<br" ltac:(by eexists)
             ltac:(done) _ _ Hbr).
  rewrite (tag_is_dropped name _ Hname).
  rewrite (text_is_copied Sites.tagRegex "" ltac:(by eexists) t _ [] no_markup).
  change ("</" +:+ name +:+ ">") with (String "<" (("/" +:+ name) +:+ String ">" "")).
  rewrite (tag_is_dropped ("/" +:+ name) "").
  - rewrite (ReplaceAllString_unfold Sites.tagRegex "<"); [|by eexists|done].
    change (matchAt Sites.tagRegex "") with (@None (nat * Captures)). cbv iota.
    rewrite append_empty_r. by apply trimmed_is_kept.
  - by rewrite ContainsByte_append, Hname.
Qed.

Ltac no_rule_literal :=
  let l := fresh "l" in
  let Hl := fresh "Hl" in
  intros l Hl; unfold ruleLiterals in Hl;
  repeat (apply elem_of_cons in Hl as [->|Hl]; [literal_absent no_markup|]);
  by apply elem_of_nil in Hl.

(** X16. Emphasis is lost: on one plain text, [<b>], [<strong>], [<i>] and
    [<em>] give the text alone, without asterisks, and so do [<div>] and
    [<span>]. The closing part of their three rules is the literal [</\1>],
    which no such element holds, and the tags go with all other tags. *)
Theorem emphasis_is_dropped :
  Sites.htmlToMarkdown unescapeEntities ("<b>" +:+ t +:+ "</b>") = TrimSpace t
  /\ Sites.htmlToMarkdown unescapeEntities ("<strong>" +:+ t +:+ "</strong>")
     = TrimSpace t
  /\ Sites.htmlToMarkdown unescapeEntities ("<i>" +:+ t +:+ "</i>") = TrimSpace t
  /\ Sites.htmlToMarkdown unescapeEntities ("<em>" +:+ t +:+ "</em>") = TrimSpace t
  /\ Sites.htmlToMarkdown unescapeEntities ("<div>" +:+ t +:+ "</div>") = TrimSpace t
  /\ Sites.htmlToMarkdown unescapeEntities ("<span>" +:+ t +:+ "</span>")
     = TrimSpace t.
Proof.
  repeat split.
  - apply (unknown_element_is_unwrapped "b"); [done|done|no_rule_literal].
  - apply (unknown_element_is_unwrapped "strong"); [done|done|no_rule_literal].
  - apply (unknown_element_is_unwrapped "i"); [done|done|no_rule_literal].
  - apply (unknown_element_is_unwrapped "em"); [done|done|no_rule_literal].
  - apply (unknown_element_is_unwrapped "div"); [done|done|no_rule_literal].
  - apply (unknown_element_is_unwrapped "span"); [done|done|no_rule_literal].
Qed.

End EmphasisFacts.

Lemma emphasis_is_dropped_witness :
  Sites.htmlToMarkdown keepEntities "<strong>Note</strong>" = "Note"
  /\ Sites.htmlToMarkdown keepEntities "<em>Note</em>" = "Note".
Proof.
  split.
  - exact (proj1 (proj2 (emphasis_is_dropped keepEntities "Note"
                           eq_refl eq_refl eq_refl))).
  - exact (proj1 (proj2 (proj2 (proj2 (emphasis_is_dropped keepEntities "Note"
                                         eq_refl eq_refl eq_refl))))).
Defined.

(** The rules find nothing in a text without [<]. *)
Ltac rest_of_rules d Hs :=
  try rule_skips Sites.h1Regex d Hs; try rule_skips Sites.h2Regex d Hs;
  try rule_skips Sites.h3Regex d Hs; try rule_skips Sites.h4Regex d Hs;
  try rule_skips Sites.pRegex d Hs; try rule_skips Sites.boldRegex d Hs;
  try rule_skips Sites.italicRegex d Hs; try rule_skips Sites.linkRegex d Hs;
  try marker_absent "<ul>" d Hs; try marker_absent "</ul>" d Hs;
  try rule_skips Sites.liRegex d Hs;
  try marker_absent "<ol>" d Hs; try marker_absent "</ol>" d Hs;
  try rule_skips Sites.olLiRegex d Hs; try rule_skips Sites.imgRegex d Hs;
  try (rewrite (proj2 (rule_without_markup Sites.tableRegex _ _ d [] eq_refl Hs));
       cbn [foldl]);
  try rule_skips Sites.preRegex d Hs; try rule_skips Sites.codeRegex d Hs;
  try rule_skips Sites.blockquoteRegex d Hs; try rule_skips Sites.hrRegex d Hs;
  rewrite unwrapDivs_without_literal by exact Hs;
  rule_skips Sites.brRegex d Hs; rule_skips Sites.tagRegex d Hs.

Ltac named_rule_absent a b x Hlt :=
  let H := fresh "Habsent" in
  assert (H : occursIn "</\1>" x = false) by literal_absent Hlt;
  rewrite (proj1 (named_rule_skips a b x _ H)); clear H.

Ltac marker_missing old x Hlt :=
  let H := fresh "Habsent" in
  assert (H : occursIn old x = false) by literal_absent Hlt;
  rewrite (Replace_without_occurrence x old LF (-1) H); clear H.

Ltac rules_before_items x Hlt :=
  earlier_rule Sites.h1Regex "<h1" x Hlt; earlier_rule Sites.h2Regex "<h2" x Hlt;
  earlier_rule Sites.h3Regex "<h3" x Hlt; earlier_rule Sites.h4Regex "<h4" x Hlt;
  earlier_rule Sites.pRegex "<p" x Hlt;
  unfold Sites.boldRegex, Sites.italicRegex;
  named_rule_absent "b" "strong" x Hlt; named_rule_absent "i" "em" x Hlt;
  earlier_rule Sites.linkRegex "<a" x Hlt;
  marker_missing "<ul>" x Hlt; marker_missing "</ul>" x Hlt.

Ltac rules_before_code x Hlt :=
  rules_before_items x Hlt;
  earlier_rule Sites.liRegex "<li" x Hlt;
  marker_missing "<ol>" x Hlt; marker_missing "</ol>" x Hlt;
  earlier_rule Sites.olLiRegex "<li" x Hlt;
  earlier_rule Sites.imgRegex "<img" x Hlt;
  let H := fresh "Habsent" in
  assert (H : occursIn "<table" x = false) by literal_absent Hlt;
  rewrite (no_match_without_literal Sites.tableRegex "<table"
             ltac:(by eexists) ltac:(done) x H);
  clear H; cbn [foldl];
  earlier_rule Sites.preRegex "<pre" x Hlt.

Section ItemFacts.
Variable unescapeEntities : string -> string.
Variable t : string.
Hypothesis no_markup : ContainsByte "<" t = false.
Hypothesis no_entity : ContainsByte "&" t = false.
Hypothesis one_line : ContainsByte "010" t = false.

Lemma list_item :
  Sites.htmlToMarkdown unescapeEntities ("<li>" +:+ t +:+ "</li>")
  = TrimSpace ("- " +:+ t +:+ LF).
Proof.
  unfold Sites.htmlToMarkdown. cbv zeta.
  rewrite (element_is_not_decoded unescapeEntities t no_entity "<li>" "</li>") by done.
  rules_before_items ("<li>" +:+ t +:+ "</li>") no_markup.
  change ("<li>" +:+ t +:+ "</li>") with ("<li" +:+ ">" +:+ t +:+ String "<" "/li>").
  change Sites.liRegex with
    (Lit "<li" · Star true (Not ">") · Lit ">" · Cap 1 (Star false Dot)
     · Lit (String "<" "/li>"))%re.
  rewrite (element_is_rewritten "<li" "/li>" t) by done.
  rewrite (expand_around_group "- " LF).
  assert (Hs : ContainsByte "<" ("- " +:+ t +:+ LF) = false).
  { by rewrite !ContainsByte_append, no_markup. }
  set (y := "- " +:+ t +:+ LF) in *.
  rest_of_rules y Hs. apply trimmed_is_kept. subst y.
  rewrite <- (append_assoc "- " t LF). apply no_run_in_line; [|by right; left].
  by rewrite ContainsByte_append, one_line.
Qed.

Lemma inline_code :
  Sites.htmlToMarkdown unescapeEntities ("<code>" +:+ t +:+ "</code>")
  = TrimSpace ("`" +:+ t +:+ "`").
Proof.
  unfold Sites.htmlToMarkdown. cbv zeta.
  rewrite (element_is_not_decoded unescapeEntities t no_entity "<code>" "</code>")
    by done.
  rules_before_code ("<code>" +:+ t +:+ "</code>") no_markup.
  change ("<code>" +:+ t +:+ "</code>")
    with ("<code" +:+ ">" +:+ t +:+ String "<" "/code>").
  change Sites.codeRegex with
    (Lit "<code" · Star true (Not ">") · Lit ">" · Cap 1 (Star false Dot)
     · Lit (String "<" "/code>"))%re.
  rewrite (element_is_rewritten "<code" "/code>" t) by done.
  rewrite (expand_around_group "`" "`").
  assert (Hs : ContainsByte "<" ("`" +:+ t +:+ "`") = false).
  { by rewrite !ContainsByte_append, no_markup. }
  set (y := "`" +:+ t +:+ "`") in *.
  rest_of_rules y Hs. apply trimmed_is_kept. subst y.
  rewrite <- (append_empty_r ("`" +:+ t +:+ "`")).
  apply no_run_in_line; [|by left].
  by rewrite !ContainsByte_append, one_line.
Qed.

Lemma block_quote :
  Sites.htmlToMarkdown unescapeEntities ("<blockquote>" +:+ t +:+ "</blockquote>")
  = TrimSpace ("> " +:+ t +:+ LF +:+ LF).
Proof.
  unfold Sites.htmlToMarkdown. cbv zeta.
  rewrite (element_is_not_decoded unescapeEntities t no_entity
             "<blockquote>" "</blockquote>") by done.
  rules_before_code ("<blockquote>" +:+ t +:+ "</blockquote>") no_markup.
  earlier_rule Sites.codeRegex "<code" ("<blockquote>" +:+ t +:+ "</blockquote>")
    no_markup.
  change ("<blockquote>" +:+ t +:+ "</blockquote>")
    with ("<blockquote" +:+ ">" +:+ t +:+ String "<" "/blockquote>").
  change Sites.blockquoteRegex with
    (Lit "<blockquote" · Star true (Not ">") · Lit ">" · Cap 1 (Star false Dot)
     · Lit (String "<" "/blockquote>"))%re.
  rewrite (element_is_rewritten "<blockquote" "/blockquote>" t) by done.
  rewrite (expand_one_group "> ").
  destruct (line_is_trimmed t no_markup one_line "> " eq_refl eq_refl)
    as [Hs Hend].
  set (y := "> " +:+ t +:+ LF +:+ LF) in *.
  rest_of_rules y Hs. exact Hend.
Qed.

(** X17. A list item, a code span and a block quote without attributes that
    hold one line of plain text become that line behind a dash, between
    backquotes, and behind [>]; the result is trimmed. The item gets the
    dash whatever list it stands in. *)
Theorem items_code_and_quotes :
  Sites.htmlToMarkdown unescapeEntities ("<li>" +:+ t +:+ "</li>")
  = TrimSpace ("- " +:+ t +:+ LF)
  /\ Sites.htmlToMarkdown unescapeEntities ("<code>" +:+ t +:+ "</code>")
     = TrimSpace ("`" +:+ t +:+ "`")
  /\ Sites.htmlToMarkdown unescapeEntities ("<blockquote>" +:+ t +:+ "</blockquote>")
     = TrimSpace ("> " +:+ t +:+ LF +:+ LF).
Proof. repeat split; [apply list_item|apply inline_code|apply block_quote]. Qed.

End ItemFacts.

Lemma items_code_and_quotes_witness :
  Sites.htmlToMarkdown keepEntities "<li>milk</li>" = "- milk"
  /\ Sites.htmlToMarkdown keepEntities "<code>go test</code>" = "`go test`"
  /\ Sites.htmlToMarkdown keepEntities "<blockquote>So it goes.</blockquote>"
     = "> So it goes.".
Proof.
  split; [|split].
  - exact (proj1 (items_code_and_quotes keepEntities "milk"
                    eq_refl eq_refl eq_refl)).
  - exact (proj1 (proj2 (items_code_and_quotes keepEntities "go test"
                           eq_refl eq_refl eq_refl))).
  - exact (proj2 (proj2 (items_code_and_quotes keepEntities "So it goes."
                           eq_refl eq_refl eq_refl))).
Defined.

Lemma drop_append (a b : string) : drop (String.length a) (a +:+ b) = b.
Proof. induction a as [|c a IH]; [by destruct b|]. by rewrite append_cons. Qed.

(** The rules of the form [<tag[^>]*>] where the tag stands. *)
Lemma void_element_is_rewritten (l attrs rest text : string) (repl : list tpart) :
  (forall m, expand repl m = text) ->
  ContainsByte ">" attrs = false ->
  ReplaceAllString (Lit (String "<" l) · Star true (Not ">") · Lit ">")%re
    (String "<" l +:+ attrs +:+ String ">" rest) repl
  = text +:+ ReplaceAllString (Lit (String "<" l) · Star true (Not ">") · Lit ">")%re
               rest repl.
Proof.
  intros Hrepl Hattrs.
  rewrite (ReplaceAllString_unfold _ (String "<" l)); [|by eexists|done].
  unfold matchAt. cbn [exec]. rewrite CutPrefix_self.
  rewrite greedy_star_stops; [|done|].
  - cbn [CutPrefix]. rewrite Ascii.eqb_refl. cbn [CutPrefix].
    rewrite Hrepl. f_equal.
    replace (String.length (String "<" l +:+ attrs +:+ String ">" rest)
             - String.length rest)
      with (String.length ((String "<" l +:+ attrs) +:+ ">")).
    + rewrite <- (drop_append ((String "<" l +:+ attrs) +:+ ">") rest) at 2.
      f_equal. f_equal. by rewrite !append_assoc.
    + rewrite !length_append. cbn [String.length]. lia.
  - cbn [CutPrefix]. by rewrite Ascii.eqb_refl.
Qed.

Ltac literal_absent_around H1 H2 :=
  rewrite (occursIn_after_text _ _ _ H1);
  rewrite ?append_cons, ?append_empty_l; cbn [occursIn];
  rewrite (no_literal_in_text _ _ H2); reflexivity.

Ltac no_rule_literal_around H1 H2 :=
  let l := fresh "l" in
  let Hl := fresh "Hl" in
  intros l Hl; unfold ruleLiterals in Hl;
  repeat (apply elem_of_cons in Hl as [->|Hl]; [literal_absent_around H1 H2|]);
  by apply elem_of_nil in Hl.

Section BreakFacts.
Variable unescapeEntities : string -> string.
Variables t1 t2 : string.
Hypothesis no_markup_before : ContainsByte "<" t1 = false.
Hypothesis no_markup_after : ContainsByte "<" t2 = false.
Hypothesis no_entity_before : ContainsByte "&" t1 = false.
Hypothesis no_entity_after : ContainsByte "&" t2 = false.

Lemma break_is_not_decoded (tag : string) :
  ContainsByte "&" tag = false ->
  Sites.UnescapeString unescapeEntities (t1 +:+ tag +:+ t2) = t1 +:+ tag +:+ t2.
Proof.
  intros Htag. unfold Sites.UnescapeString.
  by rewrite !ContainsByte_append, no_entity_before, Htag, no_entity_after.
Qed.

Lemma line_break :
  occursIn (LF +:+ LF +:+ LF) (t1 +:+ LF +:+ t2) = false ->
  Sites.htmlToMarkdown unescapeEntities (t1 +:+ "<br>" +:+ t2)
  = TrimSpace (t1 +:+ LF +:+ t2).
Proof.
  intros Hruns.
  rewrite unmatched_markup_reaches_the_breaks; rewrite break_is_not_decoded by done;
    [|no_rule_literal_around no_markup_before no_markup_after].
  assert (Hhr : occursIn "<hr" (t1 +:+ "<br>" +:+ t2) = false)
    by literal_absent_around no_markup_before no_markup_after.
  assert (Hclosing : occursIn "</\1>" (t1 +:+ "<br>" +:+ t2) = false)
    by literal_absent_around no_markup_before no_markup_after.
  rewrite (unchanged_without_literal Sites.hrRegex "<hr" ltac:(by eexists)
             ltac:(done) _ _ Hhr).
  rewrite (divs_without_closing _ _ Hclosing).
  rewrite (text_is_copied Sites.brRegex "br" ltac:(by eexists) t1 _ _
             no_markup_before).
  change ("<br>" +:+ t2) with ("<br" +:+ "" +:+ String ">" t2).
  unfold Sites.brRegex.
  rewrite (void_element_is_rewritten "br" "" t2 LF [T LF]) by done.
  assert (Hs : ContainsByte "<" (t1 +:+ LF +:+ t2) = false).
  { by rewrite !ContainsByte_append, no_markup_before, no_markup_after. }
  rewrite (proj1 (rule_without_markup _ _ "br" t2 [T LF] eq_refl no_markup_after)).
  rewrite (proj1 (rule_without_markup Sites.tagRegex _ "" _ [] eq_refl Hs)).
  by apply trimmed_is_kept.
Qed.

Lemma horizontal_rule :
  occursIn (LF +:+ LF +:+ LF) (t1 +:+ "---" +:+ LF +:+ LF +:+ t2) = false ->
  Sites.htmlToMarkdown unescapeEntities (t1 +:+ "<hr>" +:+ t2)
  = TrimSpace (t1 +:+ "---" +:+ LF +:+ LF +:+ t2).
Proof.
  intros Hruns.
  rewrite unmatched_markup_reaches_the_breaks; rewrite break_is_not_decoded by done;
    [|no_rule_literal_around no_markup_before no_markup_after].
  rewrite (text_is_copied Sites.hrRegex "hr" ltac:(by eexists) t1 _ _
             no_markup_before).
  change ("<hr>" +:+ t2) with ("<hr" +:+ "" +:+ String ">" t2).
  unfold Sites.hrRegex.
  rewrite (void_element_is_rewritten "hr" "" t2 ("---" +:+ LF +:+ LF)
             [T "---"; T LF; T LF]) by done.
  rewrite (proj1 (rule_without_markup _ _ "hr" t2 _ eq_refl no_markup_after)).
  assert (Hs : ContainsByte "<" (t1 +:+ ("---" +:+ LF +:+ LF) +:+ t2) = false).
  { by rewrite !ContainsByte_append, no_markup_before, no_markup_after. }
  set (y := t1 +:+ ("---" +:+ LF +:+ LF) +:+ t2) in *.
  rewrite unwrapDivs_without_literal by exact Hs.
  rule_skips Sites.brRegex y Hs. rule_skips Sites.tagRegex y Hs.
  by apply trimmed_is_kept.
Qed.

(** X18. Between two plain texts, [<br>] becomes one line feed and [<hr>]
    becomes [---] and two line feeds; the result is trimmed. *)
Theorem rules_and_line_breaks :
  (occursIn (LF +:+ LF +:+ LF) (t1 +:+ LF +:+ t2) = false ->
   Sites.htmlToMarkdown unescapeEntities (t1 +:+ "<br>" +:+ t2)
   = TrimSpace (t1 +:+ LF +:+ t2))
  /\ (occursIn (LF +:+ LF +:+ LF) (t1 +:+ "---" +:+ LF +:+ LF +:+ t2) = false ->
      Sites.htmlToMarkdown unescapeEntities (t1 +:+ "<hr>" +:+ t2)
      = TrimSpace (t1 +:+ "---" +:+ LF +:+ LF +:+ t2)).
Proof. split; [apply line_break|apply horizontal_rule]. Qed.

End BreakFacts.

Lemma rules_and_line_breaks_witness :
  Sites.htmlToMarkdown keepEntities "Dear all,<br>welcome."
  = "Dear all," +:+ LF +:+ "welcome."
  /\ Sites.htmlToMarkdown keepEntities "above<hr>below"
     = "above---" +:+ LF +:+ LF +:+ "below".
Proof.
  split.
  - exact (proj1 (rules_and_line_breaks keepEntities "Dear all," "welcome."
                    eq_refl eq_refl eq_refl eq_refl) eq_refl).
  - exact (proj2 (rules_and_line_breaks keepEntities "above" "below"
                    eq_refl eq_refl eq_refl eq_refl) eq_refl).
Defined.

(** ** The request of a processor *)

Lemma forEach_ext {A S} (body1 body2 : A -> S -> outcome S) (l : list A) (st : S) :
  (forall x st, body1 x st = body2 x st) ->
  forEach body1 l st = forEach body2 l st.
Proof.
  intros Hbody. revert st. induction l as [|x l IH]; intros st; [done|].
  cbn [forEach]. rewrite Hbody. destruct (body2 x st) as [st'|]; [apply IH|done].
Qed.

Section RequestFacts.
Import Baggage Collection Processors.
Variable unescapeEntities : string -> string.
Variable EncodeToString : string -> string.
Variable MarshalIndent : gmap string Attrs -> option string * option error.

Lemma filter_is_the_request (field : string) (request : CallToolRequest)
    (params : QueryParameters) :
  filterBy field request = Done params -> params = requestFor field request.
Proof.
  unfold filterBy, requestFor.
  destruct (Arguments request !! "name") as [[]|]; try done; by intros [= <-].
Qed.

Lemma enrich_same_site (client1 client2 : Sites.GraphServiceClient)
    (sitesData : gmap string Attrs) :
  sameSite client1 client2 ->
  Sites.enrich unescapeEntities client1 sitesData
  = Sites.enrich unescapeEntities client2 sitesData.
Proof.
  intros (Hsubsites & Hpages & Hpage). unfold Sites.enrich.
  apply forEach_ext. intros [id site] data. f_equal.
  unfold Sites.enrichSite, Sites.GetSubsites, Sites.GetPages.
  rewrite Hsubsites, Hpages.
  destruct (Sites.SubsitesGet client2 id) as [subsites|err]; [|done].
  assert (Hstore : forall pages pageData,
            forEach (Sites.storePage unescapeEntities client1 id) pages pageData
            = forEach (Sites.storePage unescapeEntities client2 id) pages pageData).
  { intros pages pageData. apply forEach_ext. intros page st.
    unfold Sites.storePage.
    destruct (Sites.convertSitePageToMap page) as [pageId pageInfo].
    unfold Sites.getPageContent. by rewrite Hpage. }
  repeat case_match; try done; by rewrite Hstore.
Qed.

(** X19. A processor asks the service for its collection once, with the
    filter on the name the call gives and no [Select]: two clients whose
    services answer that request alike (and, for sites, the requests about
    each site) give the same result. The [Select] list that [sites.Get]
    makes up for nil parameters is never sent by the tool. *)
Theorem processors_send_one_request (ctx : Context) (request : CallToolRequest)
    (client1 client2 : Msgraphsdk.GraphServiceClient) :
  (Users.UsersGet (Msgraphsdk.forUsers client1) (requestFor "givenName" request)
   = Users.UsersGet (Msgraphsdk.forUsers client2) (requestFor "givenName" request) ->
   usersProcessor MarshalIndent (WithInfomation (AnyClient (Some client1)) ctx) request
   = usersProcessor MarshalIndent (WithInfomation (AnyClient (Some client2)) ctx) request)
  /\ (Applications.ApplicationsGet (Msgraphsdk.forApplications client1)
        (requestFor "displayName" request)
      = Applications.ApplicationsGet (Msgraphsdk.forApplications client2)
          (requestFor "displayName" request) ->
      applicationsProcessor EncodeToString MarshalIndent
        (WithInfomation (AnyClient (Some client1)) ctx) request
      = applicationsProcessor EncodeToString MarshalIndent
          (WithInfomation (AnyClient (Some client2)) ctx) request)
  /\ (Sites.SitesGet (Msgraphsdk.forSites client1) (requestFor "displayName" request)
      = Sites.SitesGet (Msgraphsdk.forSites client2) (requestFor "displayName" request) ->
      sameSite (Msgraphsdk.forSites client1) (Msgraphsdk.forSites client2) ->
      sitesProcessor unescapeEntities MarshalIndent
        (WithInfomation (AnyClient (Some client1)) ctx) request
      = sitesProcessor unescapeEntities MarshalIndent
          (WithInfomation (AnyClient (Some client2)) ctx) request).
Proof.
  split; [|split].
  - intros Hsame. unfold usersProcessor.
    cbn [BaggageFromContext WithInfomation withBaggage WithValue CtxValue
         sameKey assertClient bind].
    destruct (filterBy "givenName" request) as [params|] eqn:Hparams; [|done].
    apply filter_is_the_request in Hparams as ->.
    cbn [bind]. unfold Users.Get, Users.aggregate. cbn [default from_option id].
    by rewrite Hsame.
  - intros Hsame. unfold applicationsProcessor.
    cbn [BaggageFromContext WithInfomation withBaggage WithValue CtxValue
         sameKey assertClient bind].
    destruct (filterBy "displayName" request) as [params|] eqn:Hparams; [|done].
    apply filter_is_the_request in Hparams as ->.
    cbn [bind]. unfold Applications.Get, Applications.aggregate.
    cbn [default from_option id]. by rewrite Hsame.
  - intros Hsame Hsite. unfold sitesProcessor.
    cbn [BaggageFromContext WithInfomation withBaggage WithValue CtxValue
         sameKey assertClient bind].
    destruct (filterBy "displayName" request) as [params|] eqn:Hparams; [|done].
    apply filter_is_the_request in Hparams as ->.
    cbn [bind]. unfold Sites.Get, Sites.aggregate. cbn [default from_option id].
    rewrite Hsame.
    destruct (Sites.SitesGet (Msgraphsdk.forSites client2) _) as [result|err];
      [|done].
    repeat case_match; try done; by rewrite (enrich_same_site _ _ _ Hsite).
Qed.
End RequestFacts.

Lemma processors_send_one_request_witness :
  Processors.usersProcessor countEntries
    (Baggage.WithInfomation
       (Baggage.AnyClient
          (Some {| Msgraphsdk.forSites := intranet;
                   Msgraphsdk.forUsers := usersClient;
                   Msgraphsdk.forApplications := applicationsClient |})) [])
    {| Collection.Arguments := ∅ |}
  = Processors.usersProcessor countEntries
      (Baggage.WithInfomation
         (Baggage.AnyClient
            (Some {| Msgraphsdk.forSites := intranet;
                     Msgraphsdk.forUsers :=
                       {| Users.UsersGet := fun params =>
                            match Filter params with
                            | None => Ok (brokenLink [ann])
                            | Some _ => Failed "400 Bad Request"
                            end |};
                     Msgraphsdk.forApplications := applicationsClient |})) [])
      {| Collection.Arguments := ∅ |}.
Proof.
  exact (proj1 (processors_send_one_request keepEntities keepEntities countEntries
                  [] {| Collection.Arguments := ∅ |}
                  {| Msgraphsdk.forSites := intranet;
                     Msgraphsdk.forUsers := usersClient;
                     Msgraphsdk.forApplications := applicationsClient |}
                  {| Msgraphsdk.forSites := intranet;
                     Msgraphsdk.forUsers :=
                       {| Users.UsersGet := fun params =>
                            match Filter params with
                            | None => Ok (brokenLink [ann])
                            | Some _ => Failed "400 Bad Request"
                            end |};
                     Msgraphsdk.forApplications := applicationsClient |})
           eq_refl).
Defined.

(** ** Links *)

Lemma greedy_star_fails {A} (x : ascii) (q w : string) (k : string -> option A) :
  failsInside k q (String x w) ->
  k (String x w) = None ->
  star true (Not x) (q +:+ String x w) k = None.
Proof.
  intros Hq Hw. induction q as [|a q IH].
  - rewrite append_empty_l. cbn [star cmatch]. by rewrite Ascii.eqb_refl.
  - destruct Hq as [Ha Hq]. rewrite append_cons. cbn [star].
    rewrite (IH Hq), Ha. by destruct (cmatch (Not x) a).
Qed.

Lemma failsInside_append {A} (k : string -> option A) (a b w : string) :
  failsInside k a (b +:+ w) -> failsInside k b w -> failsInside k (a +:+ b) w.
Proof.
  intros Ha Hb. induction a as [|c a IH]; [done|].
  destruct Ha as [Hc Ha]. rewrite append_cons. cbn [failsInside].
  rewrite append_assoc. split; [done|by apply IH].
Qed.

Lemma greedy_star_stops_at {A} (x : ascii) (name rest : string)
    (k : string -> option A) :
  ContainsByte x name = false ->
  k (String x rest) <> None ->
  star true (Not x) (name +:+ String x rest) k = k (String x rest).
Proof.
  intros Hname Hk. induction name as [|a name IH].
  - rewrite append_empty_l. cbn [star cmatch]. by rewrite Ascii.eqb_refl.
  - rewrite append_cons. cbn in Hname. apply orb_false_elim in Hname as [Ha Hname].
    cbn [star cmatch]. rewrite Ha. cbn [negb].
    rewrite (IH Hname). by destruct (k (String x rest)).
Qed.

Lemma CutPrefix_across (l m u rest : string) (c : ascii) :
  CutPrefix l u = None ->
  ContainsByte c l = false ->
  CutPrefix (l +:+ m) (u +:+ String c rest) = None.
Proof.
  revert u. induction l as [|a l IH]; intros u Hu Hc; [done|].
  cbn in Hc. apply orb_false_elim in Hc as [Ha Hc]. rewrite append_cons.
  destruct u as [|b u].
  - rewrite append_empty_l. cbn [CutPrefix]. by rewrite Ha.
  - rewrite append_cons. cbn [CutPrefix] in *.
    destruct (Ascii.eqb a b); [by apply IH|done].
Qed.

Lemma literal_fails_inside {A} (l m u rest : string) (c : ascii)
    (k : string -> option A) :
  occursIn l u = false ->
  ContainsByte c l = false ->
  failsInside (fun v => match CutPrefix (l +:+ m) v with
                        | Some v1 => k v1
                        | None => None
                        end) u (String c rest).
Proof.
  intros Hu Hc. induction u as [|a u IH]; [done|].
  pose proof (HasPrefix_occursIn _ _ Hu) as Hhere.
  cbn in Hu. apply orb_false_elim in Hu as [_ Hu]. split; [|by apply IH].
  rewrite <- append_cons, CutPrefix_across; [done| |done].
  unfold HasPrefix in Hhere. by destruct (CutPrefix l (String a u)).
Qed.

Lemma greedy_star_step {A} (x a : ascii) (s : string) (k : string -> option A) :
  Ascii.eqb a x = false ->
  star true (Not x) (String a s) k
  = match star true (Not x) s k with
    | Some y => Some y
    | None => k (String a s)
    end.
Proof. intros Ha. cbn [star cmatch]. by rewrite Ha. Qed.

Lemma CutPrefix_char (a : ascii) (s : string) :
  CutPrefix (String a "") (String a s) = Some s.
Proof. cbn [CutPrefix]. by rewrite Ascii.eqb_refl. Qed.

Lemma star_stops_here {A} (g : bool) (x : ascii) (s : string)
    (k : string -> option A) :
  star g (Not x) (String x s) k = k (String x s).
Proof. cbn [star cmatch]. by rewrite Ascii.eqb_refl. Qed.

Section LinkFacts.
Variable unescapeEntities : string -> string.
Variables u t : string.
Hypothesis url_no_quote : ContainsByte "034" u = false.
Hypothesis url_no_href : occursIn "href=" u = false.
Hypothesis url_no_markup : ContainsByte "<" u = false.
Hypothesis url_no_entity : ContainsByte "&" u = false.
Hypothesis url_one_line : ContainsByte "010" u = false.
Hypothesis text_one_line : ContainsByte "010" t = false.
Hypothesis text_no_markup : ContainsByte "<" t = false.
Hypothesis text_no_entity : ContainsByte "&" t = false.

Lemma href_is_found {A} (w : string) (k : string -> option A) :
  star true (Not ">") (" href=" +:+ DQ +:+ u +:+ DQ +:+ String ">" w)
    (fun v => match CutPrefix ("href=" +:+ DQ) v with
              | Some v1 => k v1
              | None => None
              end)
  = k (u +:+ DQ +:+ String ">" w).
Proof.
  set (K := fun v => match CutPrefix ("href=" +:+ DQ) v with
                     | Some v1 => k v1
                     | None => None
                     end).
  assert (Hinner : star true (Not ">") (u +:+ DQ +:+ String ">" w) K = None).
  { rewrite <- (append_assoc u DQ (String ">" w)).
    apply greedy_star_fails; [|done].
    apply failsInside_append; [|done].
    apply (literal_fails_inside "href=" DQ u (String ">" w) "034" k); done. }
  change (" href=" +:+ DQ +:+ u +:+ DQ +:+ String ">" w)
    with (String " " (String "h" (String "r" (String "e" (String "f" (String "="
            (String "034" (u +:+ DQ +:+ String ">" w)))))))).
  rewrite !greedy_star_step by reflexivity. rewrite Hinner.
  subst K.
  change ("href=" +:+ DQ)
    with (String "h" (String "r" (String "e" (String "f" (String "="
            (String "034" "")))))).
  cbn. by destruct (k _).
Qed.

Lemma link_is_matched :
  let s := "<a" +:+ " href=" +:+ DQ +:+ u +:+ DQ +:+ ">" +:+ t +:+ "</a>" in
  exists m, matchAt Sites.linkRegex s = Some (String.length s, m)
            /\ m !! 1 = Some u /\ m !! 2 = Some t.
Proof.
  intros s. unfold matchAt, Sites.linkRegex. cbn [exec]. subst s.
  rewrite CutPrefix_self.
  change (">" +:+ t +:+ "</a>") with (String ">" (t +:+ "</a>")).
  rewrite (href_is_found (t +:+ "</a>")).
  match goal with
  | |- context [star true (Not "034") _ ?K] => set (K2 := K)
  end.
  assert (Hquote : K2 (String "034" (String ">" (t +:+ "</a>")))
                   = Some (String.length
                             ("<a" +:+ " href=" +:+ DQ +:+ u +:+ DQ
                              +:+ String ">" (t +:+ "</a>")),
                           <[0 := "<a" +:+ " href=" +:+ DQ +:+ u +:+ DQ
                                  +:+ String ">" (t +:+ "</a>")]>
                             (<[2 := t]> (<[1 := u]> ∅)))).
  { subst K2. cbv beta. change DQ with (String "034" "").
    rewrite CutPrefix_char, star_stops_here, CutPrefix_char.
    rewrite lazy_star_reaches_closing; try done.
    - rewrite CutPrefix_same.
      change (String.length "") with 0. rewrite Nat.sub_0_r, take_all.
      rewrite (length_append t "</a>"), Nat.add_sub, take_append.
      change (String "034" "" +:+ String ">" (t +:+ "</a>"))
        with (String "034" (String ">" (t +:+ "</a>"))).
      rewrite (length_append u (String "034" (String ">" (t +:+ "</a>")))).
      by rewrite Nat.add_sub, take_append.
    - intros a v Ha. cbn [CutPrefix]. by rewrite Ascii.eqb_sym, Ha. }
  exists (<[0 := "<a" +:+ " href=" +:+ DQ +:+ u +:+ DQ
                 +:+ String ">" (t +:+ "</a>")]>
            (<[2 := t]> (<[1 := u]> ∅))).
  split; [|done].
  rewrite <- Hquote. apply greedy_star_stops_at; [done|].
  by rewrite Hquote.
Qed.

Abbreviation anchor :=
  ("<a" +:+ " href=" +:+ DQ +:+ u +:+ DQ +:+ ">" +:+ t +:+ "</a>").

Ltac absent_in_link :=
  unfold DQ; rewrite ?append_cons, ?append_empty_l; cbn [occursIn];
  rewrite (occursIn_after_text _ u _ url_no_markup); cbn [occursIn];
  rewrite (occursIn_after_text _ t _ text_no_markup); reflexivity.

Ltac before_link r lit :=
  let H := fresh "Habsent" in
  assert (H : occursIn lit anchor = false) by absent_in_link;
  rewrite (unchanged_without_literal r lit ltac:(by eexists) ltac:(done)
             anchor _ H);
  clear H.

Lemma link_is_not_decoded :
  Sites.UnescapeString unescapeEntities
    ("<a" +:+ " href=" +:+ DQ +:+ u +:+ DQ +:+ ">" +:+ t +:+ "</a>")
  = "<a" +:+ " href=" +:+ DQ +:+ u +:+ DQ +:+ ">" +:+ t +:+ "</a>".
Proof.
  unfold Sites.UnescapeString, DQ.
  repeat (rewrite ?ContainsByte_append; cbn [ContainsByte]).
  by rewrite url_no_entity, text_no_entity.
Qed.

Lemma link_expands (m : Captures) :
  m !! 1 = Some u -> m !! 2 = Some t ->
  expand [T "["; G 2; T "]("; G 1; T ")"] m = "[" +:+ t +:+ "](" +:+ u +:+ ")".
Proof.
  intros H1 H2. unfold expand. rewrite !fmap_cons, fmap_nil, !concat_cons.
  rewrite H1, H2. cbn [default]. change (GoStrings.concat []) with "".
  by rewrite append_empty_r.
Qed.

(** X20. A link whose address stands first in the tag and whose text is one
    line of plain text becomes the Markdown link of that text and address,
    trimmed. *)
Theorem link_becomes_markdown :
  Sites.htmlToMarkdown unescapeEntities
    ("<a" +:+ " href=" +:+ DQ +:+ u +:+ DQ +:+ ">" +:+ t +:+ "</a>")
  = TrimSpace ("[" +:+ t +:+ "](" +:+ u +:+ ")").
Proof.
  unfold Sites.htmlToMarkdown. cbv zeta. rewrite link_is_not_decoded.
  before_link Sites.h1Regex "<h1". before_link Sites.h2Regex "<h2".
  before_link Sites.h3Regex "<h3". before_link Sites.h4Regex "<h4".
  before_link Sites.pRegex "<p".
  unfold Sites.boldRegex, Sites.italicRegex.
  assert (Hclosing : occursIn "</\1>" anchor = false) by absent_in_link.
  rewrite (proj1 (named_rule_skips "b" "strong" anchor _ Hclosing)).
  rewrite (proj1 (named_rule_skips "i" "em" anchor _ Hclosing)).
  rewrite (ReplaceAllString_unfold Sites.linkRegex "<a"); [|by eexists|done].
  destruct link_is_matched as (m & -> & H1 & H2). rewrite drop_all.
  rewrite (ReplaceAllString_unfold Sites.linkRegex "<a"); [|by eexists|done].
  rewrite (matchAt_nothing _ "<a"); [|by eexists|done].
  rewrite append_empty_r, (link_expands m H1 H2).
  assert (Hs : ContainsByte "<" ("[" +:+ t +:+ "](" +:+ u +:+ ")") = false).
  { by rewrite !ContainsByte_append, text_no_markup, url_no_markup. }
  set (y := "[" +:+ t +:+ "](" +:+ u +:+ ")") in *.
  rest_of_rules y Hs. apply trimmed_is_kept. subst y.
  rewrite <- (append_empty_r ("[" +:+ t +:+ "](" +:+ u +:+ ")")).
  apply no_run_in_line; [|by left].
  by rewrite !ContainsByte_append, text_one_line, url_one_line.
Qed.

End LinkFacts.

Lemma link_becomes_markdown_witness :
  Sites.htmlToMarkdown keepEntities
    ("<a href=" +:+ DQ +:+ "https://example.org/a" +:+ DQ +:+ ">Example</a>")
  = "[Example](https://example.org/a)".
Proof.
  exact (link_becomes_markdown keepEntities "https://example.org/a" "Example"
           eq_refl eq_refl eq_refl eq_refl eq_refl eq_refl eq_refl eq_refl).
Defined.
